(** * Buffer resource, staging round trip and device factory of the IGL
      Vulkan backend

    A shallow embedding of [src/igl/vulkan/Buffer.cpp] and of the
    resource-factory functions of [igl::vulkan::Device], with the
    properties the specification states about them.

    Conventions.
    - [size_t] and [uintptr_t] are 64-bit unsigned integers: a [Z] in
      [[0, 2^64)], with the wrap-around of [+] and [-] written out
      ([add_sz], [sub_sz]).
    - Host memory handed in through a [const void*] is an
      [option (list byte)]: [None] is the null pointer, [Some d] a pointer
      to the readable bytes [d].
    - An out-parameter [Result* outResult] is an [option Result.t]: [None]
      when the caller passed a null pointer, [Some r] for a result object
      currently holding [r]; the functions return its final content.
    - Undefined behaviour of the C++ (dereferencing a null [buffer_], a
      copy that leaves an allocation) is the [None] of the monad [M].
    - Everything observable that a method does besides returning (a
      backend call, a tripped assertion) is recorded as an [Event]. *)

From Stdlib Require Import ZArith List String Ascii Bool Lia.
From Stdlib Require Import Strings.Byte.
Import ListNotations.

Local Open Scope string_scope.
Local Open Scope list_scope.
Local Open Scope Z_scope.

(** * The model *)

(** ** Machine integers *)

Definition size_t_width : Z := 64.
Definition size_t_modulus : Z := 2 ^ size_t_width.

Definition wrap (z : Z) : Z := z mod size_t_modulus.
Definition add_sz (a b : Z) : Z := wrap (a + b).
Definition sub_sz (a b : Z) : Z := wrap (a - b).

Definition is_size_t (z : Z) : Prop := 0 <= z < size_t_modulus.

Definition zlen {A : Type} (l : list A) : Z := Z.of_nat (List.length l).

(** ** igl::Result *)

Module Result.

(** Modelled from the spec: the [Result::Code] enumeration is declared in
    a header that is not part of the sources; these are the codes the
    error taxonomy of the specification names, plus the backend-propagated
    failure. *)
Inductive Code : Type :=
  | Ok
  | ArgumentInvalid
  | ArgumentNull
  | ArgumentOutOfRange
  | InvalidOperation
  | RuntimeError.

Record t : Type := mk { code : Code; message : string }.

(** [Result()] *)
Definition ok : t := mk Ok "".

Definition isOk (r : t) : bool :=
    match code r with Ok => true | _ => false end.

(** [Result::setResult(outResult, ...)]: stores through the pointer when
    it is not null. *)
Definition setResult (outResult : option t) (r : t) : option t :=
    match outResult with
    | None => None
    | Some _ => Some r
    end.

(** [Result::setOk(outResult)] *)
Definition setOk (outResult : option t) : option t := setResult outResult ok.

End Result.

(** ** Descriptors *)

(** Modelled from the spec: the [ResourceStorage] enumeration (declared
    outside the sources); the specification names the tiers Private
    (device-local only) and Shared (host-visible and coherent). *)
Inductive ResourceStorage : Type :=
| Private
| Shared.

Definition ResourceStorage_eqb (a b : ResourceStorage) : bool :=
  match a, b with
  | Private, Private | Shared, Shared => true
  | _, _ => false
  end.

(** [BufferRange(size, offset)] *)
Module BufferRange.
Record t : Type := mk { size : Z; offset : Z }.
End BufferRange.

Module BufferDesc.

Record t : Type := mk {
    type : Z;                     (* BufferType bitmask *)
    data : option (list byte);    (* const void* data *)
    length : Z;                   (* size_t length *)
    storage : ResourceStorage;
    debugName : string
  }.

Definition with_storage (d : t) (s : ResourceStorage) : t :=
    mk (type d) (data d) (length d) s (debugName d).

(** Modelled from the spec: [BufferDesc::BufferTypeBits], one bit per
    usage type, in the order the specification lists them
    (index/vertex/uniform/storage/indirect). *)
Definition Index : Z := 1.
Definition Vertex : Z := 2.
Definition Uniform : Z := 4.
Definition Storage : Z := 8.
Definition Indirect : Z := 16.

End BufferDesc.

(** ** Vulkan constants (from the Vulkan headers) *)

Definition VK_BUFFER_USAGE_TRANSFER_SRC_BIT : Z := 1.
Definition VK_BUFFER_USAGE_TRANSFER_DST_BIT : Z := 2.
Definition VK_BUFFER_USAGE_UNIFORM_BUFFER_BIT : Z := 16.
Definition VK_BUFFER_USAGE_STORAGE_BUFFER_BIT : Z := 32.
Definition VK_BUFFER_USAGE_INDEX_BUFFER_BIT : Z := 64.
Definition VK_BUFFER_USAGE_VERTEX_BUFFER_BIT : Z := 128.
Definition VK_BUFFER_USAGE_INDIRECT_BUFFER_BIT : Z := 256.
Definition VK_BUFFER_USAGE_SHADER_DEVICE_ADDRESS_BIT_KHR : Z := 131072.

Definition VK_MEMORY_PROPERTY_DEVICE_LOCAL_BIT : Z := 1.
Definition VK_MEMORY_PROPERTY_HOST_VISIBLE_BIT : Z := 2.
Definition VK_MEMORY_PROPERTY_HOST_COHERENT_BIT : Z := 4.

Definition VK_SUCCESS : Z := 0.
Definition VK_FORMAT_UNDEFINED : Z := 0.

Definition VK_FORMAT_FEATURE_SAMPLED_IMAGE_BIT : Z := 1.
Definition VK_FORMAT_FEATURE_STORAGE_IMAGE_BIT : Z := 2.
Definition VK_FORMAT_FEATURE_COLOR_ATTACHMENT_BIT : Z := 128.
Definition VK_FORMAT_FEATURE_DEPTH_STENCIL_ATTACHMENT_BIT : Z := 512.
Definition VK_FORMAT_FEATURE_SAMPLED_IMAGE_FILTER_LINEAR_BIT : Z := 4096.

Definition VK_KHR_SHADER_NON_SEMANTIC_INFO_EXTENSION_NAME : string :=
  "VK_KHR_shader_non_semantic_info".

Inductive VkShaderStageFlagBits : Type :=
| VK_SHADER_STAGE_VERTEX_BIT
| VK_SHADER_STAGE_FRAGMENT_BIT
| VK_SHADER_STAGE_COMPUTE_BIT
| VK_SHADER_STAGE_FLAG_BITS_MAX_ENUM.

Record VkFormatProperties : Type := mkVkFormatProperties {
  linearTilingFeatures : Z;
  optimalTilingFeatures : Z;
  bufferFeatures : Z
}.

(** ** The backend allocation *)

(** [VulkanBuffer]: what the wrapper asks of it is whether the allocation
    is persistently mapped ([isMapped()]), its memory property flags, and
    its bytes. *)
Record VulkanBuffer : Type := mkVulkanBuffer {
  isMapped : bool;
  memoryPropertyFlags : Z;
  contents : list byte
}.

Definition with_contents (vb : VulkanBuffer) (c : list byte) : VulkanBuffer :=
  mkVulkanBuffer (isMapped vb) (memoryPropertyFlags vb) c.

(** ** Observable events *)

Inductive Event : Type :=
(** Modelled from the spec: the macros [IGL_ASSERT], [IGL_ASSERT_MSG],
    [IGL_VERIFY] and [IGL_UNEXPECTED] are defined outside the sources; a
    tripped one is an assertion-level warning after which the operation
    proceeds. The argument is the message, or the text of the condition. *)
| AssertionWarning (what : string)
(** [ctx.createBuffer(bufferSize, usageFlags, memFlags, &result, name)] *)
| CtxCreateBuffer (bufferSize usageFlags memFlags : Z) (name : string)
(** [stagingDevice_->bufferSubData(buffer, offset, size, data)] *)
| StagingBufferSubData (offset size : Z)
(** [stagingDevice_->getBufferSubData(buffer, offset, size, out)] *)
| StagingGetBufferSubData (offset size : Z)
(** [compileShader(device, vkStage, source, ...)] *)
| CompileShader (vkStage : VkShaderStageFlagBits) (source : string)
(** [ivkCreateShaderModuleFromSPIRV(device, data, length, ...)] *)
| CreateShaderModuleFromSPIRV (data : option string) (length : Z)
(** [ivkSetDebugObjectName(...)] *)
| SetDebugObjectName (name : string).

Definition is_warning (e : Event) : bool :=
  match e with AssertionWarning _ => true | _ => false end.

Definition is_backend_allocation (e : Event) : bool :=
  match e with CtxCreateBuffer _ _ _ _ => true | _ => false end.

Definition is_staging_upload (e : Event) : bool :=
  match e with StagingBufferSubData _ _ => true | _ => false end.

(** ** External collaborators *)

(** The parts of [VulkanContext] and of the Vulkan helper functions that
    the modelled code calls and whose code is not part of the sources;
    they are parameters of the model. *)
Record VulkanContext : Type := mkVulkanContext {
  useStaging_ : bool;
(** [ctx.createBuffer]: the allocation (null on failure) and the result *)
  createBuffer : Z -> Z -> Z -> string -> option VulkanBuffer * Result.t;
  resourceStorageToVkMemoryPropertyFlags : ResourceStorage -> Z;
(** [extensions_.enabled(name)] *)
  extensions_enabled : string -> bool;
(** [igl::vulkan::compileShader]: the result and the module handle *)
  compileShader : VkShaderStageFlagBits -> string -> Result.t * Z;
(** [ivkCreateShaderModuleFromSPIRV]: the [VkResult] and the handle *)
  ivkCreateShaderModuleFromSPIRV : option string -> Z -> Z * Z;
(** [setResultFrom]: the [Result] a [VkResult] stands for *)
  getResultFromVkResult : Z -> Result.t;
(** [vkGetPhysicalDeviceFormatProperties] *)
  vkGetPhysicalDeviceFormatProperties : Z -> VkFormatProperties
}.

(** ** The class [igl::vulkan::Buffer] *)

(** The members of [Buffer]: [desc_], [buffer_] (null until [create]
    succeeds), [mappedRange_] and the scratch vector [tmpBuffer_]. *)
Record Buffer : Type := mkBuffer {
  desc_ : BufferDesc.t;
  buffer_ : option VulkanBuffer;
  mappedRange_ : BufferRange.t;
  tmpBuffer_ : list byte
}.

(** What a pointer returned by [map] is: null, [tmpBuffer_.data()] (the
    storage of the scratch vector), or the mapped backend allocation at a
    byte offset. A pointer aliases the store it points into: reads and
    writes through it go to the buffer object's current state.
    [TmpBufferData] names the scratch vector as the place the pointer
    leads to, not an address: of an empty vector C++ leaves open whether
    [data()] is null, so what is stated of the nullness of a pointer
    returned by [map] is stated for ranges that are not empty. *)
Inductive Ptr : Type :=
| NullPtr
| TmpBufferData
| MappedPtr (offset : Z).

(** *** A state monad with a trace and undefined behaviour *)

Definition M (A : Type) : Type := Buffer -> option (A * Buffer * list Event).

Definition ret {A : Type} (a : A) : M A := fun b => Some (a, b, []).

Definition bind {A B : Type} (m : M A) (k : A -> M B) : M B :=
  fun b =>
    match m b with
    | None => None
    | Some (a, b1, t1) =>
        match k a b1 with
        | None => None
        | Some (r, b2, t2) => Some (r, b2, t1 ++ t2)
        end
    end.

Definition get : M Buffer := fun b => Some (b, b, []).
Definition emit (e : Event) : M unit := fun b => Some (tt, b, [e]).
Definition undefined {A : Type} : M A := fun _ => None.

Declare Scope buffer_monad_scope.
Delimit Scope buffer_monad_scope with M.
Notation "x <- m ;; k" := (bind m (fun x => k))
  (at level 61, m at next level, right associativity) : buffer_monad_scope.
Notation "m ;; k" := (bind m (fun _ => k))
  (at level 61, right associativity) : buffer_monad_scope.

(** [IGL_VERIFY(cond)] and [IGL_ASSERT_MSG(cond, msg)]: the value of the
    condition, with a warning when it is false. *)
Definition IGL_VERIFY (cond : bool) (what : string) : M bool :=
  if cond then ret true else bind (emit (AssertionWarning what)) (fun _ => ret false).

(** [*buffer_]: dereferencing the null pointer is undefined. *)
Definition deref_buffer : M VulkanBuffer :=
  fun b => match buffer_ b with
           | Some vb => Some (vb, b, [])
           | None => None
           end.

Definition with_desc (b : Buffer) (d : BufferDesc.t) : Buffer :=
  mkBuffer d (buffer_ b) (mappedRange_ b) (tmpBuffer_ b).
Definition with_buffer (b : Buffer) (vb : option VulkanBuffer) : Buffer :=
  mkBuffer (desc_ b) vb (mappedRange_ b) (tmpBuffer_ b).
Definition with_mappedRange (b : Buffer) (r : BufferRange.t) : Buffer :=
  mkBuffer (desc_ b) (buffer_ b) r (tmpBuffer_ b).
Definition with_tmpBuffer (b : Buffer) (v : list byte) : Buffer :=
  mkBuffer (desc_ b) (buffer_ b) (mappedRange_ b) v.

Definition set_desc (d : BufferDesc.t) : M unit :=
  fun b => Some (tt, with_desc b d, []).
Definition set_buffer (vb : option VulkanBuffer) : M unit :=
  fun b => Some (tt, with_buffer b vb, []).
Definition set_mappedRange (r : BufferRange.t) : M unit :=
  fun b => Some (tt, with_mappedRange b r, []).
Definition set_tmpBuffer (v : list byte) : M unit :=
  fun b => Some (tt, with_tmpBuffer b v, []).

(** *** The Staging Transfer Engine *)

(** Modelled from the spec: [VulkanStagingDevice::bufferSubData] (its code
    is not part of the sources) moves [size] bytes from host memory into
    the allocation at [offset]. A copy that leaves the allocation or reads
    past the host bytes is undefined. *)
Definition bufferSubData (vb : VulkanBuffer) (offset size : Z) (data : list byte)
  : option VulkanBuffer :=
  if (0 <=? offset) && (0 <=? size) && (offset + size <=? zlen (contents vb))
     && (size <=? zlen data)
  then Some (with_contents vb
               (firstn (Z.to_nat offset) (contents vb)
                ++ firstn (Z.to_nat size) data
                ++ skipn (Z.to_nat (offset + size)) (contents vb)))
  else None.

(** Modelled from the spec: [VulkanStagingDevice::getBufferSubData] (its
    code is not part of the sources) pulls the [size] bytes of the
    allocation at [offset] into host memory. *)
Definition getBufferSubData (vb : VulkanBuffer) (offset size : Z)
  : option (list byte) :=
  if (0 <=? offset) && (0 <=? size) && (offset + size <=? zlen (contents vb))
  then Some (firstn (Z.to_nat size) (skipn (Z.to_nat offset) (contents vb)))
  else None.

(** [std::vector::resize(n)]: truncates, or pads with zero bytes. *)
Definition resize (v : list byte) (n : Z) : list byte :=
  firstn (Z.to_nat n) v ++ repeat x00 (Z.to_nat n - List.length v).

(** [std::vector::data()] as an argument of [upload]: the storage of an
    empty vector is not dereferenceable; it is modelled as the null
    pointer. A vector emptied by [resize(0)] keeps its storage in C++ and
    its [data()] is then not null: [upload] then transfers zero bytes
    where the model reports the failed check on the pointer. The contents
    of the buffer are the same either way. *)
Definition vector_data (v : list byte) : option (list byte) :=
  match v with
  | [] => None
  | _ :: _ => Some v
  end.

(** Copying [src] over the beginning of the host array [dst]. *)
Definition write_bytes (dst src : list byte) : list byte :=
  src ++ skipn (List.length src) dst.

(** *** The methods *)

Local Open Scope buffer_monad_scope.

Definition has_bit (mask bit : Z) : bool := negb (Z.land mask bit =? 0).

Definition or_if (c : bool) (flags bits : Z) : Z :=
  if c then Z.lor flags bits else flags.

(** [Buffer::create] *)
Definition Buffer_create (ctx : VulkanContext) (desc : BufferDesc.t) : M Result.t :=
  set_desc desc ;;
  (if negb (useStaging_ ctx) && ResourceStorage_eqb (BufferDesc.storage desc) Private
   then set_desc (BufferDesc.with_storage desc Shared)
   else ret tt) ;;
  b <- get ;;
  let d := desc_ b in
  let usageFlags0 :=
    if ResourceStorage_eqb (BufferDesc.storage d) Private
    then Z.lor VK_BUFFER_USAGE_TRANSFER_DST_BIT VK_BUFFER_USAGE_TRANSFER_SRC_BIT
    else 0 in
  if BufferDesc.type d =? 0
  then ret (Result.mk Result.InvalidOperation "Invalid buffer type")
  else
    let usageFlags1 :=
      or_if (has_bit (BufferDesc.type d) BufferDesc.Index) usageFlags0
        VK_BUFFER_USAGE_INDEX_BUFFER_BIT in
    let usageFlags2 :=
      or_if (has_bit (BufferDesc.type d) BufferDesc.Vertex) usageFlags1
        VK_BUFFER_USAGE_VERTEX_BUFFER_BIT in
    let usageFlags3 :=
      or_if (has_bit (BufferDesc.type d) BufferDesc.Uniform) usageFlags2
        (Z.lor VK_BUFFER_USAGE_UNIFORM_BUFFER_BIT
           VK_BUFFER_USAGE_SHADER_DEVICE_ADDRESS_BIT_KHR) in
    let usageFlags4 :=
      or_if (has_bit (BufferDesc.type d) BufferDesc.Storage) usageFlags3
        (Z.lor (Z.lor VK_BUFFER_USAGE_STORAGE_BUFFER_BIT
                  VK_BUFFER_USAGE_TRANSFER_DST_BIT)
           VK_BUFFER_USAGE_SHADER_DEVICE_ADDRESS_BIT_KHR) in
    let usageFlags :=
      or_if (has_bit (BufferDesc.type d) BufferDesc.Indirect) usageFlags4
        (Z.lor VK_BUFFER_USAGE_INDIRECT_BUFFER_BIT
           VK_BUFFER_USAGE_SHADER_DEVICE_ADDRESS_BIT_KHR) in
    let memFlags := resourceStorageToVkMemoryPropertyFlags ctx (BufferDesc.storage d) in
    emit (CtxCreateBuffer (BufferDesc.length d) usageFlags memFlags
            (BufferDesc.debugName d)) ;;
    let made := createBuffer ctx (BufferDesc.length d) usageFlags memFlags
                  (BufferDesc.debugName d) in
    set_buffer (fst made) ;;
    IGL_VERIFY (Result.isOk (snd made)) "result.isOk()" ;;
    ret (snd made).

(** [Buffer::upload] *)
Definition Buffer_upload (data : option (list byte)) (range : BufferRange.t)
  : M Result.t :=
  match data with
  | None =>
      IGL_VERIFY false "data" ;;
      ret Result.ok
  | Some d =>
      b <- get ;;
      inRange <- IGL_VERIFY
                   (add_sz (BufferRange.offset range) (BufferRange.size range)
                    <=? BufferDesc.length (desc_ b))
                   "range.offset + range.size <= desc_.length" ;;
      if negb inRange
      then ret (Result.mk Result.ArgumentOutOfRange "Out of range")
      else
        vb <- deref_buffer ;;
        emit (StagingBufferSubData (BufferRange.offset range) (BufferRange.size range)) ;;
        match bufferSubData vb (BufferRange.offset range) (BufferRange.size range) d with
        | None => undefined
        | Some vb' => set_buffer (Some vb') ;; ret Result.ok
        end
  end.

(** [Buffer::getSizeInBytes] *)
Definition Buffer_getSizeInBytes (b : Buffer) : Z := BufferDesc.length (desc_ b).

(** [Buffer::unmap] *)
Definition Buffer_unmap : M unit :=
  b <- get ;;
  IGL_VERIFY (negb (BufferRange.size (mappedRange_ b) =? 0))
    "Called Buffer::unmap() without Buffer::map()" ;;
  vb <- deref_buffer ;;
  (if negb (isMapped vb)
   then
     Buffer_upload (vector_data (tmpBuffer_ b))
       (BufferRange.mk (zlen (tmpBuffer_ b)) (BufferRange.offset (mappedRange_ b))) ;;
     ret tt
   else ret tt) ;;
  b' <- get ;;
  set_mappedRange (BufferRange.mk 0 (BufferRange.offset (mappedRange_ b'))).

(** [Buffer::map]: the returned pointer and the final content of
    [outResult]. *)
Definition Buffer_map (range : BufferRange.t) (outResult : option Result.t)
  : M (Ptr * option Result.t) :=
  b <- get ;;
  if (BufferRange.size range >? BufferDesc.length (desc_ b))
     || (BufferRange.offset range
         >? sub_sz (BufferDesc.length (desc_ b)) (BufferRange.size range))
  then
    ret (NullPtr,
         Result.setResult outResult
           (Result.mk Result.ArgumentOutOfRange "Range exceeds buffer length"))
  else
    (if negb (BufferRange.size (mappedRange_ b) =? 0)
        && (negb (BufferRange.size (mappedRange_ b) =? BufferRange.size range)
            || negb (BufferRange.offset (mappedRange_ b) =? BufferRange.offset range))
     then
       emit (AssertionWarning
               "Buffer::map() is called more than once without Buffer::unmap()") ;;
       Buffer_unmap
     else ret tt) ;;
    set_mappedRange range ;;
    let out := Result.setOk outResult in
    vb <- deref_buffer ;;
    if negb (isMapped vb)
    then
      b1 <- get ;;
      set_tmpBuffer (resize (tmpBuffer_ b1) (BufferRange.size range)) ;;
      emit (StagingGetBufferSubData (BufferRange.offset range) (BufferRange.size range)) ;;
      match getBufferSubData vb (BufferRange.offset range) (BufferRange.size range) with
      | None => undefined
      | Some bytes =>
          b2 <- get ;;
          set_tmpBuffer (write_bytes (tmpBuffer_ b2) bytes) ;;
          ret (TmpBufferData, out)
      end
    else
      IGL_VERIFY (has_bit (memoryPropertyFlags vb) VK_MEMORY_PROPERTY_HOST_COHERENT_BIT)
        "buffer_->getMemoryPropertyFlags() & VK_MEMORY_PROPERTY_HOST_COHERENT_BIT" ;;
      ret (MappedPtr (BufferRange.offset range), out).

Local Close Scope buffer_monad_scope.

(** *** Access through a mapped pointer *)

(** The [n] bytes the host reads at pointer [p]. *)
Definition readPtr (b : Buffer) (p : Ptr) (n : Z) : option (list byte) :=
  match p with
  | NullPtr => None
  | TmpBufferData =>
      if (0 <=? n) && (n <=? zlen (tmpBuffer_ b))
      then Some (firstn (Z.to_nat n) (tmpBuffer_ b))
      else None
  | MappedPtr off =>
      match buffer_ b with
      | Some vb => getBufferSubData vb off n
      | None => None
      end
  end.

(** The host stores the bytes [src] at pointer [p]: into the scratch
    vector, or straight into the mapped allocation. *)
Definition writePtr (b : Buffer) (p : Ptr) (src : list byte) : option Buffer :=
  match p with
  | NullPtr => None
  | TmpBufferData =>
      if zlen src <=? zlen (tmpBuffer_ b)
      then Some (with_tmpBuffer b (write_bytes (tmpBuffer_ b) src))
      else None
  | MappedPtr off =>
      match buffer_ b with
      | Some vb =>
          match bufferSubData vb off (zlen src) src with
          | Some vb' => Some (with_buffer b (Some vb'))
          | None => None
          end
      | None => None
      end
  end.

(** The object a fresh [Buffer(device)] is. Its descriptor is immaterial:
    [create] assigns [desc_] first. *)
Definition Buffer_new : Buffer :=
  mkBuffer (BufferDesc.mk 0 None 0 Private "") None (BufferRange.mk 0 0) [].

(** ** The resource factory [igl::vulkan::Device] *)

(** [Device::createBuffer]: the returned handle (null: [None]), the final
    content of [outResult], and the events. *)
Definition Device_createBuffer (ctx : VulkanContext) (desc : BufferDesc.t)
    (outResult : option Result.t)
  : option (option Buffer * option Result.t * list Event) :=
  match Buffer_create ctx desc Buffer_new with
  | None => None
  | Some (result, buffer, t1) =>
      if negb (Result.isOk result)
      then Some (None, outResult, t1 ++ [AssertionWarning "result.isOk()"])
      else
        match BufferDesc.data desc with
        | None => Some (Some buffer, outResult, t1)
        | Some _ =>
            match Buffer_upload (BufferDesc.data desc)
                    (BufferRange.mk (BufferDesc.length desc) 0) buffer with
            | None => None
            | Some (uploadResult, buffer', t2) =>
                Some (Some buffer',
                      Result.setResult outResult uploadResult,
                      t1 ++ t2
                      ++ (if Result.isOk uploadResult then []
                          else [AssertionWarning "uploadResult.isOk()"]))
            end
        end
  end.

(** [Device::createSamplerState] and [Device::createTexture]. The methods
    [SamplerState::create] and [Texture::create] are not part of the
    sources: what they return (the result, and the object they filled) is
    a parameter. *)
Definition Device_createSamplerState {S : Type} (created : Result.t * S)
    (outResult : option Result.t) : option S * option Result.t :=
  (Some (snd created), Result.setResult outResult (fst created)).

Definition Device_createTexture {T : Type} (created : Result.t * T)
    (outResult : option Result.t) : option T * option Result.t :=
  (if Result.isOk (fst created) then Some (snd created) else None,
   Result.setResult outResult (fst created)).

(** *** Pipelines *)

Inductive ShaderStage : Type :=
| Stage_Vertex
| Stage_Fragment
| Stage_Compute.

(** Modelled from the spec: the [TextureFormat] enumeration (declared
    outside the sources): the invalid format and the others. *)
Inductive TextureFormat : Type :=
| TextureFormat_Invalid
| TextureFormat_Other (id : nat).

Definition TextureFormat_eqb (a b : TextureFormat) : bool :=
  match a, b with
  | TextureFormat_Invalid, TextureFormat_Invalid => true
  | TextureFormat_Other x, TextureFormat_Other y => Nat.eqb x y
  | _, _ => false
  end.

(** A shader-stage set: [getModule(stage)] is the module of a stage, null
    when the set has none. A module is identified by its backend handle. *)
Record ShaderStages : Type := mkShaderStages {
  getModule : ShaderStage -> option Z
}.

Record RenderPipelineDesc : Type := mkRenderPipelineDesc {
  shaderStages : option ShaderStages;
  colorAttachments : list TextureFormat;       (* targetDesc.colorAttachments *)
  depthAttachmentFormat : TextureFormat        (* targetDesc.depthAttachmentFormat *)
}.

Record ComputePipelineDesc : Type := mkComputePipelineDesc {
  computeShaderStages : option ShaderStages
}.

Definition is_some {A : Type} (o : option A) : bool :=
  match o with Some _ => true | None => false end.

(** [Device::createComputePipeline] *)
Definition Device_createComputePipeline (desc : ComputePipelineDesc)
    (outResult : option Result.t)
  : option ComputePipelineDesc * option Result.t * list Event :=
  match computeShaderStages desc with
  | None =>
      (None,
       Result.setResult outResult
         (Result.mk Result.ArgumentInvalid "Missing shader stages"),
       [AssertionWarning "desc.shaderStages == nullptr"])
  | Some stages =>
      if negb (is_some (getModule stages Stage_Compute))
      then (None,
            Result.setResult outResult
              (Result.mk Result.ArgumentInvalid "Missing compute shader"),
            [AssertionWarning "desc.shaderStages->getModule(Stage_Compute)"])
      else (Some desc, Result.setOk outResult, [])
  end.

(** [Device::createRenderPipeline]: the pipeline state is identified by
    the descriptor it was made from. *)
Definition Device_createRenderPipeline (desc : RenderPipelineDesc)
    (outResult : option Result.t)
  : option RenderPipelineDesc * option Result.t * list Event :=
  match shaderStages desc with
  | None =>
      (None,
       Result.setResult outResult
         (Result.mk Result.ArgumentInvalid "Missing shader stages"),
       [AssertionWarning "desc.shaderStages == nullptr"])
  | Some stages =>
      let hasColorAttachments :=
        negb (match colorAttachments desc with [] => true | _ :: _ => false end) in
      let hasDepthAttachment :=
        negb (TextureFormat_eqb (depthAttachmentFormat desc) TextureFormat_Invalid) in
      let hasAnyAttachments := hasColorAttachments || hasDepthAttachment in
      if negb hasAnyAttachments
      then (None,
            Result.setResult outResult
              (Result.mk Result.ArgumentInvalid "Need at least one attachment"),
            [AssertionWarning "hasAnyAttachments"])
      else if negb (is_some (getModule stages Stage_Vertex))
      then (None,
            Result.setResult outResult
              (Result.mk Result.ArgumentInvalid "Missing vertex shader"),
            [AssertionWarning "desc.shaderStages->getModule(Stage_Vertex)"])
      else if negb (is_some (getModule stages Stage_Fragment))
      then (None,
            Result.setResult outResult
              (Result.mk Result.ArgumentInvalid "Missing fragment shader"),
            [AssertionWarning "desc.shaderStages->getModule(Stage_Fragment)"])
      else (Some desc, outResult, [])
  end.

(** *** Shader modules *)

(** [shaderStageToVkShaderStage] *)
Definition shaderStageToVkShaderStage (stage : ShaderStage) : VkShaderStageFlagBits :=
  match stage with
  | Stage_Vertex => VK_SHADER_STAGE_VERTEX_BIT
  | Stage_Fragment => VK_SHADER_STAGE_FRAGMENT_BIT
  | Stage_Compute => VK_SHADER_STAGE_COMPUTE_BIT
  end.

Definition VkShaderStageFlagBits_eqb (a b : VkShaderStageFlagBits) : bool :=
  match a, b with
  | VK_SHADER_STAGE_VERTEX_BIT, VK_SHADER_STAGE_VERTEX_BIT
  | VK_SHADER_STAGE_FRAGMENT_BIT, VK_SHADER_STAGE_FRAGMENT_BIT
  | VK_SHADER_STAGE_COMPUTE_BIT, VK_SHADER_STAGE_COMPUTE_BIT
  | VK_SHADER_STAGE_FLAG_BITS_MAX_ENUM, VK_SHADER_STAGE_FLAG_BITS_MAX_ENUM => true
  | _, _ => false
  end.

(** The characters a [const char*] denotes: those before the first NUL. *)
Fixpoint c_str (s : string) : string :=
  match s with
  | EmptyString => EmptyString
  | String c rest =>
      if Ascii.eqb c zero then EmptyString else String c (c_str rest)
  end.

(** [strstr(haystack, needle)]: the suffix of [haystack] at the first
    occurrence of [needle], or null. *)
Fixpoint strstr (haystack needle : string) : option string :=
  if String.prefix needle haystack then Some haystack
  else
    match haystack with
    | EmptyString => None
    | String _ rest => strstr rest needle
    end.

Definition header_version : string := "
      #version 460
      ".

Definition header_vertex_compute : string := "
      #extension GL_EXT_nonuniform_qualifier : require
      #extension GL_EXT_buffer_reference : require
      #extension GL_EXT_buffer_reference_uvec2 : require
      #extension GL_EXT_shader_explicit_arithmetic_types_float16 : require

      layout (set = 1, binding = 0) uniform Bindings {
        // has to be tightly packed into `uvec4` because GL_EXT_scalar_block_layout is guaranteed only for Vulkan 1.2+
        // texture (x), sampler (y), buffer (zw)
        uvec4 slots[16]; // see ResourcesBinder::Slot
      } bindings;
      uvec2 getBuffer(uint slot) {
        return bindings.slots[slot].zw;
      }
      ".

Definition header_fragment : string := "
      #extension GL_EXT_nonuniform_qualifier : require
      #extension GL_EXT_buffer_reference_uvec2 : require
      #extension GL_EXT_shader_explicit_arithmetic_types_float16 : require

      layout (set = 0, binding = 0) uniform texture2D kTextures2D[];
      layout (set = 0, binding = 1) uniform texture2DArray kTextures2DArray[];
      layout (set = 0, binding = 2) uniform texture3D kTextures3D[];
      layout (set = 0, binding = 3) uniform textureCube kTexturesCube[];
      layout (set = 0, binding = 4) uniform sampler kSamplers[];
      layout (set = 0, binding = 5) uniform samplerShadow kSamplersShadow[];
      // binding #6 is reserved for STORAGE_IMAGEs: check VulkanContext.cpp

      layout (set = 1, binding = 0) uniform Bindings {
        // has to be tightly packed into `uvec4` because GL_EXT_scalar_block_layout is guaranteed only for Vulkan 1.2+
        // texture (x), sampler (y), buffer (zw)
        uvec4 slots[16]; // see ResourcesBinder::Slot
      } bindings;
      uvec2 getBuffer(uint slot) {
        return bindings.slots[slot].zw;
      }
      ivec2 textureSize2D(uint slotTexture, uint slotSampler) {
        uint idxTex = bindings.slots[slotTexture].x;
        uint idxSmp = bindings.slots[slotSampler].y;
        return textureSize(sampler2D(kTextures2D[nonuniformEXT(idxTex)],
                                     kSamplers[nonuniformEXT(idxSmp)]), 0);
      }
      vec4 textureSample2D(uint slotTexture, uint slotSampler, vec2 uv) {
        uint idxTex = bindings.slots[slotTexture].x;
        uint idxSmp = bindings.slots[slotSampler].y;
        return texture(sampler2D(kTextures2D[nonuniformEXT(idxTex)],
                                 kSamplers[nonuniformEXT(idxSmp)]), uv);
      }
      float textureSample2DShadow(uint slotTexture, uint slotSampler, vec3 uvw) {
        uint idxTex = bindings.slots[slotTexture].x;
        uint idxSmp = bindings.slots[slotSampler].y;
        return texture(sampler2DShadow(kTextures2D[nonuniformEXT(idxTex)],
                                       kSamplersShadow[nonuniformEXT(idxSmp)]), uvw);
      }
      vec4 textureSample2DArray(uint slotTexture, uint slotSampler, vec3 uvw) {
        uint idxTex = bindings.slots[slotTexture].x;
        uint idxSmp = bindings.slots[slotSampler].y;
        return texture(sampler2DArray(kTextures2DArray[nonuniformEXT(idxTex)],
                                      kSamplers[nonuniformEXT(idxSmp)]), uvw);
      }
      vec4 textureSampleCube(uint slotTexture, uint slotSampler, vec3 uvw) {
        uint idxTex = bindings.slots[slotTexture].x;
        uint idxSmp = bindings.slots[slotSampler].y;
        return texture(samplerCube(kTexturesCube[nonuniformEXT(idxTex)],
                                   kSamplers[nonuniformEXT(idxSmp)]), uvw);
      }
      vec4 textureSample3D(uint slotTexture, uint slotSampler, vec3 uvw) {
        uint idxTex = bindings.slots[slotTexture].x;
        uint idxSmp = bindings.slots[slotSampler].y;
        return texture(sampler3D(kTextures3D[nonuniformEXT(idxTex)],
                                 kSamplers[nonuniformEXT(idxSmp)]), uvw);
      }
      vec4 textureLod2D(uint slotTexture, uint slotSampler, vec3 uvw, float lod) {
        uint idxTex = bindings.slots[slotTexture].x;
        uint idxSmp = bindings.slots[slotSampler].y;
        return textureLod(samplerCube(kTexturesCube[nonuniformEXT(idxTex)],
                                   kSamplers[nonuniformEXT(idxSmp)]), uvw, lod);
      }
      ".

Definition debug_printf_extension : string :=
  "#extension GL_EXT_debug_printf : enable
".

(** The text [createShaderModule] puts in front of a source that has no
    version marker: the [sourcePatched] of the code before the source is
    appended. *)
Definition shader_header (extraExtensions : string) (vkStage : VkShaderStageFlagBits)
  : string :=
  let vc :=
    if VkShaderStageFlagBits_eqb vkStage VK_SHADER_STAGE_VERTEX_BIT
       || VkShaderStageFlagBits_eqb vkStage VK_SHADER_STAGE_COMPUTE_BIT
    then (header_version ++ extraExtensions ++ header_vertex_compute)%string
    else "" in
  let f :=
    if VkShaderStageFlagBits_eqb vkStage VK_SHADER_STAGE_FRAGMENT_BIT
    then (header_version ++ extraExtensions ++ header_fragment)%string
    else "" in
  (vc ++ f)%string.

(** [IGL_ASSERT(cond)] in the factory functions: the events of the check. *)
Definition assert_events (cond : bool) (what : string) : list Event :=
  if cond then [] else [AssertionWarning what].

Module ShaderModuleDesc.
Record t : Type := mk {
  stage : ShaderStage;
  data : option string;      (* const char* data: text, or SPIR-V bytes *)
  dataSize : Z;              (* size_t dataSize: 0 for text *)
  debugName : string
}.
End ShaderModuleDesc.

Definition string_is_empty (s : string) : bool :=
  match s with EmptyString => true | String _ _ => false end.

Definition debug_name_events (debugName : string) : list Event :=
  if string_is_empty debugName then [] else [SetDebugObjectName debugName].

(** [Device::createShaderModule] on [(data, length)]:
    the binary path. The handle of the module, the final content of
    [outResult], the events. *)
Definition Device_createShaderModule_binary (ctx : VulkanContext)
    (data : option string) (length : Z) (debugName : string)
    (outResult : option Result.t)
  : option Z * option Result.t * list Event :=
  let made := ivkCreateShaderModuleFromSPIRV ctx data length in
  let out := Result.setResult outResult (getResultFromVkResult ctx (fst made)) in
  if negb (fst made =? VK_SUCCESS)
  then (None, out, [CreateShaderModuleFromSPIRV data length])
  else (Some (snd made), out,
        [CreateShaderModuleFromSPIRV data length] ++ debug_name_events debugName).

(** The source handed to the compiler by the text path. *)
Definition patched_source (ctx : VulkanContext) (vkStage : VkShaderStageFlagBits)
    (source : string) : string :=
  match strstr source "#version " with
  | None =>
      let extraExtensions :=
        if extensions_enabled ctx VK_KHR_SHADER_NON_SEMANTIC_INFO_EXTENSION_NAME
        then debug_printf_extension
        else "" in
      (shader_header extraExtensions vkStage ++ source)%string
  | Some _ => source
  end.

(** [Device::createShaderModule] on [(stage, source)]: the text path. *)
Definition Device_createShaderModule_text (ctx : VulkanContext)
    (stage : ShaderStage) (source : option string) (debugName : string)
    (outResult : option Result.t)
  : option Z * option Result.t * list Event :=
  let vkStage := shaderStageToVkShaderStage stage in
  let asserts :=
    assert_events
      (negb (VkShaderStageFlagBits_eqb vkStage VK_SHADER_STAGE_FLAG_BITS_MAX_ENUM))
      "vkStage != VK_SHADER_STAGE_FLAG_BITS_MAX_ENUM"
    ++ assert_events (is_some source) "source" in
  let text := match source with None => "" | Some raw => c_str raw end in
  if negb (is_some source) || string_is_empty text
  then (None,
        Result.setResult outResult
          (Result.mk Result.ArgumentNull "Shader source is empty"),
        asserts)
  else
    let source' := patched_source ctx vkStage text in
    let compiled := compileShader ctx vkStage source' in
    let out := Result.setResult outResult (fst compiled) in
    if negb (Result.isOk (fst compiled))
    then (None, out, asserts ++ [CompileShader vkStage source'])
    else (Some (snd compiled), out,
          asserts ++ [CompileShader vkStage source'] ++ debug_name_events debugName).

Definition result_or_ok (r : option Result.t) : Result.t :=
  match r with Some x => x | None => Result.ok end.

(** [Device::createShaderModule] on a [ShaderModuleDesc]: the
    [ShaderModule] is the descriptor with the backend module's handle. *)
Definition Device_createShaderModule (ctx : VulkanContext) (desc : ShaderModuleDesc.t)
    (outResult : option Result.t)
  : option (ShaderModuleDesc.t * Z) * option Result.t * list Event :=
  let inner :=
    if negb (ShaderModuleDesc.dataSize desc =? 0)
    then Device_createShaderModule_binary ctx (ShaderModuleDesc.data desc)
           (ShaderModuleDesc.dataSize desc) (ShaderModuleDesc.debugName desc)
           (Some Result.ok)
    else Device_createShaderModule_text ctx (ShaderModuleDesc.stage desc)
           (ShaderModuleDesc.data desc) (ShaderModuleDesc.debugName desc)
           (Some Result.ok) in
  let result := result_or_ok (snd (fst inner)) in
  let out := Result.setResult outResult result in
  if negb (Result.isOk result)
  then (None, out, snd inner)
  else
    (match fst (fst inner) with
     | Some h => Some (desc, h)
     | None => None
     end, out, snd inner).

(** *** Capability query *)

(** The values of [ICapabilities::TextureFormatCapabilityBits], which are
    declared outside the sources; they are a parameter of the model. *)
Record TextureFormatCapabilityBits : Type := mkTextureFormatCapabilityBits {
  Unsupported : Z;
  Sampled : Z;
  Storage : Z;
  SampledFiltered : Z;
  Attachment : Z;
  SampledAttachment : Z
}.

(** [contains(value, flag)] *)
Definition contains (value flag : Z) : bool := Z.land value flag =? flag.

(** [Device::getTextureFormatCapabilities]; [textureFormatToVkFormat] is
    declared outside the sources and is a parameter. *)
Definition Device_getTextureFormatCapabilities (ctx : VulkanContext)
    (textureFormatToVkFormat : TextureFormat -> Z)
    (bits : TextureFormatCapabilityBits) (format : TextureFormat) : Z :=
  let vkFormat := textureFormatToVkFormat format in
  if vkFormat =? VK_FORMAT_UNDEFINED
  then Unsupported bits
  else
    let properties := vkGetPhysicalDeviceFormatProperties ctx vkFormat in
    let features :=
      Z.lor (Z.lor (bufferFeatures properties) (linearTilingFeatures properties))
        (optimalTilingFeatures properties) in
    let caps0 := Unsupported bits in
    let caps1 :=
      or_if (has_bit features VK_FORMAT_FEATURE_SAMPLED_IMAGE_BIT) caps0 (Sampled bits) in
    let caps2 :=
      or_if (has_bit features VK_FORMAT_FEATURE_STORAGE_IMAGE_BIT) caps1 (Storage bits) in
    let caps3 :=
      or_if (has_bit features VK_FORMAT_FEATURE_SAMPLED_IMAGE_FILTER_LINEAR_BIT) caps2
        (SampledFiltered bits) in
    let caps4 :=
      or_if (has_bit features VK_FORMAT_FEATURE_COLOR_ATTACHMENT_BIT) caps3
        (Attachment bits) in
    let caps5 :=
      or_if (has_bit features VK_FORMAT_FEATURE_DEPTH_STENCIL_ATTACHMENT_BIT) caps4
        (Attachment bits) in
    or_if (contains caps5 (Sampled bits) && contains caps5 (Attachment bits)) caps5
      (SampledAttachment bits).

(** * Notions used in the statements *)

(** ** Buffers *)

(** The byte range [[offset, offset + size)] lies in the allocation. *)
Definition in_allocation (vb : VulkanBuffer) (offset size : Z) : Prop :=
  0 <= offset /\ 0 <= size /\ offset + size <= zlen (contents vb).

(** The bytes of the backend allocation: the contents of the buffer. *)
Definition device_contents (b : Buffer) : list byte :=
  match buffer_ b with
  | Some vb => contents vb
  | None => []
  end.

(** Whether the allocation is host-visible (persistently mapped), as
    [buffer_->isMapped()] tells. *)
Definition host_visible (b : Buffer) : bool :=
  match buffer_ b with
  | Some vb => isMapped vb
  | None => false
  end.

(** A range a caller may pass: two [size_t] values. *)
Definition is_range (range : BufferRange.t) : Prop :=
  is_size_t (BufferRange.offset range) /\ is_size_t (BufferRange.size range).

(** [[offset, offset + size)] lies within [[0, length)]. *)
Definition range_in_bounds (range : BufferRange.t) (b : Buffer) : Prop :=
  is_range range
  /\ BufferRange.offset range + BufferRange.size range
     <= BufferDesc.length (desc_ b).

(** The state invariant of a created buffer: the allocation exists and has
    the length of the descriptor, the mapped-range marker lies within the
    buffer, on the scratch path the scratch vector has the size of the
    active mapping, and a host-visible allocation is coherent and never
    uses the scratch vector. *)
Record wf_with (vb : VulkanBuffer) (b : Buffer) : Prop := mk_wf {
  wf_buffer : buffer_ b = Some vb;
  wf_length : is_size_t (BufferDesc.length (desc_ b));
  wf_contents : zlen (contents vb) = BufferDesc.length (desc_ b);
  wf_offset : 0 <= BufferRange.offset (mappedRange_ b);
  wf_size : 0 <= BufferRange.size (mappedRange_ b);
  wf_range :
    BufferRange.offset (mappedRange_ b) + BufferRange.size (mappedRange_ b)
    <= BufferDesc.length (desc_ b);
  wf_scratch_fits :
    BufferRange.offset (mappedRange_ b) + zlen (tmpBuffer_ b)
    <= BufferDesc.length (desc_ b);
  wf_scratch_size :
    isMapped vb = false ->
    BufferRange.size (mappedRange_ b) <> 0 ->
    zlen (tmpBuffer_ b) = BufferRange.size (mappedRange_ b);
  wf_no_scratch : isMapped vb = true -> tmpBuffer_ b = [];
  wf_coherent :
    isMapped vb = true ->
    has_bit (memoryPropertyFlags vb) VK_MEMORY_PROPERTY_HOST_COHERENT_BIT = true
}.

Definition wf (b : Buffer) : Prop := exists vb, wf_with vb b.

Definition unmap_message : string := "Called Buffer::unmap() without Buffer::map()".
Definition map_message : string :=
  "Buffer::map() is called more than once without Buffer::unmap()".

(** The test of [map] for a mapping of a different range being active. *)
Definition other_mapping_active (b : Buffer) (range : BufferRange.t) : bool :=
  negb (BufferRange.size (mappedRange_ b) =? 0)
  && (negb (BufferRange.size (mappedRange_ b) =? BufferRange.size range)
      || negb (BufferRange.offset (mappedRange_ b) =? BufferRange.offset range)).

(** The sanity check of [map]. *)
Definition exceeds_buffer (b : Buffer) (range : BufferRange.t) : bool :=
  (BufferRange.size range >? BufferDesc.length (desc_ b))
  || (BufferRange.offset range
      >? sub_sz (BufferDesc.length (desc_ b)) (BufferRange.size range)).

(** The part of [map] that follows the implicit unmap: from the
    assignment of [mappedRange_] to the return. *)
Definition establish_mapping (range : BufferRange.t) (outResult : option Result.t)
  : M (Ptr * option Result.t) :=
  (set_mappedRange range ;;
   let out := Result.setOk outResult in
   vb <- deref_buffer ;;
   if negb (isMapped vb)
   then
     b1 <- get ;;
     set_tmpBuffer (resize (tmpBuffer_ b1) (BufferRange.size range)) ;;
     emit (StagingGetBufferSubData (BufferRange.offset range) (BufferRange.size range)) ;;
     match getBufferSubData vb (BufferRange.offset range) (BufferRange.size range) with
     | None => undefined
     | Some bytes =>
         b2 <- get ;;
         set_tmpBuffer (write_bytes (tmpBuffer_ b2) bytes) ;;
         ret (TmpBufferData, out)
     end
   else
     IGL_VERIFY (has_bit (memoryPropertyFlags vb) VK_MEMORY_PROPERTY_HOST_COHERENT_BIT)
       "buffer_->getMemoryPropertyFlags() & VK_MEMORY_PROPERTY_HOST_COHERENT_BIT" ;;
     ret (MappedPtr (BufferRange.offset range), out))%M.

(** *** What [unmap] and [map] come to on a created buffer

    Closed forms of the final state and of the events of [unmap] and [map];
    they are proved equal to the methods ([unmap_wf], [map_wf]). *)

Definition slice (c : list byte) (offset size : Z) : list byte :=
  firstn (Z.to_nat size) (skipn (Z.to_nat offset) c).

(** The allocation after the scratch bytes [tmp] are written at [offset]. *)
Definition written_back (vb : VulkanBuffer) (offset : Z) (tmp : list byte)
  : VulkanBuffer :=
  with_contents vb
    (firstn (Z.to_nat offset) (contents vb)
     ++ tmp ++ skipn (Z.to_nat (offset + zlen tmp)) (contents vb)).

Definition unmapped (b : Buffer) : Buffer :=
  mkBuffer (desc_ b)
    (match buffer_ b with
     | Some vb =>
         Some (if isMapped vb then vb
               else written_back vb (BufferRange.offset (mappedRange_ b)) (tmpBuffer_ b))
     | None => None
     end)
    (BufferRange.mk 0 (BufferRange.offset (mappedRange_ b)))
    (tmpBuffer_ b).

Definition unmap_events (b : Buffer) : list Event :=
  assert_events (negb (BufferRange.size (mappedRange_ b) =? 0)) unmap_message
  ++ (if host_visible b then []
      else match tmpBuffer_ b with
           | [] => [AssertionWarning "data"]
           | _ :: _ =>
               [StagingBufferSubData (BufferRange.offset (mappedRange_ b))
                  (zlen (tmpBuffer_ b))]
           end).

Definition established (range : BufferRange.t) (b : Buffer) : Buffer :=
  if host_visible b then with_mappedRange b range
  else mkBuffer (desc_ b) (buffer_ b) range
         (slice (device_contents b) (BufferRange.offset range) (BufferRange.size range)).

Definition establish_events (range : BufferRange.t) (b : Buffer) : list Event :=
  match buffer_ b with
  | Some vb =>
      if isMapped vb
      then assert_events
             (has_bit (memoryPropertyFlags vb) VK_MEMORY_PROPERTY_HOST_COHERENT_BIT)
             "buffer_->getMemoryPropertyFlags() & VK_MEMORY_PROPERTY_HOST_COHERENT_BIT"
      else [StagingGetBufferSubData (BufferRange.offset range) (BufferRange.size range)]
  | None => []
  end.

Definition map_pointer (range : BufferRange.t) (b : Buffer) : Ptr :=
  if host_visible b then MappedPtr (BufferRange.offset range) else TmpBufferData.

Definition mapped (range : BufferRange.t) (b : Buffer) : Buffer :=
  established range (if other_mapping_active b range then unmapped b else b).

Definition map_events (range : BufferRange.t) (b : Buffer) : list Event :=
  if other_mapping_active b range
  then AssertionWarning map_message :: unmap_events b
       ++ establish_events range (unmapped b)
  else establish_events range b.

(** No write made through a mapping of another range is still held back
    in the scratch vector: where [map] would close such a mapping on the
    scratch path, the scratch bytes are those of the allocation. *)
Definition no_pending_writes (b : Buffer) (range : BufferRange.t) : Prop :=
  other_mapping_active b range = true ->
  host_visible b = false ->
  tmpBuffer_ b
  = slice (device_contents b) (BufferRange.offset (mappedRange_ b))
      (BufferRange.size (mappedRange_ b)).

(** A mapping is active: the marker has a size. *)
Definition mapping_active (b : Buffer) : Prop :=
  BufferRange.size (mappedRange_ b) <> 0.

(** The trace holds an assertion-level warning. *)
Definition warns (t : list Event) : bool := existsb is_warning t.

(** ** Creation *)

(** What the model asks of the backend allocator: a successful
    [ctx.createBuffer] returns an allocation of the requested size, coherent
    when it is mapped, and a failed one returns null. *)
Definition backend_allocates (ctx : VulkanContext) : Prop :=
  forall (len usage mem : Z) (name : string),
    0 <= len ->
    match createBuffer ctx len usage mem name with
    | (Some vb, r) =>
        Result.isOk r = true ->
        zlen (contents vb) = len
        /\ (isMapped vb = true ->
            has_bit (memoryPropertyFlags vb) VK_MEMORY_PROPERTY_HOST_COHERENT_BIT = true)
    | (None, r) => Result.isOk r = false
    end.

(** The usage flags [Buffer::create] derives from a descriptor whose
    storage tier has been settled. *)
Definition usage_flags (d : BufferDesc.t) : Z :=
  or_if (has_bit (BufferDesc.type d) BufferDesc.Indirect)
    (or_if (has_bit (BufferDesc.type d) BufferDesc.Storage)
       (or_if (has_bit (BufferDesc.type d) BufferDesc.Uniform)
          (or_if (has_bit (BufferDesc.type d) BufferDesc.Vertex)
             (or_if (has_bit (BufferDesc.type d) BufferDesc.Index)
                (if ResourceStorage_eqb (BufferDesc.storage d) Private
                 then Z.lor VK_BUFFER_USAGE_TRANSFER_DST_BIT
                        VK_BUFFER_USAGE_TRANSFER_SRC_BIT
                 else 0)
                VK_BUFFER_USAGE_INDEX_BUFFER_BIT)
             VK_BUFFER_USAGE_VERTEX_BUFFER_BIT)
          (Z.lor VK_BUFFER_USAGE_UNIFORM_BUFFER_BIT
             VK_BUFFER_USAGE_SHADER_DEVICE_ADDRESS_BIT_KHR))
       (Z.lor (Z.lor VK_BUFFER_USAGE_STORAGE_BUFFER_BIT VK_BUFFER_USAGE_TRANSFER_DST_BIT)
          VK_BUFFER_USAGE_SHADER_DEVICE_ADDRESS_BIT_KHR))
    (Z.lor VK_BUFFER_USAGE_INDIRECT_BUFFER_BIT
       VK_BUFFER_USAGE_SHADER_DEVICE_ADDRESS_BIT_KHR).

(** The storage tier [Buffer::create] settles on. *)
Definition effective_storage (ctx : VulkanContext) (desc : BufferDesc.t)
  : ResourceStorage :=
  if negb (useStaging_ ctx) && ResourceStorage_eqb (BufferDesc.storage desc) Private
  then Shared
  else BufferDesc.storage desc.

(** ** Pipelines and shaders *)

(** The module a render-pipeline descriptor has for a stage: none when the
    shader-stage set is absent. *)
Definition module_of (desc : RenderPipelineDesc) (stage : ShaderStage) : option Z :=
  match shaderStages desc with
  | Some stages => getModule stages stage
  | None => None
  end.

(** Neither a color attachment nor a depth attachment is specified. *)
Definition no_attachments (desc : RenderPipelineDesc) : Prop :=
  colorAttachments desc = [] /\ depthAttachmentFormat desc = TextureFormat_Invalid.

Definition render_pipeline_messages : list string :=
  ["Missing shader stages"; "Need at least one attachment";
   "Missing vertex shader"; "Missing fragment shader"].

(** ** Capability flags *)

(** The capability flags are independent bits: Unsupported is the empty
    mask, and the five flags are non-empty and pairwise disjoint. *)
Record capability_bits_independent (bits : TextureFormatCapabilityBits) : Prop :=
  mk_capability_bits_independent {
  unsupported_empty : Unsupported bits = 0;
  sampled_nonzero : Sampled bits <> 0;
  storage_nonzero : Storage bits <> 0;
  filtered_nonzero : SampledFiltered bits <> 0;
  attachment_nonzero : Attachment bits <> 0;
  sampled_attachment_nonzero : SampledAttachment bits <> 0;
  sampled_storage : Z.land (Sampled bits) (Storage bits) = 0;
  sampled_filtered : Z.land (Sampled bits) (SampledFiltered bits) = 0;
  sampled_attachment : Z.land (Sampled bits) (Attachment bits) = 0;
  sampled_sampled_attachment : Z.land (Sampled bits) (SampledAttachment bits) = 0;
  storage_filtered : Z.land (Storage bits) (SampledFiltered bits) = 0;
  storage_attachment : Z.land (Storage bits) (Attachment bits) = 0;
  storage_sampled_attachment : Z.land (Storage bits) (SampledAttachment bits) = 0;
  filtered_attachment : Z.land (SampledFiltered bits) (Attachment bits) = 0;
  filtered_sampled_attachment :
    Z.land (SampledFiltered bits) (SampledAttachment bits) = 0;
  attachment_sampled_attachment :
    Z.land (Attachment bits) (SampledAttachment bits) = 0
}.

(** A flag, or nothing. *)
Definition sel (c : bool) (flag : Z) : Z := if c then flag else 0.

(** The mask made of the flags that five conditions choose. *)
Definition chosen (bits : TextureFormatCapabilityBits) (s st f a sa : bool) : Z :=
  Z.lor (Z.lor (Z.lor (Z.lor (sel s (Sampled bits)) (sel st (Storage bits)))
                  (sel f (SampledFiltered bits)))
           (sel a (Attachment bits)))
    (sel sa (SampledAttachment bits)).

(** Whether one of the three feature-flag sources of a format has a
    feature bit. *)
Definition format_feature (p : VkFormatProperties) (bit : Z) : bool :=
  has_bit (bufferFeatures p) bit
  || has_bit (linearTilingFeatures p) bit
  || has_bit (optimalTilingFeatures p) bit.

(** ** Shader headers *)

(** A text declares something when it contains the declaration. *)
Definition declares (text needle : string) : bool := is_some (strstr text needle).

Definition declares_all (text : string) (needles : list string) : bool :=
  forallb (declares text) needles.

(** The fixed-size bindings block and the buffer-slot helper. *)
Definition bindings_declarations : list string :=
  ["layout (set = 1, binding = 0) uniform Bindings {";
   "uvec4 slots[16];";
   "} bindings;";
   "uvec2 getBuffer(uint slot) {"].

(** The unbounded texture and sampler descriptor arrays. *)
Definition texture_declarations : list string :=
  ["layout (set = 0, binding = 0) uniform texture2D kTextures2D[];";
   "layout (set = 0, binding = 1) uniform texture2DArray kTextures2DArray[];";
   "layout (set = 0, binding = 2) uniform texture3D kTextures3D[];";
   "layout (set = 0, binding = 3) uniform textureCube kTexturesCube[];";
   "layout (set = 0, binding = 4) uniform sampler kSamplers[];";
   "layout (set = 0, binding = 5) uniform samplerShadow kSamplersShadow[];"].

(** The helper family of the fragment header. *)
Definition texture_helpers : list string :=
  ["ivec2 textureSize2D(uint slotTexture, uint slotSampler) {";
   "vec4 textureSample2D(uint slotTexture, uint slotSampler, vec2 uv) {";
   "float textureSample2DShadow(uint slotTexture, uint slotSampler, vec3 uvw) {";
   "vec4 textureSample2DArray(uint slotTexture, uint slotSampler, vec3 uvw) {";
   "vec4 textureSampleCube(uint slotTexture, uint slotSampler, vec3 uvw) {";
   "vec4 textureSample3D(uint slotTexture, uint slotSampler, vec3 uvw) {";
   "vec4 textureLod2D(uint slotTexture, uint slotSampler, vec3 uvw, float lod) {"].

(** The stage-specific part of the synthesized header. *)
Definition stage_header (stage : ShaderStage) : string :=
  match stage with
  | Stage_Vertex | Stage_Compute => header_vertex_compute
  | Stage_Fragment => header_fragment
  end.

(** The events of a compilation and of what follows it. *)
Definition compile_events (ctx : VulkanContext) (vkStage : VkShaderStageFlagBits)
    (source debugName : string) : list Event :=
  CompileShader vkStage source
  :: (if Result.isOk (fst (compileShader ctx vkStage source))
      then debug_name_events debugName
      else []).

Definition is_compilation (e : Event) : bool :=
  match e with CompileShader _ _ => true | _ => false end.

(** * Concrete inputs *)

(** A backend in which every allocation succeeds, zero-filled, and is
    mapped when host-visible coherent memory was asked for. *)
Definition ctx_example (staging debugPrintf : bool) : VulkanContext :=
  mkVulkanContext staging
    (fun len usage mem name =>
       (Some (mkVulkanBuffer
                (has_bit mem VK_MEMORY_PROPERTY_HOST_COHERENT_BIT
                 && has_bit mem VK_MEMORY_PROPERTY_HOST_VISIBLE_BIT)
                mem (repeat x00 (Z.to_nat len))),
        Result.ok))
    (fun s =>
       match s with
       | Private => VK_MEMORY_PROPERTY_DEVICE_LOCAL_BIT
       | Shared => Z.lor VK_MEMORY_PROPERTY_HOST_VISIBLE_BIT
                     VK_MEMORY_PROPERTY_HOST_COHERENT_BIT
       end)
    (fun name =>
       debugPrintf && String.eqb name VK_KHR_SHADER_NON_SEMANTIC_INFO_EXTENSION_NAME)
    (fun stage source => (Result.ok, 7))
    (fun data len => (VK_SUCCESS, 8))
    (fun r => if r =? VK_SUCCESS then Result.ok else Result.mk Result.RuntimeError "")
    (fun format =>
       if format =? 37
       then mkVkFormatProperties 0
              (Z.lor VK_FORMAT_FEATURE_SAMPLED_IMAGE_BIT
                 VK_FORMAT_FEATURE_COLOR_ATTACHMENT_BIT) 0
       else mkVkFormatProperties 0 0 0).

(** A four-byte storage buffer with initial data, device-local. *)
Definition desc_example : BufferDesc.t :=
  BufferDesc.mk BufferDesc.Storage (Some [x01; x02; x03; x04]) 4 Private "example".

(** The buffer [createBuffer] makes of [desc_example] with staging. *)
Definition buffer_example : Buffer :=
  mkBuffer desc_example
    (Some (mkVulkanBuffer false VK_MEMORY_PROPERTY_DEVICE_LOCAL_BIT
             [x01; x02; x03; x04]))
    (BufferRange.mk 0 0) [].

(** The same buffer made without staging support: host-visible. *)
Definition buffer_example_shared : Buffer :=
  mkBuffer (BufferDesc.with_storage desc_example Shared)
    (Some (mkVulkanBuffer true
             (Z.lor VK_MEMORY_PROPERTY_HOST_VISIBLE_BIT
                VK_MEMORY_PROPERTY_HOST_COHERENT_BIT)
             [x01; x02; x03; x04]))
    (BufferRange.mk 0 0) [].

(** [buffer_example] after [map] of its first two bytes and a write of
    two bytes through the returned pointer. *)
Definition buffer_pending : Buffer :=
  mkBuffer desc_example
    (Some (mkVulkanBuffer false VK_MEMORY_PROPERTY_DEVICE_LOCAL_BIT
             [x01; x02; x03; x04]))
    (BufferRange.mk 2 0) [x09; x09].

(** A descriptor without usage type, and without initial data. *)
Definition desc_no_type : BufferDesc.t :=
  BufferDesc.mk 0 None 4 Private "untyped".

(** A descriptor with both modules and a color attachment, and the same
    without a vertex module, without attachments. *)
Definition stages_example : ShaderStages :=
  mkShaderStages (fun stage =>
    match stage with
    | Stage_Vertex => Some 1
    | Stage_Fragment => Some 2
    | Stage_Compute => None
    end).

Definition stages_no_vertex : ShaderStages :=
  mkShaderStages (fun stage =>
    match stage with
    | Stage_Fragment => Some 2
    | _ => None
    end).

Definition pipeline_example : RenderPipelineDesc :=
  mkRenderPipelineDesc (Some stages_example) [TextureFormat_Other 37]
    TextureFormat_Invalid.

Definition pipeline_no_vertex : RenderPipelineDesc :=
  mkRenderPipelineDesc (Some stages_no_vertex) [TextureFormat_Other 37]
    (TextureFormat_Other 126).

Definition pipeline_no_attachments : RenderPipelineDesc :=
  mkRenderPipelineDesc (Some stages_example) [] TextureFormat_Invalid.

(** One bit per capability flag, in the order the specification lists the
    flags after Unsupported. *)
Definition bits_example : TextureFormatCapabilityBits :=
  mkTextureFormatCapabilityBits 0 1 2 4 8 16.

(** A format table with one native format. *)
Definition toVk_example (format : TextureFormat) : Z :=
  match format with
  | TextureFormat_Other 1 => 37
  | _ => VK_FORMAT_UNDEFINED
  end.

(** A fragment shader in text form, without version marker. *)
Definition shader_example : string := "void main() { }".


(** * Further functions of the sources *)

(** ** [Buffer::gpuAddress] *)

Definition gpuAddress_message : string :=
  "Buffer offset must be 8 bytes aligned as per GLSL_EXT_buffer_reference spec.".

(** [Buffer::gpuAddress]: the assertion on the alignment of the offset,
    and the [uint64_t] sum of the device address and the offset.
    [VulkanBuffer::getVkDeviceAddress] is not part of the sources: it is a
    parameter. *)
Definition Buffer_gpuAddress (getVkDeviceAddress : VulkanBuffer -> Z) (offset : Z)
  : M Z :=
  bind (IGL_VERIFY (Z.land offset 7 =? 0) gpuAddress_message)
    (fun _ =>
       bind deref_buffer
         (fun vb => ret (add_sz (getVkDeviceAddress vb) offset))).

(** ** Capability queries on the device limits *)

Definition VK_SAMPLE_COUNT_1_BIT : Z := 1.
Definition VK_SAMPLE_COUNT_2_BIT : Z := 2.
Definition VK_SAMPLE_COUNT_4_BIT : Z := 4.
Definition VK_SAMPLE_COUNT_8_BIT : Z := 8.
Definition VK_SAMPLE_COUNT_16_BIT : Z := 16.
Definition VK_SAMPLE_COUNT_32_BIT : Z := 32.
Definition VK_SAMPLE_COUNT_64_BIT : Z := 64.

(** The fields of [VkPhysicalDeviceLimits] the queries read. The limit
    [maxSamplerAnisotropy] is a [float] that the code only compares with
    1: the field holds the outcome of [maxSamplerAnisotropy > 1]. *)
Record VkPhysicalDeviceLimits : Type := mkVkPhysicalDeviceLimits {
  maxImageDimension1D : Z;
  maxImageDimension2D : Z;
  maxImageDimensionCube : Z;
  maxUniformBufferRange : Z;
  maxPushConstantsSize : Z;
  framebufferColorSampleCounts : Z;
  maxSamplerAnisotropy_above_1 : bool
}.

(** The enumerators the [switch] of [hasFeature] handles. *)
Inductive DeviceFeatures : Type :=
| MultiSample
| MultiSampleResolve
| TextureFilterAnisotropic.

(** The enumerators the [switch] of [getFeatureLimits] handles. *)
Inductive DeviceFeatureLimits : Type :=
| MaxDimension1D2D
| MaxDimensionCube
| MaxUniformBufferBytes
| MaxPushConstantBytes
| MaxSamples.

(** [Device::hasFeature] *)
Definition Device_hasFeature (limits : VkPhysicalDeviceLimits) (feature : DeviceFeatures)
  : bool :=
  match feature with
  | MultiSample
  | MultiSampleResolve => framebufferColorSampleCounts limits >? VK_SAMPLE_COUNT_1_BIT
  | TextureFilterAnisotropic => maxSamplerAnisotropy_above_1 limits
  end.

(** [Device::getFeatureLimits]: the returned flag and the final value of
    the reference parameter [result]. *)
Definition Device_getFeatureLimits (limits : VkPhysicalDeviceLimits)
    (featureLimits : DeviceFeatureLimits) : bool * Z :=
  match featureLimits with
  | MaxDimension1D2D =>
      (true, Z.min (maxImageDimension1D limits) (maxImageDimension2D limits))
  | MaxDimensionCube => (true, maxImageDimensionCube limits)
  | MaxUniformBufferBytes => (true, maxUniformBufferRange limits)
  | MaxPushConstantBytes => (true, maxPushConstantsSize limits)
  | MaxSamples =>
      let sampleCounts := framebufferColorSampleCounts limits in
      (true,
       if has_bit sampleCounts VK_SAMPLE_COUNT_64_BIT then 64
       else if has_bit sampleCounts VK_SAMPLE_COUNT_32_BIT then 32
       else if has_bit sampleCounts VK_SAMPLE_COUNT_16_BIT then 16
       else if has_bit sampleCounts VK_SAMPLE_COUNT_8_BIT then 8
       else if has_bit sampleCounts VK_SAMPLE_COUNT_4_BIT then 4
       else if has_bit sampleCounts VK_SAMPLE_COUNT_2_BIT then 2
       else 1)
  end.

(** [supportsFormat] *)
Definition supportsFormat (ctx : VulkanContext) (format : Z) : bool :=
  let properties := vkGetPhysicalDeviceFormatProperties ctx format in
  negb (bufferFeatures properties =? 0)
  || negb (linearTilingFeatures properties =? 0)
  || negb (optimalTilingFeatures properties =? 0).

(** ** Notions used in the further statements *)

(** The sample counts above 1 that [getFeatureLimits] tests. *)
Definition tested_sample_counts : list Z := [2; 4; 8; 16; 32; 64].

(** The contents after the bytes [src] replace those at [offset]. *)
Definition replaced (c : list byte) (offset : Z) (src : list byte) : list byte :=
  firstn (Z.to_nat offset) c ++ src ++ skipn (Z.to_nat (offset + zlen src)) c.

(** The result of the backend allocation [Buffer::create] requests for a
    descriptor. *)
Definition allocation_result (ctx : VulkanContext) (desc : BufferDesc.t) : Result.t :=
  let d := BufferDesc.with_storage desc (effective_storage ctx desc) in
  snd (createBuffer ctx (BufferDesc.length desc) (usage_flags d)
         (resourceStorageToVkMemoryPropertyFlags ctx (BufferDesc.storage d))
         (BufferDesc.debugName desc)).

(** The module a compute-pipeline descriptor has for the compute stage. *)
Definition compute_module (desc : ComputePipelineDesc) : option Z :=
  match computeShaderStages desc with
  | Some stages => getModule stages Stage_Compute
  | None => None
  end.

(** The version marker [createShaderModule] searches for. *)
Definition version_marker : string := "#version ".

(** A text has another as a substring. *)
Definition has_substring (s needle : string) : Prop :=
  exists pre post, s = (pre ++ needle ++ post)%string.

(** The test [!source || !*source] of the text path. *)
Definition source_is_empty (source : option string) : bool :=
  match source with
  | None => true
  | Some raw => string_is_empty (c_str raw)
  end.

(** The conversion of backend result codes maps success, and nothing else,
    to an Ok result. *)
Definition converts_success_only (ctx : VulkanContext) : Prop :=
  forall r, Result.isOk (getResultFromVkResult ctx r) = (r =? VK_SUCCESS).

(** ** Further concrete inputs *)

Definition limits_example : VkPhysicalDeviceLimits :=
  mkVkPhysicalDeviceLimits 16384 8192 16384 65536 128 (1 + 2 + 4 + 8) true.

Definition compute_example : ComputePipelineDesc :=
  mkComputePipelineDesc
    (Some (mkShaderStages (fun stage =>
             match stage with Stage_Compute => Some 3 | _ => None end))).

(** A result left in the result object by an earlier call. *)
Definition stale_result : Result.t := Result.mk Result.RuntimeError "stale".

(** A source whose first character is NUL. *)
Definition source_nul_first : string := String zero "void main() { }".

(** A host-visible example buffer with an address, and the function that
    gives it. *)
Definition address_example (vb : VulkanBuffer) : Z := 4096.
(** * Properties *)

(** ** Lists of bytes and the staging copies *)

Lemma zlen_nonneg {A : Type} (l : list A) : 0 <= zlen l.
Proof. unfold zlen. lia. Qed.

Lemma zlen_app {A : Type} (l1 l2 : list A) : zlen (l1 ++ l2) = zlen l1 + zlen l2.
Proof. unfold zlen. rewrite length_app. lia. Qed.

Lemma zlen_firstn {A : Type} (l : list A) (n : Z) :
  0 <= n <= zlen l -> zlen (firstn (Z.to_nat n) l) = n.
Proof. unfold zlen. intros H. rewrite length_firstn. lia. Qed.

Lemma zlen_skipn {A : Type} (l : list A) (n : Z) :
  0 <= n <= zlen l -> zlen (skipn (Z.to_nat n) l) = zlen l - n.
Proof. unfold zlen. intros H. rewrite length_skipn. lia. Qed.



Lemma wrap_small (z : Z) : is_size_t z -> wrap z = z.
Proof. unfold is_size_t, wrap. intros H. apply Z.mod_small. exact H. Qed.

Lemma resize_length (v : list byte) (n : Z) : 0 <= n -> zlen (resize v n) = n.
Proof.
  intros Hn. unfold resize, zlen.
  rewrite length_app, length_firstn, repeat_length. lia.
Qed.

Lemma write_bytes_all (dst src : list byte) :
  zlen dst = zlen src -> write_bytes dst src = src.
Proof.
  unfold write_bytes, zlen. intros H.
  rewrite skipn_all2 by lia. apply app_nil_r.
Qed.

Lemma write_bytes_length (dst src : list byte) :
  zlen src <= zlen dst -> zlen (write_bytes dst src) = zlen dst.
Proof.
  unfold write_bytes, zlen. intros H.
  rewrite length_app, length_skipn. lia.
Qed.

Section Staging.

Variable vb : VulkanBuffer.
Variables offset size : Z.

Lemma getBufferSubData_defined :
  in_allocation vb offset size ->
  getBufferSubData vb offset size
  = Some (firstn (Z.to_nat size) (skipn (Z.to_nat offset) (contents vb))).
Proof.
  intros (Ho & Hs & Hb). unfold getBufferSubData.
  replace (0 <=? offset) with true by (symmetry; apply Z.leb_le; lia).
  replace (0 <=? size) with true by (symmetry; apply Z.leb_le; lia).
  replace (offset + size <=? zlen (contents vb)) with true
    by (symmetry; apply Z.leb_le; lia).
  reflexivity.
Qed.

Lemma getBufferSubData_inv (bytes : list byte) :
  getBufferSubData vb offset size = Some bytes ->
  in_allocation vb offset size
  /\ bytes = firstn (Z.to_nat size) (skipn (Z.to_nat offset) (contents vb))
  /\ zlen bytes = size.
Proof.
  unfold getBufferSubData, in_allocation.
  destruct (0 <=? offset) eqn:Ho; [| discriminate].
  destruct (0 <=? size) eqn:Hs; [| discriminate].
  destruct (offset + size <=? zlen (contents vb)) eqn:Hb; [| discriminate].
  simpl. intros E. injection E as <-.
  apply Z.leb_le in Ho, Hs, Hb.
  repeat split; try lia.
  apply zlen_firstn. rewrite zlen_skipn by lia. lia.
Qed.

Lemma bufferSubData_defined (data : list byte) :
  in_allocation vb offset size -> size <= zlen data ->
  bufferSubData vb offset size data
  = Some (with_contents vb
            (firstn (Z.to_nat offset) (contents vb)
             ++ firstn (Z.to_nat size) data
             ++ skipn (Z.to_nat (offset + size)) (contents vb))).
Proof.
  intros (Ho & Hs & Hb) Hd. unfold bufferSubData.
  replace (0 <=? offset) with true by (symmetry; apply Z.leb_le; lia).
  replace (0 <=? size) with true by (symmetry; apply Z.leb_le; lia).
  replace (offset + size <=? zlen (contents vb)) with true
    by (symmetry; apply Z.leb_le; lia).
  replace (size <=? zlen data) with true by (symmetry; apply Z.leb_le; lia).
  reflexivity.
Qed.

Lemma bufferSubData_inv (data : list byte) (vb' : VulkanBuffer) :
  bufferSubData vb offset size data = Some vb' ->
  in_allocation vb offset size /\ size <= zlen data
  /\ vb' = with_contents vb
             (firstn (Z.to_nat offset) (contents vb)
              ++ firstn (Z.to_nat size) data
              ++ skipn (Z.to_nat (offset + size)) (contents vb)).
Proof.
  unfold bufferSubData, in_allocation.
  destruct (0 <=? offset) eqn:Ho; [| discriminate].
  destruct (0 <=? size) eqn:Hs; [| discriminate].
  destruct (offset + size <=? zlen (contents vb)) eqn:Hb; [| discriminate].
  destruct (size <=? zlen data) eqn:Hd; [| discriminate].
  simpl. intros E. injection E as <-.
  apply Z.leb_le in Ho, Hs, Hb, Hd. repeat split; lia.
Qed.

(** The copy keeps the size of the allocation. *)
Lemma bufferSubData_length (data : list byte) (vb' : VulkanBuffer) :
  bufferSubData vb offset size data = Some vb' ->
  zlen (contents vb') = zlen (contents vb) /\ isMapped vb' = isMapped vb.
Proof.
  intros H. apply bufferSubData_inv in H as ((Ho & Hs & Hb) & Hd & ->).
  simpl. split; [| reflexivity].
  rewrite !zlen_app, !zlen_firstn, zlen_skipn by lia. lia.
Qed.

(** Reading back what a copy wrote. *)
Lemma getBufferSubData_bufferSubData (data : list byte) (vb' : VulkanBuffer) :
  bufferSubData vb offset size data = Some vb' ->
  getBufferSubData vb' offset size = Some (firstn (Z.to_nat size) data).
Proof.
  intros H. pose proof (bufferSubData_length _ _ H) as (Hlen & _).
  apply bufferSubData_inv in H as ((Ho & Hs & Hb) & Hd & ->).
  unfold getBufferSubData. rewrite Hlen.
  replace (0 <=? offset) with true by (symmetry; apply Z.leb_le; lia).
  replace (0 <=? size) with true by (symmetry; apply Z.leb_le; lia).
  replace (offset + size <=? zlen (contents vb)) with true
    by (symmetry; apply Z.leb_le; lia).
  simpl. f_equal.
  rewrite skipn_app.
  rewrite skipn_all2 by (rewrite length_firstn; unfold zlen in *; lia).
  rewrite length_firstn.
  replace (Z.to_nat offset - Nat.min (Z.to_nat offset) (List.length (contents vb)))%nat
    with 0%nat by (unfold zlen in *; lia).
  simpl. rewrite firstn_app.
  rewrite length_firstn.
  replace (Z.to_nat size - Nat.min (Z.to_nat size) (List.length data))%nat
    with 0%nat by (unfold zlen in *; lia).
  rewrite firstn_firstn, Nat.min_id. simpl. apply app_nil_r.
Qed.

(** Writing back the bytes that were read changes nothing. *)
Lemma bufferSubData_getBufferSubData (bytes : list byte) :
  getBufferSubData vb offset size = Some bytes ->
  bufferSubData vb offset size bytes = Some vb.
Proof.
  intros H. apply getBufferSubData_inv in H as ((Ho & Hs & Hb) & -> & Hlen).
  rewrite bufferSubData_defined by (unfold in_allocation; lia).
  f_equal. destruct vb as [m f c]. unfold with_contents. simpl in *. f_equal.
  rewrite firstn_all2 with (n := Z.to_nat size)
    by (unfold zlen in Hlen; lia).
  replace (Z.to_nat (offset + size)) with (Z.to_nat size + Z.to_nat offset)%nat by lia.
  rewrite <- skipn_skipn.
  rewrite firstn_skipn. apply firstn_skipn.
Qed.

End Staging.

(** ** [Buffer::upload] *)

Lemma with_buffer_same (b : Buffer) : with_buffer b (buffer_ b) = b.
Proof. destruct b; reflexivity. Qed.

Lemma upload_null (b : Buffer) (range : BufferRange.t) :
  Buffer_upload None range b = Some (Result.ok, b, [AssertionWarning "data"]).
Proof. reflexivity. Qed.

Lemma upload_out_of_range (b : Buffer) (d : list byte) (range : BufferRange.t) :
  (add_sz (BufferRange.offset range) (BufferRange.size range)
   <=? BufferDesc.length (desc_ b)) = false ->
  Buffer_upload (Some d) range b
  = Some (Result.mk Result.ArgumentOutOfRange "Out of range", b,
          [AssertionWarning "range.offset + range.size <= desc_.length"]).
Proof.
  intros H. unfold Buffer_upload, bind, get, IGL_VERIFY. rewrite H.
  reflexivity.
Qed.

Lemma upload_in_range (b : Buffer) (d : list byte) (range : BufferRange.t)
    (vb vb' : VulkanBuffer) :
  buffer_ b = Some vb ->
  (add_sz (BufferRange.offset range) (BufferRange.size range)
   <=? BufferDesc.length (desc_ b)) = true ->
  bufferSubData vb (BufferRange.offset range) (BufferRange.size range) d = Some vb' ->
  Buffer_upload (Some d) range b
  = Some (Result.ok, with_buffer b (Some vb'),
          [StagingBufferSubData (BufferRange.offset range) (BufferRange.size range)]).
Proof.
  intros Hb H Hs. unfold Buffer_upload, bind, get, IGL_VERIFY, deref_buffer, emit.
  rewrite H. simpl. rewrite Hb, Hs. reflexivity.
Qed.

(** ** [Buffer::unmap] *)

Lemma unmap_host_visible (b : Buffer) (vb : VulkanBuffer) :
  buffer_ b = Some vb -> isMapped vb = true ->
  Buffer_unmap b
  = Some (tt,
          with_mappedRange b (BufferRange.mk 0 (BufferRange.offset (mappedRange_ b))),
          assert_events (negb (BufferRange.size (mappedRange_ b) =? 0)) unmap_message).
Proof.
  intros Hb Hm.
  unfold Buffer_unmap, bind, get, IGL_VERIFY, deref_buffer, set_mappedRange, ret, emit,
    assert_events, unmap_message.
  destruct (negb (BufferRange.size (mappedRange_ b) =? 0));
    simpl; rewrite Hb, Hm; reflexivity.
Qed.

Lemma unmap_scratch_empty (b : Buffer) (vb : VulkanBuffer) :
  buffer_ b = Some vb -> isMapped vb = false -> tmpBuffer_ b = [] ->
  Buffer_unmap b
  = Some (tt,
          with_mappedRange b (BufferRange.mk 0 (BufferRange.offset (mappedRange_ b))),
          assert_events (negb (BufferRange.size (mappedRange_ b) =? 0)) unmap_message
          ++ [AssertionWarning "data"]).
Proof.
  intros Hb Hm Ht.
  unfold Buffer_unmap, bind, get, IGL_VERIFY, deref_buffer, set_mappedRange, ret, emit,
    assert_events, unmap_message.
  destruct (negb (BufferRange.size (mappedRange_ b) =? 0));
    simpl; rewrite Hb, Hm, Ht; reflexivity.
Qed.

Lemma unmap_scratch (b : Buffer) (vb vb' : VulkanBuffer) :
  buffer_ b = Some vb -> isMapped vb = false -> tmpBuffer_ b <> [] ->
  (add_sz (BufferRange.offset (mappedRange_ b)) (zlen (tmpBuffer_ b))
   <=? BufferDesc.length (desc_ b)) = true ->
  bufferSubData vb (BufferRange.offset (mappedRange_ b)) (zlen (tmpBuffer_ b))
    (tmpBuffer_ b) = Some vb' ->
  Buffer_unmap b
  = Some (tt,
          mkBuffer (desc_ b) (Some vb')
            (BufferRange.mk 0 (BufferRange.offset (mappedRange_ b))) (tmpBuffer_ b),
          assert_events (negb (BufferRange.size (mappedRange_ b) =? 0)) unmap_message
          ++ [StagingBufferSubData (BufferRange.offset (mappedRange_ b))
                (zlen (tmpBuffer_ b))]).
Proof.
  intros Hb Hm Ht Hr Hs.
  assert (Hu : Buffer_upload (vector_data (tmpBuffer_ b))
                 (BufferRange.mk (zlen (tmpBuffer_ b))
                    (BufferRange.offset (mappedRange_ b))) b
               = Some (Result.ok, with_buffer b (Some vb'),
                       [StagingBufferSubData (BufferRange.offset (mappedRange_ b))
                          (zlen (tmpBuffer_ b))])).
  { replace (vector_data (tmpBuffer_ b)) with (Some (tmpBuffer_ b))
      by (destruct (tmpBuffer_ b); [contradiction | reflexivity]).
    apply upload_in_range with (vb := vb); assumption. }
  unfold Buffer_unmap, bind, get, IGL_VERIFY, deref_buffer, set_mappedRange, ret, emit,
    assert_events, unmap_message.
  destruct (negb (BufferRange.size (mappedRange_ b) =? 0));
    simpl; rewrite Hb, Hm; simpl; rewrite Hu; reflexivity.
Qed.

(** ** [Buffer::map] *)

(** [map] is its sanity check, the implicit unmap, and the establishing of
    the mapping. *)
Lemma Buffer_map_unfold (range : BufferRange.t) (out : option Result.t) (b : Buffer) :
  Buffer_map range out b
  = if exceeds_buffer b range
    then Some (NullPtr,
               Result.setResult out
                 (Result.mk Result.ArgumentOutOfRange "Range exceeds buffer length"),
               b, [])
    else bind (if other_mapping_active b range
               then bind (emit (AssertionWarning map_message)) (fun _ => Buffer_unmap)
               else ret tt)
           (fun _ => establish_mapping range out) b.
Proof.
  unfold Buffer_map, exceeds_buffer, other_mapping_active, map_message,
    establish_mapping.
  unfold bind at 1. unfold get at 1. cbv beta iota.
  destruct (_ || _); [reflexivity |].
  match goal with
  | |- match ?X with _ => _ end = _ => destruct X as [[[r b2] t2] |]
  end; reflexivity.
Qed.

Lemma establish_host_visible (range : BufferRange.t) (out : option Result.t)
    (b : Buffer) (vb : VulkanBuffer) :
  buffer_ b = Some vb -> isMapped vb = true ->
  establish_mapping range out b
  = Some (MappedPtr (BufferRange.offset range), Result.setOk out,
          with_mappedRange b range,
          assert_events
            (has_bit (memoryPropertyFlags vb) VK_MEMORY_PROPERTY_HOST_COHERENT_BIT)
            "buffer_->getMemoryPropertyFlags() & VK_MEMORY_PROPERTY_HOST_COHERENT_BIT").
Proof.
  intros Hb Hm.
  unfold establish_mapping, bind, set_mappedRange, deref_buffer, IGL_VERIFY, ret, emit,
    assert_events.
  simpl. rewrite Hb, Hm. simpl.
  destruct (has_bit _ _); reflexivity.
Qed.

Lemma establish_scratch (range : BufferRange.t) (out : option Result.t)
    (b : Buffer) (vb : VulkanBuffer) (bytes : list byte) :
  buffer_ b = Some vb -> isMapped vb = false ->
  getBufferSubData vb (BufferRange.offset range) (BufferRange.size range) = Some bytes ->
  establish_mapping range out b
  = Some (TmpBufferData, Result.setOk out,
          mkBuffer (desc_ b) (Some vb) range bytes,
          [StagingGetBufferSubData (BufferRange.offset range) (BufferRange.size range)]).
Proof.
  intros Hb Hm Hg.
  unfold establish_mapping, bind, set_mappedRange, deref_buffer, get, set_tmpBuffer,
    ret, emit.
  simpl. rewrite Hb, Hm. simpl. rewrite Hg. simpl.
  unfold with_tmpBuffer, with_mappedRange. simpl. rewrite Hb.
  rewrite write_bytes_all; [reflexivity |].
  apply getBufferSubData_inv in Hg as ((Ho & Hs & _) & _ & Hlen).
  rewrite resize_length by lia. lia.
Qed.

(** ** The methods on a created buffer *)

Lemma written_back_nil (vb : VulkanBuffer) (offset : Z) :
  written_back vb offset [] = vb.
Proof.
  destruct vb as [m f c]. unfold written_back, with_contents. simpl.
  rewrite Z.add_0_r. rewrite firstn_skipn. reflexivity.
Qed.

Lemma unmap_wf (b : Buffer) :
  wf b -> Buffer_unmap b = Some (tt, unmapped b, unmap_events b).
Proof.
  intros [vb [Hb HL Hc Ho Hs Hin Htmp Hsz Hhv Hco]].
  unfold unmapped, unmap_events, host_visible. rewrite Hb.
  destruct (isMapped vb) eqn:Hm.
  - rewrite (unmap_host_visible b vb Hb Hm), app_nil_r.
    unfold with_mappedRange. rewrite Hb. reflexivity.
  - destruct (tmpBuffer_ b) as [| x tmp] eqn:Ht.
    + rewrite (unmap_scratch_empty b vb Hb Hm Ht).
      rewrite written_back_nil. unfold with_mappedRange. rewrite Hb, Ht. reflexivity.
    + assert (Hne : tmpBuffer_ b <> []) by (rewrite Ht; discriminate).
      rewrite <- Ht in Htmp, Hsz |- *.
      pose proof (zlen_nonneg (tmpBuffer_ b)) as Hnn.
      rewrite (unmap_scratch b vb
                 (written_back vb (BufferRange.offset (mappedRange_ b)) (tmpBuffer_ b))
                 Hb Hm Hne).
      * reflexivity.
      * apply Z.leb_le. unfold add_sz. rewrite wrap_small; unfold is_size_t in *; lia.
      * rewrite bufferSubData_defined by (unfold in_allocation; lia).
        unfold written_back.
        rewrite (firstn_all2 (n := Z.to_nat (zlen (tmpBuffer_ b)))) by (unfold zlen; lia).
        reflexivity.
Qed.

Lemma wf_unmapped (b : Buffer) : wf b -> wf (unmapped b).
Proof.
  intros [vb [Hb HL Hc Ho Hs Hin Htmp Hsz Hhv Hco]].
  pose proof (zlen_nonneg (tmpBuffer_ b)) as Hnn.
  assert (Hc' : zlen (contents (written_back vb (BufferRange.offset (mappedRange_ b))
                                  (tmpBuffer_ b)))
                = BufferDesc.length (desc_ b)).
  { unfold written_back. simpl.
    rewrite !zlen_app, zlen_firstn, zlen_skipn by lia. lia. }
  unfold wf, unmapped. rewrite Hb.
  eexists. constructor; simpl; try reflexivity; try assumption; try lia.
  - destruct (isMapped vb); assumption.
  - destruct (isMapped vb) eqn:Hm; simpl; [auto | rewrite Hm; discriminate].
  - destruct (isMapped vb) eqn:Hm; simpl; [auto | rewrite Hm; discriminate].
Qed.

Lemma host_visible_unmapped (b : Buffer) :
  host_visible (unmapped b) = host_visible b.
Proof.
  unfold host_visible, unmapped. simpl.
  destruct (buffer_ b) as [vb |]; [| reflexivity].
  destruct (isMapped vb) eqn:Hm; [exact Hm | exact Hm].
Qed.


Lemma exceeds_buffer_spec (b : Buffer) (range : BufferRange.t) :
  is_size_t (BufferDesc.length (desc_ b)) -> is_range range ->
  (exceeds_buffer b range = true
   <-> BufferRange.offset range + BufferRange.size range > BufferDesc.length (desc_ b)).
Proof.
  intros HL (Ho & Hs). unfold exceeds_buffer. unfold is_size_t in *.
  rewrite orb_true_iff.
  destruct (Z.gtb_spec (BufferRange.size range) (BufferDesc.length (desc_ b))) as [Hgt | Hle].
  - split; [lia | intros _; left; reflexivity].
  - unfold sub_sz. rewrite wrap_small by (unfold is_size_t; lia).
    rewrite Z.gtb_gt. split; [intros [H | H]; [discriminate | lia] | right; lia].
Qed.

Lemma exceeds_buffer_false (b : Buffer) (range : BufferRange.t) :
  is_size_t (BufferDesc.length (desc_ b)) -> range_in_bounds range b ->
  exceeds_buffer b range = false.
Proof.
  intros HL (Hr & Hin).
  destruct (exceeds_buffer b range) eqn:E; [| reflexivity].
  apply exceeds_buffer_spec in E; [lia | assumption | assumption].
Qed.

Lemma establish_wf (range : BufferRange.t) (out : option Result.t) (b : Buffer) :
  wf b -> range_in_bounds range b ->
  establish_mapping range out b
  = Some (map_pointer range b, Result.setOk out, established range b,
          establish_events range b).
Proof.
  intros [vb [Hb HL Hc _ _ _ _ _ _ _]] ((Ho & Hs) & Hin).
  unfold map_pointer, established, establish_events, host_visible, device_contents.
  rewrite Hb. destruct (isMapped vb) eqn:Hm.
  - apply establish_host_visible; assumption.
  - rewrite (establish_scratch range out b vb
               (slice (contents vb) (BufferRange.offset range) (BufferRange.size range))
               Hb Hm).
    + reflexivity.
    + apply getBufferSubData_defined. unfold in_allocation, is_size_t in *. lia.
Qed.

Lemma map_wf (range : BufferRange.t) (out : option Result.t) (b : Buffer) :
  wf b -> range_in_bounds range b ->
  Buffer_map range out b
  = Some (map_pointer range b, Result.setOk out, mapped range b, map_events range b).
Proof.
  intros Hwf Hin.
  assert (HL : is_size_t (BufferDesc.length (desc_ b)))
    by (destruct Hwf as [vb []]; assumption).
  rewrite Buffer_map_unfold, (exceeds_buffer_false b range HL Hin).
  unfold mapped, map_events.
  destruct (other_mapping_active b range) eqn:Ha.
  - unfold bind at 1. unfold bind at 1. unfold emit at 1.
    rewrite (unmap_wf b Hwf).
    rewrite (establish_wf range out (unmapped b) (wf_unmapped b Hwf)) by exact Hin.
    unfold map_pointer. rewrite host_visible_unmapped. reflexivity.
  - unfold bind at 1. unfold ret at 1.
    rewrite (establish_wf range out b Hwf Hin). reflexivity.
Qed.

Lemma zlen_slice (c : list byte) (offset size : Z) :
  0 <= offset -> 0 <= size -> offset + size <= zlen c ->
  zlen (slice c offset size) = size.
Proof.
  intros Ho Hs Hb. unfold slice.
  apply zlen_firstn. rewrite zlen_skipn by lia. lia.
Qed.

Lemma getBufferSubData_slice (vb : VulkanBuffer) (offset size : Z) :
  in_allocation vb offset size ->
  getBufferSubData vb offset size = Some (slice (contents vb) offset size).
Proof. apply getBufferSubData_defined. Qed.

(** Writing back the slice that was downloaded restores the allocation. *)
Lemma written_back_slice (vb : VulkanBuffer) (offset size : Z) :
  in_allocation vb offset size ->
  written_back vb offset (slice (contents vb) offset size) = vb.
Proof.
  intros Hin. pose proof Hin as (Ho & Hs & Hb).
  pose proof (bufferSubData_getBufferSubData vb offset size _
                (getBufferSubData_slice vb offset size Hin)) as H.
  rewrite bufferSubData_defined in H;
    [| exact Hin | rewrite zlen_slice by lia; lia].
  injection H as H. unfold written_back.
  rewrite zlen_slice by lia.
  rewrite (@firstn_all2 _ (Z.to_nat size) (slice (contents vb) offset size))
    in H; [exact H |].
  pose proof (zlen_slice (contents vb) offset size Ho Hs Hb) as Hl.
  unfold zlen in Hl. lia.
Qed.

Lemma wf_with_host_visible (vb : VulkanBuffer) (b : Buffer) :
  wf_with vb b -> host_visible b = isMapped vb.
Proof. intros [Hb]. unfold host_visible. rewrite Hb. reflexivity. Qed.

Lemma wf_with_device_contents (vb : VulkanBuffer) (b : Buffer) :
  wf_with vb b -> device_contents b = contents vb.
Proof. intros [Hb]. unfold device_contents. rewrite Hb. reflexivity. Qed.

Lemma establish_events_host_visible (range : BufferRange.t) (b : Buffer) :
  wf b -> host_visible b = true -> establish_events range b = [].
Proof.
  intros [vb Hw] Hv. rewrite (wf_with_host_visible vb b Hw) in Hv.
  destruct Hw as [Hb _ _ _ _ _ _ _ _ Hco].
  unfold establish_events. rewrite Hb, Hv, (Hco Hv). reflexivity.
Qed.

Lemma establish_events_scratch (range : BufferRange.t) (b : Buffer) :
  wf b -> host_visible b = false ->
  establish_events range b
  = [StagingGetBufferSubData (BufferRange.offset range) (BufferRange.size range)].
Proof.
  intros [vb Hw] Hv. rewrite (wf_with_host_visible vb b Hw) in Hv.
  destruct Hw as [Hb]. unfold establish_events. rewrite Hb, Hv. reflexivity.
Qed.

Lemma wf_established (range : BufferRange.t) (b : Buffer) :
  wf b -> range_in_bounds range b -> wf (established range b).
Proof.
  intros [vb [Hb HL Hc Ho Hs Hin Htmp Hsz Hhv Hco]] ((Hro & Hrs) & Hrin).
  unfold is_size_t in *.
  unfold established, host_visible. rewrite Hb.
  destruct (isMapped vb) eqn:Hm.
  - assert (Ht : zlen (tmpBuffer_ b) = 0) by (rewrite Hhv; reflexivity).
    exists vb. constructor; simpl;
      first [assumption | lia | (intros; congruence) | auto].
  - assert (Hl : zlen (slice (device_contents b) (BufferRange.offset range)
                         (BufferRange.size range)) = BufferRange.size range).
    { apply zlen_slice; try lia. unfold device_contents. rewrite Hb. lia. }
    exists vb. constructor; simpl;
      first [assumption | lia | reflexivity | (intros; congruence) | auto].
Qed.


Lemma wf_mapped (range : BufferRange.t) (b : Buffer) :
  wf b -> range_in_bounds range b -> wf (mapped range b).
Proof.
  intros Hwf Hin. unfold mapped.
  destruct (other_mapping_active b range).
  - apply wf_established; [apply wf_unmapped; exact Hwf | exact Hin].
  - apply wf_established; assumption.
Qed.

(** Unmapping a mapping that was just established on the scratch path, or
    any mapping of a host-visible buffer, leaves the allocation as it is. *)
Lemma unmapped_established (range : BufferRange.t) (b : Buffer) :
  wf b -> range_in_bounds range b ->
  buffer_ (unmapped (established range b)) = buffer_ b.
Proof.
  intros [vb [Hb HL Hc Ho Hs Hin Htmp Hsz Hhv Hco]] ((Hro & Hrs) & Hrin).
  unfold is_size_t in *.
  unfold established, host_visible, device_contents. rewrite Hb.
  destruct (isMapped vb) eqn:Hm; unfold unmapped; simpl; rewrite ?Hb, Hm.
  - reflexivity.
  - rewrite written_back_slice; [reflexivity |].
    unfold in_allocation. lia.
Qed.

Lemma device_contents_eq (b b' : Buffer) :
  buffer_ b' = buffer_ b -> device_contents b' = device_contents b.
Proof. unfold device_contents. intros ->. reflexivity. Qed.

Lemma established_scratch_fields (range : BufferRange.t) (b : Buffer) :
  host_visible b = false ->
  tmpBuffer_ (established range b)
  = slice (device_contents b) (BufferRange.offset range) (BufferRange.size range)
  /\ buffer_ (established range b) = buffer_ b
  /\ mappedRange_ (established range b) = range.
Proof. intros Hv. unfold established. rewrite Hv. simpl. auto. Qed.

Lemma established_fields (range : BufferRange.t) (b : Buffer) :
  buffer_ (established range b) = buffer_ b
  /\ mappedRange_ (established range b) = range
  /\ desc_ (established range b) = desc_ b.
Proof. unfold established. destruct (host_visible b); simpl; auto. Qed.



(** What the implicit unmap of [map] leaves when nothing is pending. *)
Lemma unmapped_no_pending (b : Buffer) (range : BufferRange.t) :
  wf b -> other_mapping_active b range = true -> no_pending_writes b range ->
  buffer_ (unmapped b) = buffer_ b.
Proof.
  intros [vb Hw] Ha Hnp.
  pose proof (wf_with_host_visible vb b Hw) as Hhv.
  pose proof (wf_with_device_contents vb b Hw) as Hdc.
  destruct Hw as [Hb HL Hc Ho Hs Hin _ _ _ _].
  unfold unmapped. simpl. rewrite Hb.
  destruct (isMapped vb) eqn:Hm; [reflexivity |].
  rewrite (Hnp Ha Hhv), Hdc.
  rewrite written_back_slice; [reflexivity |].
  unfold in_allocation. lia.
Qed.

(** ** The concrete buffers are what the code produces *)

Example buffer_example_created :
  Device_createBuffer (ctx_example true false) desc_example (Some Result.ok)
  = Some (Some buffer_example, Some Result.ok,
          [CtxCreateBuffer 4 131107 1 "example"; StagingBufferSubData 0 4]).
Proof. reflexivity. Qed.

Example buffer_example_shared_created :
  Device_createBuffer (ctx_example false false) desc_example (Some Result.ok)
  = Some (Some buffer_example_shared, Some Result.ok,
          [CtxCreateBuffer 4 131106 6 "example"; StagingBufferSubData 0 4]).
Proof. reflexivity. Qed.

Example buffer_pending_reached :
  exists b1 t,
    Buffer_map (BufferRange.mk 2 0) None buffer_example
    = Some (TmpBufferData, None, b1, t)
    /\ writePtr b1 TmpBufferData [x09; x09] = Some buffer_pending.
Proof. eexists. eexists. split; reflexivity. Qed.

Lemma ctx_example_allocates (staging debugPrintf : bool) :
  backend_allocates (ctx_example staging debugPrintf).
Proof.
  intros len usage mem name Hlen. simpl. intros _. split.
  - unfold zlen. rewrite repeat_length. lia.
  - intros H. apply andb_true_iff in H. apply H.
Qed.

Ltac wf_concrete :=
  first [ reflexivity
        | discriminate
        | (unfold is_size_t, size_t_modulus, zlen; simpl; lia)
        | (intros; unfold zlen in *; simpl in *; first [congruence | lia]) ].

Lemma wf_buffer_example : wf buffer_example.
Proof.
  eexists. constructor; simpl; wf_concrete.
Qed.

Lemma wf_buffer_example_shared : wf buffer_example_shared.
Proof.
  eexists. constructor; simpl; wf_concrete.
Qed.

Lemma wf_buffer_pending : wf buffer_pending.
Proof.
  eexists. constructor; simpl; wf_concrete.
Qed.

(** ** Map followed by unmap *)




(** ** Mapping while another range is mapped *)

Lemma other_mapping_active_true (b : Buffer) (range : BufferRange.t) :
  mapping_active b -> mappedRange_ b <> range ->
  other_mapping_active b range = true.
Proof.
  unfold mapping_active, other_mapping_active. intros Ha Hd.
  apply andb_true_iff. split.
  - apply negb_true_iff, Z.eqb_neq. exact Ha.
  - destruct (BufferRange.size (mappedRange_ b) =? BufferRange.size range) eqn:Es;
      [| reflexivity].
    destruct (BufferRange.offset (mappedRange_ b) =? BufferRange.offset range) eqn:Eo;
      [| reflexivity].
    apply Z.eqb_eq in Es, Eo. exfalso. apply Hd.
    destruct (mappedRange_ b), range. simpl in *. congruence.
Qed.

Lemma other_mapping_active_same (b : Buffer) :
  other_mapping_active b (mappedRange_ b) = false.
Proof.
  unfold other_mapping_active. rewrite !Z.eqb_refl. simpl. apply andb_false_r.
Qed.

Lemma bufferSubData_written_back (vb : VulkanBuffer) (offset : Z) (tmp : list byte) :
  0 <= offset -> offset + zlen tmp <= zlen (contents vb) ->
  bufferSubData vb offset (zlen tmp) tmp = Some (written_back vb offset tmp).
Proof.
  intros Ho Hb. pose proof (zlen_nonneg tmp) as Hnn.
  rewrite bufferSubData_defined by (unfold in_allocation; lia).
  unfold written_back.
  rewrite (@firstn_all2 _ (Z.to_nat (zlen tmp)) tmp) by (unfold zlen; lia).
  reflexivity.
Qed.

(** After the scratch bytes are written back, the device holds them at
    the offset of the mapping. *)
Lemma slice_written_back (vb : VulkanBuffer) (offset : Z) (tmp : list byte) :
  0 <= offset -> offset + zlen tmp <= zlen (contents vb) ->
  slice (contents (written_back vb offset tmp)) offset (zlen tmp) = tmp.
Proof.
  intros Ho Hb. pose proof (zlen_nonneg tmp) as Hnn.
  pose proof (getBufferSubData_bufferSubData vb offset (zlen tmp) tmp _
                (bufferSubData_written_back vb offset tmp Ho Hb)) as H.
  apply getBufferSubData_inv in H as (_ & H & _).
  rewrite (@firstn_all2 _ (Z.to_nat (zlen tmp)) tmp) in H by (unfold zlen; lia).
  symmetry. exact H.
Qed.

(** C3. For every created buffer with an active mapping, calling [map]
    with a different range, one that can be mapped (it lies within the
    buffer, so the call is past the sanity check that precedes the test
    for an active mapping), raises the assertion-level warning and is not
    fatal: the call returns with an Ok result. The first mapping is
    closed, exactly as [unmap] closes it, before the second mapping is
    established on the resulting state. On the device-local path closing
    it is one staging upload that writes the scratch bytes to the device
    at the first mapping's offset, and the second mapping downloads from
    the device as updated; on the host-visible path nothing has to be
    written. *)
Theorem remap_other_range_closes_first
    (b : Buffer) (range : BufferRange.t) (out : option Result.t) :
  wf b -> mapping_active b -> mappedRange_ b <> range -> range_in_bounds range b ->
  exists t_unmap t_establish,
    Buffer_map range out b
    = Some (map_pointer range b, Result.setOk out,
            established range (unmapped b),
            AssertionWarning map_message :: t_unmap ++ t_establish)
    /\ Buffer_unmap b = Some (tt, unmapped b, t_unmap)
    /\ establish_mapping range out (unmapped b)
       = Some (map_pointer range b, Result.setOk out,
               established range (unmapped b), t_establish)
    /\ (host_visible b = false ->
        t_unmap = [StagingBufferSubData (BufferRange.offset (mappedRange_ b))
                     (BufferRange.size (mappedRange_ b))]
        /\ slice (device_contents (unmapped b))
             (BufferRange.offset (mappedRange_ b)) (BufferRange.size (mappedRange_ b))
           = tmpBuffer_ b
        /\ tmpBuffer_ (established range (unmapped b))
           = slice (device_contents (unmapped b))
               (BufferRange.offset range) (BufferRange.size range))
    /\ (host_visible b = true ->
        t_unmap = [] /\ device_contents (unmapped b) = device_contents b).
Proof.
  intros Hwf Ha Hd Hin.
  pose proof (other_mapping_active_true b range Ha Hd) as Hoa.
  exists (unmap_events b), (establish_events range (unmapped b)).
  split.
  { rewrite (map_wf range out b Hwf Hin). unfold mapped, map_events.
    rewrite Hoa. reflexivity. }
  split; [apply unmap_wf; exact Hwf |].
  split.
  { rewrite (establish_wf range out (unmapped b) (wf_unmapped b Hwf) Hin).
    unfold map_pointer. rewrite host_visible_unmapped. reflexivity. }
  destruct Hwf as [vb Hw].
  pose proof (wf_with_host_visible vb b Hw) as Hhv.
  destruct Hw as [Hb HL Hc Ho Hs Hrange Htmp Hsz Hns Hco].
  unfold mapping_active in Ha.
  assert (Hnz : negb (BufferRange.size (mappedRange_ b) =? 0) = true)
    by (apply negb_true_iff, Z.eqb_neq; exact Ha).
  split.
  - intros Hv. rewrite Hhv in Hv. specialize (Hsz Hv Ha).
    split; [| split].
    + unfold unmap_events, host_visible. rewrite Hb, Hv, Hnz. simpl.
      destruct (tmpBuffer_ b) as [| x l] eqn:Et.
      * unfold zlen in Hsz. simpl in Hsz. lia.
      * rewrite Hsz. reflexivity.
    + unfold device_contents, unmapped. simpl. rewrite Hb, Hv, <- Hsz.
      apply slice_written_back; lia.
    + apply established_scratch_fields.
      rewrite host_visible_unmapped, Hhv. exact Hv.
  - intros Hv. rewrite Hhv in Hv. split.
    + unfold unmap_events, host_visible. rewrite Hb, Hv, Hnz. reflexivity.
    + unfold device_contents, unmapped. simpl. rewrite Hb, Hv. reflexivity.
Qed.

Lemma remap_other_range_closes_first_witness :
  exists t_unmap t_establish,
    Buffer_map (BufferRange.mk 1 2) None buffer_pending
    = Some (map_pointer (BufferRange.mk 1 2) buffer_pending, None,
            established (BufferRange.mk 1 2) (unmapped buffer_pending),
            AssertionWarning map_message :: t_unmap ++ t_establish)
    /\ Buffer_unmap buffer_pending = Some (tt, unmapped buffer_pending, t_unmap)
    /\ establish_mapping (BufferRange.mk 1 2) None (unmapped buffer_pending)
       = Some (map_pointer (BufferRange.mk 1 2) buffer_pending, None,
               established (BufferRange.mk 1 2) (unmapped buffer_pending), t_establish)
    /\ (host_visible buffer_pending = false ->
        t_unmap = [StagingBufferSubData 0 2]
        /\ slice (device_contents (unmapped buffer_pending)) 0 2 = [x09; x09]
        /\ tmpBuffer_ (established (BufferRange.mk 1 2) (unmapped buffer_pending))
           = slice (device_contents (unmapped buffer_pending)) 2 1)
    /\ (host_visible buffer_pending = true ->
        t_unmap = []
        /\ device_contents (unmapped buffer_pending) = device_contents buffer_pending).
Proof.
  apply (remap_other_range_closes_first buffer_pending (BufferRange.mk 1 2) None).
  - exact wf_buffer_pending.
  - unfold mapping_active. simpl. lia.
  - simpl. discriminate.
  - unfold range_in_bounds, is_range, is_size_t, size_t_modulus. simpl. lia.
Defined.

(** A range that exceeds the buffer is no second mapping: the sanity
    check of [map] returns before the test for an active mapping, so no
    warning is raised, the first mapping stays active, and its pending
    bytes 9,9 stay in the scratch vector. *)
Example remap_out_of_bounds_is_rejected :
  wf buffer_pending
  /\ mapping_active buffer_pending
  /\ mappedRange_ buffer_pending <> BufferRange.mk 5 0
  /\ Buffer_map (BufferRange.mk 5 0) (Some Result.ok) buffer_pending
     = Some (NullPtr,
             Some (Result.mk Result.ArgumentOutOfRange "Range exceeds buffer length"),
             buffer_pending, [])
  /\ device_contents buffer_pending = [x01; x02; x03; x04].
Proof.
  split; [exact wf_buffer_pending |].
  split; [unfold mapping_active; simpl; lia |].
  split; [simpl; discriminate |].
  split; reflexivity.
Qed.

(** ** Mapping the range that is already mapped *)

Lemma mapped_range_in_bounds (b : Buffer) :
  wf b -> range_in_bounds (mappedRange_ b) b.
Proof.
  intros [vb [Hb HL Hc Ho Hs Hin _ _ _ _]].
  unfold range_in_bounds, is_range, is_size_t in *. lia.
Qed.

(** A write through the scratch pointer keeps the invariant. *)
Lemma wf_writePtr_scratch (b bw : Buffer) (src : list byte) :
  wf b -> host_visible b = false ->
  writePtr b TmpBufferData src = Some bw ->
  wf bw
  /\ buffer_ bw = buffer_ b /\ mappedRange_ bw = mappedRange_ b
  /\ desc_ bw = desc_ b.
Proof.
  intros [vb Hw] Hv H. rewrite (wf_with_host_visible vb b Hw) in Hv.
  destruct Hw as [Hb HL Hc Ho Hs Hin Htmp Hsz Hns Hco].
  unfold writePtr in H.
  destruct (zlen src <=? zlen (tmpBuffer_ b)) eqn:E; [| discriminate].
  apply Z.leb_le in E. injection H as <-.
  pose proof (write_bytes_length (tmpBuffer_ b) src E) as Hl.
  split; [| simpl; auto].
  exists vb. constructor; simpl; rewrite ?Hl; try assumption.
  intros H. rewrite Hv in H. discriminate.
Qed.

(** C10. Calling [map] with the range of the active mapping raises no
    warning and performs no implicit unmap: the call is the establishing
    half of [map] alone, nothing is uploaded, the allocation is untouched
    and the mapping stays active. On the device-local path it is one
    staging download that overwrites the scratch vector with the current
    device bytes of the range, so bytes written through the pointer of the
    first mapping are discarded: the result is the same with and without
    such writes. *)
Theorem remap_same_range_discards_writes (b : Buffer) (out : option Result.t) :
  wf b -> mapping_active b ->
  exists b' t,
    Buffer_map (mappedRange_ b) out b
    = Some (map_pointer (mappedRange_ b) b, Result.setOk out, b', t)
    /\ Buffer_map (mappedRange_ b) out b = establish_mapping (mappedRange_ b) out b
    /\ warns t = false
    /\ existsb is_staging_upload t = false
    /\ buffer_ b' = buffer_ b
    /\ mappedRange_ b' = mappedRange_ b
    /\ (host_visible b = false ->
        t = [StagingGetBufferSubData (BufferRange.offset (mappedRange_ b))
               (BufferRange.size (mappedRange_ b))]
        /\ tmpBuffer_ b'
           = slice (device_contents b) (BufferRange.offset (mappedRange_ b))
               (BufferRange.size (mappedRange_ b))
        /\ forall (src : list byte) (bw : Buffer),
             writePtr b (map_pointer (mappedRange_ b) b) src = Some bw ->
             Buffer_map (mappedRange_ b) out bw
             = Some (map_pointer (mappedRange_ b) b, Result.setOk out, b', t)).
Proof.
  intros Hwf Ha.
  pose proof (mapped_range_in_bounds b Hwf) as Hin.
  pose proof (other_mapping_active_same b) as Hsame.
  exists (established (mappedRange_ b) b), (establish_events (mappedRange_ b) b).
  assert (Hmap : Buffer_map (mappedRange_ b) out b
                 = Some (map_pointer (mappedRange_ b) b, Result.setOk out,
                         established (mappedRange_ b) b,
                         establish_events (mappedRange_ b) b)).
  { rewrite (map_wf _ out b Hwf Hin). unfold mapped, map_events.
    rewrite Hsame. reflexivity. }
  split; [exact Hmap |].
  split; [rewrite Hmap; symmetry; apply establish_wf; assumption |].
  destruct (established_fields (mappedRange_ b) b) as (Hbuf & Hmr & _).
  destruct (host_visible b) eqn:Hv.
  - rewrite (establish_events_host_visible _ b Hwf Hv).
    split; [reflexivity |]. split; [reflexivity |].
    split; [assumption |]. split; [assumption |]. discriminate.
  - rewrite (establish_events_scratch _ b Hwf Hv).
    repeat split; try assumption; try reflexivity.
    + apply established_scratch_fields. exact Hv.
    + intros src bw Hw. unfold map_pointer in Hw. rewrite Hv in Hw.
      destruct (wf_writePtr_scratch b bw src Hwf Hv Hw) as (Hwfw & Hbw & Hmw & Hdw).
      assert (Hvw : host_visible bw = false)
        by (unfold host_visible in *; rewrite Hbw; exact Hv).
      rewrite <- Hmw.
      rewrite (map_wf _ out bw Hwfw (mapped_range_in_bounds bw Hwfw)).
      unfold mapped, map_events. rewrite (other_mapping_active_same bw).
      rewrite (establish_events_scratch _ bw Hwfw Hvw).
      unfold map_pointer, established, device_contents. rewrite Hvw, Hv, Hbw, Hdw.
      reflexivity.
Qed.

Lemma remap_same_range_discards_writes_witness :
  exists b' t,
    Buffer_map (mappedRange_ buffer_pending) None buffer_pending
    = Some (map_pointer (mappedRange_ buffer_pending) buffer_pending, None, b', t)
    /\ Buffer_map (mappedRange_ buffer_pending) None buffer_pending
       = establish_mapping (mappedRange_ buffer_pending) None buffer_pending
    /\ warns t = false
    /\ existsb is_staging_upload t = false
    /\ buffer_ b' = buffer_ buffer_pending
    /\ mappedRange_ b' = mappedRange_ buffer_pending
    /\ (host_visible buffer_pending = false ->
        t = [StagingGetBufferSubData 0 2]
        /\ tmpBuffer_ b' = slice (device_contents buffer_pending) 0 2
        /\ forall (src : list byte) (bw : Buffer),
             writePtr buffer_pending
               (map_pointer (mappedRange_ buffer_pending) buffer_pending) src
             = Some bw ->
             Buffer_map (mappedRange_ buffer_pending) None bw
             = Some (map_pointer (mappedRange_ buffer_pending) buffer_pending, None,
                     b', t)).
Proof.
  apply (remap_same_range_discards_writes buffer_pending None).
  - exact wf_buffer_pending.
  - unfold mapping_active. simpl. lia.
Defined.

(** The bytes 9,9 written through the first mapping are gone after the
    second [map] of the same range: the scratch vector holds the device
    bytes 1,2 again, and nothing reached the device. *)
Example remap_same_range_example :
  Buffer_map (BufferRange.mk 2 0) None buffer_pending
  = Some (TmpBufferData, None,
          mkBuffer desc_example (buffer_ buffer_example) (BufferRange.mk 2 0) [x01; x02],
          [StagingGetBufferSubData 0 2]).
Proof. reflexivity. Qed.

(** ** Upload and read-back *)

Lemma wf_upload (b : Buffer) (vb vb' : VulkanBuffer) (offset size : Z) (d : list byte) :
  wf_with vb b -> bufferSubData vb offset size d = Some vb' ->
  wf_with vb' (with_buffer b (Some vb')).
Proof.
  intros [Hb HL Hc Ho Hs Hin Htmp Hsz Hns Hco] H.
  pose proof (bufferSubData_length vb offset size d vb' H) as (Hlen & Hm).
  apply bufferSubData_inv in H as (_ & _ & ->).
  constructor; simpl in *; try assumption; try reflexivity.
  rewrite Hlen. exact Hc.
Qed.

(** [upload] keeps the invariant. *)
Lemma upload_preserves_wf (data : option (list byte)) (range : BufferRange.t)
    (b b' : Buffer) (r : Result.t) (t : list Event) :
  wf b -> Buffer_upload data range b = Some (r, b', t) -> wf b'.
Proof.
  intros Hwf. destruct data as [d |];
    [| intros H; injection H as _ <- _; exact Hwf].
  unfold Buffer_upload, bind, get, IGL_VERIFY, deref_buffer, emit, set_buffer, ret.
  destruct (add_sz _ _ <=? _); simpl.
  - destruct Hwf as [vb Hw]. pose proof Hw as [Hb]. rewrite Hb. simpl.
    destruct (bufferSubData vb _ _ d) as [vb' |] eqn:Es; [| discriminate].
    intros H. injection H as _ <- _. exists vb'.
    apply (wf_upload b vb vb' _ _ d Hw Es).
  - intros H. injection H as _ <- _. exact Hwf.
Qed.

(** [unmap] and [map] keep the invariant, for every range a caller can
    pass. *)
Lemma unmap_preserves_wf (b b' : Buffer) (t : list Event) :
  wf b -> Buffer_unmap b = Some (tt, b', t) -> wf b'.
Proof.
  intros Hwf H. rewrite (unmap_wf b Hwf) in H. injection H as <- _.
  apply wf_unmapped. exact Hwf.
Qed.

Lemma map_preserves_wf (range : BufferRange.t) (out out' : option Result.t)
    (b b' : Buffer) (p : Ptr) (t : list Event) :
  wf b -> is_range range ->
  Buffer_map range out b = Some (p, out', b', t) -> wf b'.
Proof.
  intros Hwf Hr H.
  assert (HL : is_size_t (BufferDesc.length (desc_ b)))
    by (destruct Hwf as [vb []]; assumption).
  destruct (exceeds_buffer b range) eqn:E.
  - rewrite Buffer_map_unfold, E in H. injection H as _ _ <- _. exact Hwf.
  - assert (Hin : range_in_bounds range b).
    { split; [exact Hr |].
      destruct (Z.leb_spec (BufferRange.offset range + BufferRange.size range)
                  (BufferDesc.length (desc_ b))) as [Hle | Hgt]; [exact Hle |].
      assert (Ht : exceeds_buffer b range = true)
        by (apply exceeds_buffer_spec; [assumption | assumption | lia]).
      congruence. }
    rewrite (map_wf range out b Hwf Hin) in H. injection H as _ _ <- _.
    apply wf_mapped; assumption.
Qed.

(** The null pointer that stands for the storage of an empty scratch
    vector makes no difference to the buffer: an upload of no bytes leaves
    the buffer as it is, like the upload of null data. *)
Lemma upload_no_bytes (b : Buffer) (offset : Z) :
  wf b -> is_size_t offset ->
  exists r t, Buffer_upload (Some []) (BufferRange.mk 0 offset) b = Some (r, b, t).
Proof.
  intros [vb [Hb HL Hc _ _ _ _ _ _ _]] Ho. unfold is_size_t in *.
  destruct (Z.leb_spec (add_sz offset 0) (BufferDesc.length (desc_ b))) as [Hle | Hgt].
  - assert (Hs : bufferSubData vb offset 0 [] = Some vb).
    { apply bufferSubData_getBufferSubData.
      unfold add_sz in Hle. rewrite wrap_small in Hle by (unfold is_size_t; lia).
      rewrite getBufferSubData_defined by (unfold in_allocation; lia).
      reflexivity. }
    rewrite (upload_in_range b [] (BufferRange.mk 0 offset) vb vb Hb
               (proj2 (Z.leb_le _ _) Hle) Hs).
    rewrite <- Hb, with_buffer_same. eauto.
  - rewrite (upload_out_of_range b [] (BufferRange.mk 0 offset)
               (proj2 (Z.leb_gt _ _) Hgt)).
    eauto.
Qed.

(** What the host reads through the pointer [map] returned. *)
Lemma readPtr_established (range : BufferRange.t) (b : Buffer) :
  wf b -> range_in_bounds range b ->
  readPtr (established range b) (map_pointer range b) (BufferRange.size range)
  = Some (slice (device_contents b) (BufferRange.offset range) (BufferRange.size range)).
Proof.
  intros [vb Hw] ((Hro & Hrs) & Hrin).
  pose proof (wf_with_host_visible vb b Hw) as Hhv.
  pose proof (wf_with_device_contents vb b Hw) as Hdc.
  destruct Hw as [Hb HL Hc _ _ _ _ _ _ _]. unfold is_size_t in *.
  unfold map_pointer, established. rewrite Hhv.
  destruct (isMapped vb) eqn:Hm; simpl.
  - rewrite Hb, Hdc. apply getBufferSubData_slice. unfold in_allocation. lia.
  - assert (Hl : zlen (slice (device_contents b) (BufferRange.offset range)
                         (BufferRange.size range)) = BufferRange.size range)
      by (apply zlen_slice; rewrite ?Hdc; lia).
    rewrite Hl.
    replace (0 <=? BufferRange.size range) with true by (symmetry; apply Z.leb_le; lia).
    rewrite Z.leb_refl. simpl. f_equal.
    apply firstn_all2. unfold zlen in Hl. lia.
Qed.

(** [map] then [unmap] on a buffer without pending writes: the states the
    two calls go through. *)
Lemma map_unmap_states (range : BufferRange.t) (out : option Result.t) (b : Buffer) :
  wf b -> range_in_bounds range b -> no_pending_writes b range ->
  exists b0,
    wf b0 /\ range_in_bounds range b0 /\ buffer_ b0 = buffer_ b
    /\ Buffer_map range out b
       = Some (map_pointer range b0, Result.setOk out, established range b0,
               map_events range b)
    /\ Buffer_unmap (established range b0)
       = Some (tt, unmapped (established range b0), unmap_events (established range b0))
    /\ buffer_ (unmapped (established range b0)) = buffer_ b.
Proof.
  intros Hwf Hin Hnp.
  exists (if other_mapping_active b range then unmapped b else b).
  set (b0 := if other_mapping_active b range then unmapped b else b).
  assert (Hwf0 : wf b0)
    by (unfold b0; destruct (other_mapping_active b range);
        [apply wf_unmapped |]; exact Hwf).
  assert (Hin0 : range_in_bounds range b0)
    by (unfold b0; destruct (other_mapping_active b range); exact Hin).
  assert (Hb0 : buffer_ b0 = buffer_ b).
  { unfold b0. destruct (other_mapping_active b range) eqn:Ha; [| reflexivity].
    apply (unmapped_no_pending b range); assumption. }
  assert (Hp : map_pointer range b0 = map_pointer range b)
    by (unfold map_pointer, host_visible; rewrite Hb0; reflexivity).
  repeat split; try assumption; try apply Hin0.
  - rewrite Hp. apply map_wf; assumption.
  - apply unmap_wf, wf_established; assumption.
  - rewrite (unmapped_established range b0 Hwf0 Hin0). exact Hb0.
Qed.

(** C1 (as amended). For every created buffer of length [L] and every
    range whose [offset + size] does not overflow [size_t]:
    with null data, [upload] returns success and transfers nothing,
    whatever the range; with data that covers the range, [upload] fails
    with ArgumentOutOfRange if and only if [offset + size > L], and then
    changes nothing; otherwise it hands the transfer to the staging engine
    (one [bufferSubData] of the range) and returns success, after which
    the contents of the buffer at the range are the data. Unless a mapping
    of another range is pending on the scratch path, a subsequent [map] of
    the range reads the data back through the returned pointer, on the
    host-visible and on the device-local path, and the following [unmap]
    leaves the contents as they are. *)
Theorem upload_range_check_and_round_trip (b : Buffer) (range : BufferRange.t) :
  wf b -> is_range range ->
  BufferRange.offset range + BufferRange.size range < size_t_modulus ->
  Buffer_upload None range b = Some (Result.ok, b, [AssertionWarning "data"])
  /\ forall d : list byte,
       BufferRange.size range <= zlen d ->
       exists r b' t,
         Buffer_upload (Some d) range b = Some (r, b', t)
         /\ (Result.code r = Result.ArgumentOutOfRange
             <-> BufferRange.offset range + BufferRange.size range
                 > BufferDesc.length (desc_ b))
         /\ (BufferRange.offset range + BufferRange.size range
             > BufferDesc.length (desc_ b) ->
             r = Result.mk Result.ArgumentOutOfRange "Out of range" /\ b' = b)
         /\ (BufferRange.offset range + BufferRange.size range
             <= BufferDesc.length (desc_ b) ->
             r = Result.ok
             /\ t = [StagingBufferSubData (BufferRange.offset range)
                       (BufferRange.size range)]
             /\ wf b'
             /\ slice (device_contents b') (BufferRange.offset range)
                  (BufferRange.size range)
                = firstn (Z.to_nat (BufferRange.size range)) d
             /\ (other_mapping_active b range = false \/ host_visible b = true ->
                 forall out : option Result.t,
                 exists p b1 t1 b2 t2,
                   Buffer_map range out b' = Some (p, Result.setOk out, b1, t1)
                   /\ readPtr b1 p (BufferRange.size range)
                      = Some (firstn (Z.to_nat (BufferRange.size range)) d)
                   /\ Buffer_unmap b1 = Some (tt, b2, t2)
                   /\ device_contents b2 = device_contents b')).
Proof.
  intros Hwf (Hro & Hrs) Hnw.
  split; [reflexivity |].
  intros d Hd.
  destruct Hwf as [vb Hw].
  pose proof (wf_with_host_visible vb b Hw) as Hhv.
  pose proof Hw as [Hb HL Hc Ho Hs Hin Htmp Hsz Hns Hco].
  unfold is_size_t in *.
  assert (Hadd : add_sz (BufferRange.offset range) (BufferRange.size range)
                 = BufferRange.offset range + BufferRange.size range)
    by (unfold add_sz; apply wrap_small; unfold is_size_t; lia).
  destruct (Z.leb_spec (BufferRange.offset range + BufferRange.size range)
              (BufferDesc.length (desc_ b))) as [Hle | Hgt].
  - (* in range *)
    assert (Hal : in_allocation vb (BufferRange.offset range) (BufferRange.size range))
      by (unfold in_allocation; lia).
    pose proof (bufferSubData_defined vb _ _ d Hal Hd) as Hsub.
    set (vb' := with_contents vb _) in Hsub.
    exists Result.ok, (with_buffer b (Some vb')),
      [StagingBufferSubData (BufferRange.offset range) (BufferRange.size range)].
    split.
    { apply upload_in_range with (vb := vb); try assumption.
      rewrite Hadd. apply Z.leb_le. exact Hle. }
    split; [split; [discriminate | lia] |].
    split; [lia |].
    intros _.
    pose proof (wf_upload b vb vb' _ _ d Hw Hsub) as Hw'.
    assert (Hwf' : wf (with_buffer b (Some vb'))) by (exists vb'; exact Hw').
    assert (Hsl : slice (device_contents (with_buffer b (Some vb')))
                    (BufferRange.offset range) (BufferRange.size range)
                  = firstn (Z.to_nat (BufferRange.size range)) d).
    { pose proof (getBufferSubData_bufferSubData vb _ _ d vb' Hsub) as Hg.
      apply getBufferSubData_inv in Hg as (_ & Hg & _).
      symmetry. exact Hg. }
    split; [reflexivity |]. split; [reflexivity |]. split; [exact Hwf' |].
    split; [exact Hsl |].
    intros Hidle out.
    assert (Hin' : range_in_bounds range (with_buffer b (Some vb')))
      by (unfold range_in_bounds, is_range, is_size_t; simpl; lia).
    assert (Hnp : no_pending_writes (with_buffer b (Some vb')) range).
    { unfold no_pending_writes. intros Ha Hv.
      destruct Hidle as [Hi | Hi].
      - unfold other_mapping_active in *. simpl in Ha. congruence.
      - exfalso.
        pose proof (bufferSubData_length vb _ _ d vb' Hsub) as (_ & Hm).
        unfold host_visible in Hv. simpl in Hv. rewrite Hhv in Hi. congruence. }
    destruct (map_unmap_states range out _ Hwf' Hin' Hnp)
      as (b0 & Hwf0 & Hin0 & Hb0 & Hmap & Hunmap & Hback).
    exists (map_pointer range b0), (established range b0),
      (map_events range (with_buffer b (Some vb'))),
      (unmapped (established range b0)), (unmap_events (established range b0)).
    split; [exact Hmap |].
    split.
    { rewrite (readPtr_established range b0 Hwf0 Hin0).
      rewrite (device_contents_eq _ _ Hb0). f_equal. exact Hsl. }
    split; [exact Hunmap |].
    apply device_contents_eq. exact Hback.
  - (* out of range *)
    exists (Result.mk Result.ArgumentOutOfRange "Out of range"), b,
      [AssertionWarning "range.offset + range.size <= desc_.length"].
    split.
    { apply upload_out_of_range. rewrite Hadd. apply Z.leb_gt. lia. }
    split; [split; [lia | reflexivity] |].
    split; [auto |].
    intros H. lia.
Qed.

Lemma upload_range_check_and_round_trip_witness :
  Buffer_upload None (BufferRange.mk 2 1) buffer_example = Some (Result.ok, buffer_example, [AssertionWarning "data"])
  /\ forall d : list byte,
       BufferRange.size (BufferRange.mk 2 1) <= zlen d ->
       exists r b' t,
         Buffer_upload (Some d) (BufferRange.mk 2 1) buffer_example = Some (r, b', t)
         /\ (Result.code r = Result.ArgumentOutOfRange
             <-> BufferRange.offset (BufferRange.mk 2 1) + BufferRange.size (BufferRange.mk 2 1)
                 > BufferDesc.length (desc_ buffer_example))
         /\ (BufferRange.offset (BufferRange.mk 2 1) + BufferRange.size (BufferRange.mk 2 1)
             > BufferDesc.length (desc_ buffer_example) ->
             r = Result.mk Result.ArgumentOutOfRange "Out of range" /\ b' = buffer_example)
         /\ (BufferRange.offset (BufferRange.mk 2 1) + BufferRange.size (BufferRange.mk 2 1)
             <= BufferDesc.length (desc_ buffer_example) ->
             r = Result.ok
             /\ t = [StagingBufferSubData (BufferRange.offset (BufferRange.mk 2 1))
                       (BufferRange.size (BufferRange.mk 2 1))]
             /\ wf b'
             /\ slice (device_contents b') (BufferRange.offset (BufferRange.mk 2 1))
                  (BufferRange.size (BufferRange.mk 2 1))
                = firstn (Z.to_nat (BufferRange.size (BufferRange.mk 2 1))) d
             /\ (other_mapping_active buffer_example (BufferRange.mk 2 1) = false \/ host_visible buffer_example = true ->
                 forall out : option Result.t,
                 exists p b1 t1 b2 t2,
                   Buffer_map (BufferRange.mk 2 1) out b' = Some (p, Result.setOk out, b1, t1)
                   /\ readPtr b1 p (BufferRange.size (BufferRange.mk 2 1))
                      = Some (firstn (Z.to_nat (BufferRange.size (BufferRange.mk 2 1))) d)
                   /\ Buffer_unmap b1 = Some (tt, b2, t2)
                   /\ device_contents b2 = device_contents b')).
Proof.
  apply (upload_range_check_and_round_trip buffer_example (BufferRange.mk 2 1)).
  - exact wf_buffer_example.
  - unfold is_range, is_size_t, size_t_modulus. simpl. lia.
  - unfold size_t_modulus. simpl. lia.
Defined.

(** The read-back on the two storage tiers, evaluated: the bytes 9,9
    uploaded at offset 1 are what the mapped pointer shows. *)
Example upload_read_back_device_local :
  exists b1 t1 b2 t2 b3 t3,
    Buffer_upload (Some [x09; x09]) (BufferRange.mk 2 1) buffer_example
    = Some (Result.ok, b1, t1)
    /\ Buffer_map (BufferRange.mk 2 1) None b1 = Some (TmpBufferData, None, b2, t2)
    /\ readPtr b2 TmpBufferData 2 = Some [x09; x09]
    /\ Buffer_unmap b2 = Some (tt, b3, t3)
    /\ device_contents b3 = [x01; x09; x09; x04].
Proof. do 6 eexists. repeat split; reflexivity. Qed.

Example upload_read_back_host_visible :
  exists b1 t1 b2 t2 b3 t3,
    Buffer_upload (Some [x09; x09]) (BufferRange.mk 2 1) buffer_example_shared
    = Some (Result.ok, b1, t1)
    /\ Buffer_map (BufferRange.mk 2 1) None b1 = Some (MappedPtr 1, None, b2, t2)
    /\ readPtr b2 (MappedPtr 1) 2 = Some [x09; x09]
    /\ Buffer_unmap b2 = Some (tt, b3, t3)
    /\ device_contents b3 = [x01; x09; x09; x04].
Proof. do 6 eexists. repeat split; reflexivity. Qed.

(** The read-back needs the proviso on pending mappings: on the buffer
    mapped at its first two bytes with 9,9 pending, 7,7 uploaded to these
    bytes are overwritten when [map] of another range closes that mapping,
    and the pointer shows 9. *)
Example upload_read_back_with_pending_mapping :
  exists b1 t1 b2 t2,
    Buffer_upload (Some [x07; x07]) (BufferRange.mk 2 0) buffer_pending
    = Some (Result.ok, b1, t1)
    /\ device_contents b1 = [x07; x07; x03; x04]
    /\ Buffer_map (BufferRange.mk 1 0) None b1 = Some (TmpBufferData, None, b2, t2)
    /\ readPtr b2 TmpBufferData 1 = Some [x09].
Proof. do 4 eexists. repeat split; reflexivity. Qed.

(** C1, as stated, fails for null data: [upload] returns success before it
    looks at the range, so a range that exceeds the buffer (0 + 5 > 4) is
    not reported, and nothing is handed to the staging engine. *)
Lemma upload_null_data_counterexample :
  wf buffer_example
  /\ BufferRange.offset (BufferRange.mk 5 0) + BufferRange.size (BufferRange.mk 5 0)
     > BufferDesc.length (desc_ buffer_example)
  /\ Buffer_upload None (BufferRange.mk 5 0) buffer_example
     = Some (Result.ok, buffer_example, [AssertionWarning "data"])
  /\ Result.code Result.ok <> Result.ArgumentOutOfRange.
Proof.
  split; [exact wf_buffer_example |].
  split; [simpl; lia |].
  split; [reflexivity | discriminate].
Qed.

(** The range check of [upload] adds in [size_t]: for offset 2^64 - 1 and
    size 2 the sum wraps to 1, the check passes, and the copy is handed to
    the staging engine with a range outside the allocation. ([map] tests
    the same bound without the overflow: see [exceeds_buffer_spec].) *)
Example upload_range_check_wraps :
  add_sz (size_t_modulus - 1) 2 = 1
  /\ Buffer_upload (Some [x09; x09]) (BufferRange.mk 2 (size_t_modulus - 1))
       buffer_example
     = None.
Proof. split; reflexivity. Qed.

(** ** [Buffer::create] and [Device::createBuffer] *)

Lemma with_storage_same (d : BufferDesc.t) :
  BufferDesc.with_storage d (BufferDesc.storage d) = d.
Proof. destruct d; reflexivity. Qed.

(** The descriptor [create] keeps: the requested one, with the storage tier
    it settled on. *)
Lemma create_zero_type (ctx : VulkanContext) (desc : BufferDesc.t) (b0 : Buffer) :
  BufferDesc.type desc = 0 ->
  Buffer_create ctx desc b0
  = Some (Result.mk Result.InvalidOperation "Invalid buffer type",
          with_desc b0 (BufferDesc.with_storage desc (effective_storage ctx desc)),
          []).
Proof.
  intros Ht.
  unfold Buffer_create, effective_storage, bind, set_desc, get, ret.
  destruct (negb (useStaging_ ctx) && ResourceStorage_eqb (BufferDesc.storage desc) Private);
    simpl; rewrite Ht; simpl; rewrite ?with_storage_same; reflexivity.
Qed.

Lemma create_typed (ctx : VulkanContext) (desc : BufferDesc.t) (b0 : Buffer) :
  BufferDesc.type desc <> 0 ->
  let d := BufferDesc.with_storage desc (effective_storage ctx desc) in
  let memFlags := resourceStorageToVkMemoryPropertyFlags ctx (BufferDesc.storage d) in
  let made := createBuffer ctx (BufferDesc.length desc) (usage_flags d) memFlags
                (BufferDesc.debugName desc) in
  Buffer_create ctx desc b0
  = Some (snd made,
          mkBuffer d (fst made) (mappedRange_ b0) (tmpBuffer_ b0),
          CtxCreateBuffer (BufferDesc.length desc) (usage_flags d) memFlags
            (BufferDesc.debugName desc)
          :: assert_events (Result.isOk (snd made)) "result.isOk()").
Proof.
  intros Ht. apply Z.eqb_neq in Ht.
  unfold Buffer_create, effective_storage, bind, set_desc, get, ret, emit, set_buffer,
    IGL_VERIFY, assert_events, usage_flags.
  destruct (negb (useStaging_ ctx) && ResourceStorage_eqb (BufferDesc.storage desc) Private);
    simpl; rewrite Ht; simpl;
    match goal with
    | |- context [Result.isOk ?r] => destruct (Result.isOk r)
    end; simpl; rewrite ?with_storage_same; reflexivity.
Qed.

(** A buffer whose creation succeeded satisfies the invariant. *)
Lemma create_wf (ctx : VulkanContext) (desc : BufferDesc.t)
    (r : Result.t) (b : Buffer) (t : list Event) :
  backend_allocates ctx -> is_size_t (BufferDesc.length desc) ->
  Buffer_create ctx desc Buffer_new = Some (r, b, t) ->
  Result.isOk r = true ->
  wf b.
Proof.
  intros Hback HL H Hok.
  destruct (Z.eq_dec (BufferDesc.type desc) 0) as [Hz | Hnz].
  - rewrite (create_zero_type ctx desc Buffer_new Hz) in H.
    injection H as <- _ _. discriminate.
  - rewrite (create_typed ctx desc Buffer_new Hnz) in H.
    set (d := BufferDesc.with_storage desc (effective_storage ctx desc)) in *.
    specialize (Hback (BufferDesc.length desc) (usage_flags d)
                  (resourceStorageToVkMemoryPropertyFlags ctx (BufferDesc.storage d))
                  (BufferDesc.debugName desc) (proj1 HL)).
    destruct (createBuffer ctx (BufferDesc.length desc) (usage_flags d)
                (resourceStorageToVkMemoryPropertyFlags ctx (BufferDesc.storage d))
                (BufferDesc.debugName desc)) as [[vb |] r0];
      simpl in H; injection H as <- <- _.
    + destruct (Hback Hok) as (Hlen & Hco).
      exists vb. constructor; simpl; try assumption; try reflexivity;
        try (unfold is_size_t in *; unfold zlen; simpl; lia).
    + rewrite Hback in Hok. discriminate.
Qed.

(** The handle [createBuffer] returns satisfies the invariant, too. *)
Lemma createBuffer_wf (ctx : VulkanContext) (desc : BufferDesc.t)
    (out out' : option Result.t) (b : Buffer) (t : list Event) :
  backend_allocates ctx -> is_size_t (BufferDesc.length desc) ->
  Device_createBuffer ctx desc out = Some (Some b, out', t) ->
  wf b.
Proof.
  intros Hback HL H. unfold Device_createBuffer in H.
  destruct (Buffer_create ctx desc Buffer_new) as [[[r b0] t0] |] eqn:Ec;
    [| discriminate].
  destruct (Result.isOk r) eqn:Hok; simpl in H; [| discriminate].
  pose proof (create_wf ctx desc r b0 t0 Hback HL Ec Hok) as Hwf0.
  destruct (BufferDesc.data desc) as [d |].
  - destruct (Buffer_upload (Some d) (BufferRange.mk (BufferDesc.length desc) 0) b0)
      as [[[ur b1] t1] |] eqn:Eu; [| discriminate].
    injection H as <- _ _.
    apply (upload_preserves_wf _ _ _ _ _ _ Hwf0 Eu).
  - injection H as <- _ _. exact Hwf0.
Qed.

(** C4. For every buffer descriptor whose usage-type bitmask is 0,
    [Buffer::create] fails with InvalidOperation without any event, so
    before any backend allocation is requested and with [buffer_] still
    null, and [Device::createBuffer] returns a null handle after no
    backend allocation: no resource is constructed. *)
Theorem zero_type_fails_before_allocation
    (ctx : VulkanContext) (desc : BufferDesc.t) (out : option Result.t) :
  BufferDesc.type desc = 0 ->
  (exists b,
     Buffer_create ctx desc Buffer_new
     = Some (Result.mk Result.InvalidOperation "Invalid buffer type", b, [])
     /\ buffer_ b = None)
  /\ exists out' t,
       Device_createBuffer ctx desc out = Some (None, out', t)
       /\ existsb is_backend_allocation t = false.
Proof.
  intros Ht. split.
  - eexists. split; [apply create_zero_type; exact Ht | reflexivity].
  - unfold Device_createBuffer.
    rewrite (create_zero_type ctx desc Buffer_new Ht). simpl.
    eexists. eexists. split; reflexivity.
Qed.

Lemma zero_type_fails_before_allocation_witness :
  (exists b,
     Buffer_create (ctx_example true false) desc_no_type Buffer_new
     = Some (Result.mk Result.InvalidOperation "Invalid buffer type", b, [])
     /\ buffer_ b = None)
  /\ exists out' t,
       Device_createBuffer (ctx_example true false) desc_no_type (Some Result.ok)
       = Some (None, out', t)
       /\ existsb is_backend_allocation t = false.
Proof.
  apply (zero_type_fails_before_allocation (ctx_example true false) desc_no_type
           (Some Result.ok)).
  reflexivity.
Defined.


(** [upload] keeps the descriptor. *)
Lemma upload_desc (data : option (list byte)) (range : BufferRange.t)
    (b b' : Buffer) (r : Result.t) (t : list Event) :
  Buffer_upload data range b = Some (r, b', t) -> desc_ b' = desc_ b.
Proof.
  destruct data as [d |]; [| intros H; injection H as _ <- _; reflexivity].
  unfold Buffer_upload, bind, get, IGL_VERIFY, deref_buffer, emit, set_buffer, ret.
  destruct (add_sz _ _ <=? _); simpl.
  - destruct (buffer_ b) as [vb |]; [| discriminate]. simpl.
    destruct (bufferSubData vb _ _ d); [| discriminate].
    intros H. injection H as _ <- _. reflexivity.
  - intros H. injection H as _ <- _. reflexivity.
Qed.

(** The descriptor of a buffer [create] worked on. *)
Lemma create_desc (ctx : VulkanContext) (desc : BufferDesc.t)
    (b0 b : Buffer) (r : Result.t) (t : list Event) :
  Buffer_create ctx desc b0 = Some (r, b, t) ->
  desc_ b = BufferDesc.with_storage desc (effective_storage ctx desc).
Proof.
  destruct (Z.eq_dec (BufferDesc.type desc) 0) as [Hz | Hnz].
  - rewrite (create_zero_type ctx desc b0 Hz). intros H. injection H as _ <- _.
    reflexivity.
  - rewrite (create_typed ctx desc b0 Hnz). intros H. injection H as _ <- _.
    reflexivity.
Qed.

Lemma createBuffer_desc (ctx : VulkanContext) (desc : BufferDesc.t)
    (out out' : option Result.t) (h : Buffer) (t : list Event) :
  Device_createBuffer ctx desc out = Some (Some h, out', t) ->
  desc_ h = BufferDesc.with_storage desc (effective_storage ctx desc).
Proof.
  unfold Device_createBuffer.
  destruct (Buffer_create ctx desc Buffer_new) as [[[r b0] t0] |] eqn:Ec;
    [| discriminate].
  apply create_desc in Ec.
  destruct (Result.isOk r); simpl; [| discriminate].
  destruct (BufferDesc.data desc) as [d |].
  - destruct (Buffer_upload (Some d) _ b0) as [[[ur b1] t1] |] eqn:Eu; [| discriminate].
    apply upload_desc in Eu. intros H. injection H as <- _ _. congruence.
  - intros H. injection H as <- _ _. exact Ec.
Qed.

(** C7. For every buffer descriptor requesting Private storage: when the
    context lacks staging support, [create] changes the storage tier of its
    descriptor to Shared before it allocates (the allocation is requested
    with the memory flags and usage flags of a Shared buffer), silently
    (its result and events are those of a request for Shared storage), and
    the created resource has a tier that differs from the requested one;
    when the context has staging support the Private tier is kept and the
    allocation is requested for it. *)
Theorem private_storage_demoted_without_staging
    (ctx : VulkanContext) (desc : BufferDesc.t) (b0 : Buffer) :
  BufferDesc.storage desc = Private ->
  exists r b t,
    Buffer_create ctx desc b0 = Some (r, b, t)
    /\ (useStaging_ ctx = false ->
        BufferDesc.storage (desc_ b) = Shared
        /\ BufferDesc.storage (desc_ b) <> BufferDesc.storage desc
        /\ Buffer_create ctx (BufferDesc.with_storage desc Shared) b0 = Some (r, b, t)
        /\ (forall len usage mem name,
              In (CtxCreateBuffer len usage mem name) t ->
              mem = resourceStorageToVkMemoryPropertyFlags ctx Shared
              /\ usage = usage_flags (BufferDesc.with_storage desc Shared))
        /\ (forall out out' h t',
              Device_createBuffer ctx desc out = Some (Some h, out', t') ->
              BufferDesc.storage (desc_ h) = Shared))
    /\ (useStaging_ ctx = true ->
        BufferDesc.storage (desc_ b) = Private
        /\ (forall len usage mem name,
              In (CtxCreateBuffer len usage mem name) t ->
              mem = resourceStorageToVkMemoryPropertyFlags ctx Private
              /\ usage = usage_flags desc)
        /\ (forall out out' h t',
              Device_createBuffer ctx desc out = Some (Some h, out', t') ->
              BufferDesc.storage (desc_ h) = Private)).
Proof.
  intros Hp.
  assert (Hev : forall c what len usage mem name,
             ~ In (CtxCreateBuffer len usage mem name) (assert_events c what))
    by (intros [|] what len usage mem name; simpl; intros H;
        [contradiction | destruct H; [discriminate | contradiction]]).
  assert (Hd : desc = BufferDesc.with_storage desc Private)
    by (rewrite <- Hp; symmetry; apply with_storage_same).
  destruct (Z.eq_dec (BufferDesc.type desc) 0) as [Hz | Hnz].
  - (* no usage type: no allocation at all *)
    pose proof (create_zero_type ctx desc b0 Hz) as Hc.
    eexists. eexists. eexists. split; [exact Hc |].
    unfold effective_storage. rewrite Hp. simpl.
    split; intros Hs; rewrite Hs; simpl.
    + split; [reflexivity |]. split; [discriminate |].
      split; [rewrite (create_zero_type ctx (BufferDesc.with_storage desc Shared) b0 Hz);
              unfold effective_storage; rewrite Hs; reflexivity |].
      split; [intros len usage mem name H; contradiction |].
      intros out out' h t' H. rewrite (createBuffer_desc _ _ _ _ _ _ H).
      unfold effective_storage. rewrite Hs, Hp. reflexivity.
    + split; [reflexivity |].
      split; [intros len usage mem name H; contradiction |].
      intros out out' h t' H. rewrite (createBuffer_desc _ _ _ _ _ _ H).
      unfold effective_storage. rewrite Hs, Hp. reflexivity.
  - pose proof (create_typed ctx desc b0 Hnz) as Hc. cbv zeta in Hc.
    eexists. eexists. eexists. split; [exact Hc |].
    unfold effective_storage. rewrite Hp. simpl.
    split; intros Hs; rewrite Hs; simpl.
    + split; [reflexivity |]. split; [discriminate |].
      split; [rewrite (create_typed ctx (BufferDesc.with_storage desc Shared) b0 Hnz);
              unfold effective_storage; rewrite Hs; reflexivity |].
      split.
      * intros len usage mem name [H | H]; [| apply Hev in H; contradiction].
        injection H as <- <- <- <-. split; reflexivity.
      * intros out out' h t' H. rewrite (createBuffer_desc _ _ _ _ _ _ H).
        unfold effective_storage. rewrite Hs, Hp. reflexivity.
    + split; [reflexivity |].
      split.
      * intros len usage mem name [H | H]; [| apply Hev in H; contradiction].
        injection H as <- <- <- <-. rewrite <- Hd. split; reflexivity.
      * intros out out' h t' H. rewrite (createBuffer_desc _ _ _ _ _ _ H).
        unfold effective_storage. rewrite Hs, Hp. reflexivity.
Qed.

Lemma private_storage_demoted_without_staging_witness :
  exists r b t,
    Buffer_create (ctx_example false false) desc_example Buffer_new = Some (r, b, t)
    /\ (useStaging_ (ctx_example false false) = false ->
        BufferDesc.storage (desc_ b) = Shared
        /\ BufferDesc.storage (desc_ b) <> BufferDesc.storage desc_example
        /\ Buffer_create (ctx_example false false) (BufferDesc.with_storage desc_example Shared) Buffer_new = Some (r, b, t)
        /\ (forall len usage mem name,
              In (CtxCreateBuffer len usage mem name) t ->
              mem = resourceStorageToVkMemoryPropertyFlags (ctx_example false false) Shared
              /\ usage = usage_flags (BufferDesc.with_storage desc_example Shared))
        /\ (forall out out' h t',
              Device_createBuffer (ctx_example false false) desc_example out = Some (Some h, out', t') ->
              BufferDesc.storage (desc_ h) = Shared))
    /\ (useStaging_ (ctx_example false false) = true ->
        BufferDesc.storage (desc_ b) = Private
        /\ (forall len usage mem name,
              In (CtxCreateBuffer len usage mem name) t ->
              mem = resourceStorageToVkMemoryPropertyFlags (ctx_example false false) Private
              /\ usage = usage_flags desc_example)
        /\ (forall out out' h t',
              Device_createBuffer (ctx_example false false) desc_example out = Some (Some h, out', t') ->
              BufferDesc.storage (desc_ h) = Private)).
Proof.
  apply (private_storage_demoted_without_staging (ctx_example false false)
           desc_example Buffer_new).
  reflexivity.
Defined.

(** The two cases, evaluated on the example descriptor. *)
Example private_storage_demoted_example :
  option_map (fun h => BufferDesc.storage (desc_ h))
    (match Device_createBuffer (ctx_example false false) desc_example None with
     | Some (h, _, _) => h
     | None => None
     end) = Some Shared
  /\ option_map (fun h => BufferDesc.storage (desc_ h))
       (match Device_createBuffer (ctx_example true false) desc_example None with
        | Some (h, _, _) => h
        | None => None
        end) = Some Private.
Proof. split; reflexivity. Qed.

(** ** The result object of [Device::createBuffer] *)

(** When [Buffer::create] fails, [createBuffer] returns null and leaves
    the result object as the caller passed it. *)
Lemma createBuffer_failure_result_untouched
    (ctx : VulkanContext) (desc : BufferDesc.t) (out : option Result.t)
    (r : Result.t) (b : Buffer) (t : list Event) :
  Buffer_create ctx desc Buffer_new = Some (r, b, t) ->
  Result.isOk r = false ->
  Device_createBuffer ctx desc out
  = Some (None, out, t ++ [AssertionWarning "result.isOk()"]).
Proof.
  intros Hc Hf. unfold Device_createBuffer. rewrite Hc, Hf. reflexivity.
Qed.

(** When creation succeeds and the descriptor has no initial data, the
    result object is left as it was, too. *)
Lemma createBuffer_no_data_result_untouched
    (ctx : VulkanContext) (desc : BufferDesc.t) (out : option Result.t)
    (r : Result.t) (b : Buffer) (t : list Event) :
  Buffer_create ctx desc Buffer_new = Some (r, b, t) ->
  Result.isOk r = true -> BufferDesc.data desc = None ->
  Device_createBuffer ctx desc out = Some (Some b, out, t).
Proof.
  intros Hc Hs Hd. unfold Device_createBuffer. rewrite Hc, Hs, Hd. reflexivity.
Qed.

(** With initial data, the result object receives the result of the
    upload, and the handle is returned whatever that result is. *)
Lemma createBuffer_data_result
    (ctx : VulkanContext) (desc : BufferDesc.t) (out : option Result.t)
    (r ur : Result.t) (b b' : Buffer) (t t' : list Event) (d : list byte) :
  Buffer_create ctx desc Buffer_new = Some (r, b, t) ->
  Result.isOk r = true -> BufferDesc.data desc = Some d ->
  Buffer_upload (Some d) (BufferRange.mk (BufferDesc.length desc) 0) b
  = Some (ur, b', t') ->
  exists t'',
    Device_createBuffer ctx desc out
    = Some (Some b', Result.setResult out ur, t'').
Proof.
  intros Hc Hs Hd Hu. unfold Device_createBuffer.
  rewrite Hc, Hs, Hd. cbv beta iota delta [negb]. rewrite Hu. eexists. reflexivity.
Qed.

(** C9 (the code at the failing input). For the descriptor without usage
    type, [Buffer::create] fails with InvalidOperation and [createBuffer]
    returns the null handle, but the result object the caller passed,
    holding Ok, still holds Ok afterwards: no error is written to it. *)
Theorem createBuffer_failure_writes_no_error :
  Buffer_create (ctx_example true false) desc_no_type Buffer_new
  = Some (Result.mk Result.InvalidOperation "Invalid buffer type",
          with_desc Buffer_new desc_no_type, [])
  /\ Device_createBuffer (ctx_example true false) desc_no_type (Some Result.ok)
     = Some (None, Some Result.ok, [AssertionWarning "result.isOk()"]).
Proof. split; reflexivity. Qed.

(** The sibling factory for textures stores the result of a failed
    [create] in the result object. *)
Lemma createTexture_failure_writes_error {T : Type} (res r0 : Result.t) (texture : T) :
  Result.isOk res = false ->
  Device_createTexture (res, texture) (Some r0) = (None, Some res).
Proof. intros H. unfold Device_createTexture. simpl. rewrite H. reflexivity. Qed.

(** With initial data, the range of the upload is the whole buffer, which
    passes the range check: the result handed back with a handle is Ok. *)
Lemma createBuffer_data_result_ok
    (ctx : VulkanContext) (desc : BufferDesc.t) (out out' : option Result.t)
    (h : Buffer) (t : list Event) :
  is_size_t (BufferDesc.length desc) -> BufferDesc.data desc <> None ->
  Device_createBuffer ctx desc out = Some (Some h, out', t) ->
  out' = Result.setResult out Result.ok.
Proof.
  intros HL Hd. unfold Device_createBuffer.
  destruct (Buffer_create ctx desc Buffer_new) as [[[r b0] t0] |] eqn:Ec;
    [| discriminate].
  apply create_desc in Ec.
  destruct (Result.isOk r); simpl; [| discriminate].
  destruct (BufferDesc.data desc) as [d |]; [| contradiction].
  unfold Buffer_upload, bind, get, IGL_VERIFY, deref_buffer, emit, set_buffer, ret.
  rewrite Ec. simpl.
  replace (add_sz 0 (BufferDesc.length desc) <=? BufferDesc.length desc) with true
    by (symmetry; apply Z.leb_le; unfold add_sz; rewrite wrap_small; [lia | exact HL]).
  simpl. destruct (buffer_ b0) as [vb |]; [| discriminate]. simpl.
  destruct (bufferSubData vb 0 (BufferDesc.length desc) d); [| discriminate].
  simpl. intros H. injection H as _ <- _. reflexivity.
Qed.

(** ** [Device::createRenderPipeline] *)

(** C5. For every render-pipeline descriptor, [createRenderPipeline]
    returns a null handle and stores an ArgumentInvalid result (with one
    of its four messages) in the result object whenever the shader-stage
    set is absent, or neither a color nor a depth attachment is specified,
    or no vertex-stage module is present, or no fragment-stage module is
    present. Each condition suffices alone: a descriptor without vertex
    module fails whatever its attachments, and a descriptor with no
    attachment fails whatever its shader stages. *)
Theorem render_pipeline_validation
    (desc : RenderPipelineDesc) (out : option Result.t) :
  shaderStages desc = None
  \/ no_attachments desc
  \/ module_of desc Stage_Vertex = None
  \/ module_of desc Stage_Fragment = None ->
  exists msg t,
    Device_createRenderPipeline desc out
    = (None, Result.setResult out (Result.mk Result.ArgumentInvalid msg), t)
    /\ In msg render_pipeline_messages
    /\ (forall r0, out = Some r0 ->
        option_map Result.code (snd (fst (Device_createRenderPipeline desc out)))
        = Some Result.ArgumentInvalid).
Proof.
  intros H.
  assert (Hres : exists msg t,
             Device_createRenderPipeline desc out
             = (None, Result.setResult out (Result.mk Result.ArgumentInvalid msg), t)
             /\ In msg render_pipeline_messages).
  { unfold Device_createRenderPipeline, module_of, no_attachments,
      render_pipeline_messages in *.
    destruct (shaderStages desc) as [stages |].
    - destruct (colorAttachments desc) as [| c cs] eqn:Ec;
        destruct (depthAttachmentFormat desc) as [| id] eqn:Ed; simpl.
      + eexists. eexists. split; [reflexivity | simpl; auto].
      + destruct (getModule stages Stage_Vertex) eqn:Ev; simpl;
          [| eexists; eexists; split; [reflexivity | simpl; auto]].
        destruct (getModule stages Stage_Fragment) eqn:Ef; simpl;
          [| eexists; eexists; split; [reflexivity | simpl; auto 6]].
        exfalso. destruct H as [H | [(_ & H) | [H | H]]]; discriminate.
      + destruct (getModule stages Stage_Vertex) eqn:Ev; simpl;
          [| eexists; eexists; split; [reflexivity | simpl; auto]].
        destruct (getModule stages Stage_Fragment) eqn:Ef; simpl;
          [| eexists; eexists; split; [reflexivity | simpl; auto 6]].
        exfalso. destruct H as [H | [(H & _) | [H | H]]]; discriminate.
      + destruct (getModule stages Stage_Vertex) eqn:Ev; simpl;
          [| eexists; eexists; split; [reflexivity | simpl; auto]].
        destruct (getModule stages Stage_Fragment) eqn:Ef; simpl;
          [| eexists; eexists; split; [reflexivity | simpl; auto 6]].
        exfalso. destruct H as [H | [(H & _) | [H | H]]]; discriminate.
    - eexists. eexists. split; [reflexivity | simpl; auto]. }
  destruct Hres as (msg & t & Heq & Hin).
  exists msg, t. split; [exact Heq |]. split; [exact Hin |].
  intros r0 ->. rewrite Heq. reflexivity.
Qed.

Lemma render_pipeline_validation_witness :
  exists msg t,
    Device_createRenderPipeline pipeline_no_vertex (Some Result.ok)
    = (None, Result.setResult (Some Result.ok) (Result.mk Result.ArgumentInvalid msg), t)
    /\ In msg render_pipeline_messages
    /\ (forall r0, Some Result.ok = Some r0 ->
        option_map Result.code
          (snd (fst (Device_createRenderPipeline pipeline_no_vertex (Some Result.ok))))
        = Some Result.ArgumentInvalid).
Proof.
  apply (render_pipeline_validation pipeline_no_vertex (Some Result.ok)).
  right. right. left. reflexivity.
Defined.

(** The four failures and the success, evaluated. *)
Example render_pipeline_examples :
  Device_createRenderPipeline pipeline_no_vertex (Some Result.ok)
  = (None, Some (Result.mk Result.ArgumentInvalid "Missing vertex shader"),
     [AssertionWarning "desc.shaderStages->getModule(Stage_Vertex)"])
  /\ Device_createRenderPipeline pipeline_no_attachments (Some Result.ok)
     = (None, Some (Result.mk Result.ArgumentInvalid "Need at least one attachment"),
        [AssertionWarning "hasAnyAttachments"])
  /\ Device_createRenderPipeline
       (mkRenderPipelineDesc None [TextureFormat_Other 37] TextureFormat_Invalid)
       (Some Result.ok)
     = (None, Some (Result.mk Result.ArgumentInvalid "Missing shader stages"),
        [AssertionWarning "desc.shaderStages == nullptr"])
  /\ Device_createRenderPipeline pipeline_example (Some Result.ok)
     = (Some pipeline_example, Some Result.ok, []).
Proof. repeat split; reflexivity. Qed.

(** ** [Device::getTextureFormatCapabilities] *)

Lemma has_bit_lor (a b bit : Z) :
  has_bit (Z.lor a b) bit = has_bit a bit || has_bit b bit.
Proof.
  unfold has_bit. rewrite Z.land_lor_distr_l.
  destruct (Z.eqb_spec (Z.land a bit) 0) as [Ha | Ha];
    destruct (Z.eqb_spec (Z.land b bit) 0) as [Hb | Hb]; simpl.
  - rewrite Ha, Hb. reflexivity.
  - apply negb_true_iff, Z.eqb_neq. intros H.
    apply Z.lor_eq_0_iff in H. tauto.
  - apply negb_true_iff, Z.eqb_neq. intros H.
    apply Z.lor_eq_0_iff in H. tauto.
  - apply negb_true_iff, Z.eqb_neq. intros H.
    apply Z.lor_eq_0_iff in H. tauto.
Qed.

Lemma has_bit_features (p : VkFormatProperties) (bit : Z) :
  has_bit (Z.lor (Z.lor (bufferFeatures p) (linearTilingFeatures p))
             (optimalTilingFeatures p)) bit
  = format_feature p bit.
Proof. unfold format_feature. rewrite !has_bit_lor. reflexivity. Qed.


Lemma contains_zero (flag : Z) : flag <> 0 -> contains 0 flag = false.
Proof.
  intros H. unfold contains. rewrite Z.land_0_l.
  apply Z.eqb_neq. intros E. apply H. symmetry. exact E.
Qed.

Section CapabilityBits.

Variable bits : TextureFormatCapabilityBits.
Hypothesis independent : capability_bits_independent bits.

(** Which flags a chosen mask contains: the chosen ones. *)
Lemma contains_chosen (s st f a sa : bool) :
  contains (chosen bits s st f a sa) (Sampled bits) = s
  /\ contains (chosen bits s st f a sa) (Storage bits) = st
  /\ contains (chosen bits s st f a sa) (SampledFiltered bits) = f
  /\ contains (chosen bits s st f a sa) (Attachment bits) = a
  /\ contains (chosen bits s st f a sa) (SampledAttachment bits) = sa.
Proof.
  destruct independent as [_ N1 N2 N3 N4 N5 D12 D13 D14 D15 D23 D24 D25 D34 D35 D45].
  pose proof D12 as D21. rewrite Z.land_comm in D21.
  pose proof D13 as D31. rewrite Z.land_comm in D31.
  pose proof D14 as D41. rewrite Z.land_comm in D41.
  pose proof D15 as D51. rewrite Z.land_comm in D51.
  pose proof D23 as D32. rewrite Z.land_comm in D32.
  pose proof D24 as D42. rewrite Z.land_comm in D42.
  pose proof D25 as D52. rewrite Z.land_comm in D52.
  pose proof D34 as D43. rewrite Z.land_comm in D43.
  pose proof D35 as D53. rewrite Z.land_comm in D53.
  pose proof D45 as D54. rewrite Z.land_comm in D54.
  unfold chosen, contains, sel.
  destruct s, st, f, a, sa;
    rewrite ?Z.land_lor_distr_l, ?Z.land_diag, ?Z.land_0_l,
      ?D12, ?D13, ?D14, ?D15, ?D23, ?D24, ?D25, ?D34, ?D35, ?D45,
      ?D21, ?D31, ?D41, ?D51, ?D32, ?D42, ?D52, ?D43, ?D53, ?D54,
      ?Z.lor_0_l, ?Z.lor_0_r, ?Z.eqb_refl;
    repeat split;
    first [ reflexivity
          | apply Z.eqb_neq; intros E; symmetry in E; contradiction ].
Qed.

(** The capabilities of a format with a native equivalent, in closed
    form. *)
Lemma capabilities_chosen (ctx : VulkanContext) (toVk : TextureFormat -> Z)
    (format : TextureFormat) :
  toVk format <> VK_FORMAT_UNDEFINED ->
  let p := vkGetPhysicalDeviceFormatProperties ctx (toVk format) in
  let s := format_feature p VK_FORMAT_FEATURE_SAMPLED_IMAGE_BIT in
  let a := format_feature p VK_FORMAT_FEATURE_COLOR_ATTACHMENT_BIT
           || format_feature p VK_FORMAT_FEATURE_DEPTH_STENCIL_ATTACHMENT_BIT in
  Device_getTextureFormatCapabilities ctx toVk bits format
  = chosen bits s
      (format_feature p VK_FORMAT_FEATURE_STORAGE_IMAGE_BIT)
      (format_feature p VK_FORMAT_FEATURE_SAMPLED_IMAGE_FILTER_LINEAR_BIT)
      a (s && a).
Proof.
  intros Hf. cbv zeta.
  unfold Device_getTextureFormatCapabilities.
  replace (toVk format =? VK_FORMAT_UNDEFINED) with false
    by (symmetry; apply Z.eqb_neq; exact Hf).
  cbv zeta. rewrite !has_bit_features.
  set (p := vkGetPhysicalDeviceFormatProperties ctx (toVk format)).
  set (s := format_feature p VK_FORMAT_FEATURE_SAMPLED_IMAGE_BIT).
  set (st := format_feature p VK_FORMAT_FEATURE_STORAGE_IMAGE_BIT).
  set (f := format_feature p VK_FORMAT_FEATURE_SAMPLED_IMAGE_FILTER_LINEAR_BIT).
  set (c := format_feature p VK_FORMAT_FEATURE_COLOR_ATTACHMENT_BIT).
  set (d := format_feature p VK_FORMAT_FEATURE_DEPTH_STENCIL_ATTACHMENT_BIT).
  rewrite (unsupported_empty bits independent).
  assert (H5 : or_if d (or_if c (or_if f (or_if st (or_if s 0 (Sampled bits))
                                            (Storage bits))
                                   (SampledFiltered bits))
                          (Attachment bits))
                 (Attachment bits)
               = chosen bits s st f (c || d) false).
  { unfold chosen, or_if, sel.
    destruct s, st, f, c, d; simpl;
      rewrite ?Z.lor_0_l, ?Z.lor_0_r; try reflexivity;
      rewrite <- ?Z.lor_assoc, ?Z.lor_diag; reflexivity. }
  rewrite H5.
  destruct (contains_chosen s st f (c || d) false) as (-> & _ & _ & -> & _).
  unfold chosen, or_if, sel.
  destruct (s && (c || d)); rewrite ?Z.lor_0_r; reflexivity.
Qed.

End CapabilityBits.

(** C8. [getTextureFormatCapabilities(format)] returns exactly the
    Unsupported mask, with none of the capability flags, for every format
    without native backend equivalent. For a format with a native
    equivalent the result is the OR of the capability flags its features
    select, a feature counting when one of the three feature-flag sources
    (buffer, linear tiling, optimal tiling) has it: Sampled for the
    sampled-image feature, Storage for the storage-image feature,
    SampledFiltered for the linear-filter feature, Attachment for the
    color-attachment or the depth-stencil-attachment feature; and the
    SampledAttachment flag is set exactly when the Sampled and the
    Attachment flags are both set. *)
Theorem texture_format_capabilities
    (ctx : VulkanContext) (toVk : TextureFormat -> Z)
    (bits : TextureFormatCapabilityBits) (format : TextureFormat) :
  capability_bits_independent bits ->
  let caps := Device_getTextureFormatCapabilities ctx toVk bits format in
  let p := vkGetPhysicalDeviceFormatProperties ctx (toVk format) in
  (toVk format = VK_FORMAT_UNDEFINED ->
   caps = Unsupported bits
   /\ contains caps (Sampled bits) = false
   /\ contains caps (Storage bits) = false
   /\ contains caps (SampledFiltered bits) = false
   /\ contains caps (Attachment bits) = false
   /\ contains caps (SampledAttachment bits) = false)
  /\ (toVk format <> VK_FORMAT_UNDEFINED ->
      caps
      = Z.lor
          (Z.lor
             (Z.lor
                (Z.lor
                   (sel (format_feature p VK_FORMAT_FEATURE_SAMPLED_IMAGE_BIT)
                      (Sampled bits))
                   (sel (format_feature p VK_FORMAT_FEATURE_STORAGE_IMAGE_BIT)
                      (Storage bits)))
                (sel (format_feature p VK_FORMAT_FEATURE_SAMPLED_IMAGE_FILTER_LINEAR_BIT)
                   (SampledFiltered bits)))
             (sel (format_feature p VK_FORMAT_FEATURE_COLOR_ATTACHMENT_BIT
                   || format_feature p VK_FORMAT_FEATURE_DEPTH_STENCIL_ATTACHMENT_BIT)
                (Attachment bits)))
          (sel (contains caps (Sampled bits) && contains caps (Attachment bits))
             (SampledAttachment bits))
      /\ contains caps (Sampled bits)
         = format_feature p VK_FORMAT_FEATURE_SAMPLED_IMAGE_BIT
      /\ contains caps (Storage bits)
         = format_feature p VK_FORMAT_FEATURE_STORAGE_IMAGE_BIT
      /\ contains caps (SampledFiltered bits)
         = format_feature p VK_FORMAT_FEATURE_SAMPLED_IMAGE_FILTER_LINEAR_BIT
      /\ contains caps (Attachment bits)
         = (format_feature p VK_FORMAT_FEATURE_COLOR_ATTACHMENT_BIT
            || format_feature p VK_FORMAT_FEATURE_DEPTH_STENCIL_ATTACHMENT_BIT)
      /\ contains caps (SampledAttachment bits)
         = (contains caps (Sampled bits) && contains caps (Attachment bits))).
Proof.
  intros Hind. cbv zeta. split.
  - intros Hu. unfold Device_getTextureFormatCapabilities.
    rewrite Hu, Z.eqb_refl. rewrite (unsupported_empty bits Hind).
    destruct Hind.
    repeat split; try (apply contains_zero; assumption).
  - intros Hf.
    rewrite (capabilities_chosen bits Hind ctx toVk format Hf).
    match goal with
    | |- context [chosen bits ?s ?st ?f ?a ?sa] =>
        destruct (contains_chosen bits Hind s st f a sa) as (Hs & Hst & Hfl & Ha & Hsa)
    end.
    rewrite Hs, Hst, Hfl, Ha, Hsa.
    repeat split; reflexivity.
Qed.

Lemma bits_example_independent : capability_bits_independent bits_example.
Proof. constructor; simpl; first [reflexivity | discriminate]. Qed.

Lemma texture_format_capabilities_witness :
  let caps :=
    Device_getTextureFormatCapabilities (ctx_example true false) toVk_example
      bits_example (TextureFormat_Other 1) in
  let p := vkGetPhysicalDeviceFormatProperties (ctx_example true false)
             (toVk_example (TextureFormat_Other 1)) in
  (toVk_example (TextureFormat_Other 1) = VK_FORMAT_UNDEFINED ->
   caps = Unsupported bits_example
   /\ contains caps (Sampled bits_example) = false
   /\ contains caps (Storage bits_example) = false
   /\ contains caps (SampledFiltered bits_example) = false
   /\ contains caps (Attachment bits_example) = false
   /\ contains caps (SampledAttachment bits_example) = false)
  /\ (toVk_example (TextureFormat_Other 1) <> VK_FORMAT_UNDEFINED ->
      caps
      = Z.lor
          (Z.lor
             (Z.lor
                (Z.lor
                   (sel (format_feature p VK_FORMAT_FEATURE_SAMPLED_IMAGE_BIT)
                      (Sampled bits_example))
                   (sel (format_feature p VK_FORMAT_FEATURE_STORAGE_IMAGE_BIT)
                      (Storage bits_example)))
                (sel (format_feature p VK_FORMAT_FEATURE_SAMPLED_IMAGE_FILTER_LINEAR_BIT)
                   (SampledFiltered bits_example)))
             (sel (format_feature p VK_FORMAT_FEATURE_COLOR_ATTACHMENT_BIT
                   || format_feature p VK_FORMAT_FEATURE_DEPTH_STENCIL_ATTACHMENT_BIT)
                (Attachment bits_example)))
          (sel (contains caps (Sampled bits_example)
                && contains caps (Attachment bits_example))
             (SampledAttachment bits_example))
      /\ contains caps (Sampled bits_example)
         = format_feature p VK_FORMAT_FEATURE_SAMPLED_IMAGE_BIT
      /\ contains caps (Storage bits_example)
         = format_feature p VK_FORMAT_FEATURE_STORAGE_IMAGE_BIT
      /\ contains caps (SampledFiltered bits_example)
         = format_feature p VK_FORMAT_FEATURE_SAMPLED_IMAGE_FILTER_LINEAR_BIT
      /\ contains caps (Attachment bits_example)
         = (format_feature p VK_FORMAT_FEATURE_COLOR_ATTACHMENT_BIT
            || format_feature p VK_FORMAT_FEATURE_DEPTH_STENCIL_ATTACHMENT_BIT)
      /\ contains caps (SampledAttachment bits_example)
         = (contains caps (Sampled bits_example)
            && contains caps (Attachment bits_example))).
Proof.
  apply (texture_format_capabilities (ctx_example true false) toVk_example
           bits_example (TextureFormat_Other 1)).
  constructor; simpl; first [reflexivity | discriminate].
Defined.

(** A format with the sampled-image and the color-attachment feature has
    the flags Sampled, Attachment and SampledAttachment; a format without
    native equivalent has the empty mask. *)
Example texture_format_capabilities_example :
  Device_getTextureFormatCapabilities (ctx_example true false) toVk_example
    bits_example (TextureFormat_Other 1) = 1 + 8 + 16
  /\ Device_getTextureFormatCapabilities (ctx_example true false) toVk_example
       bits_example (TextureFormat_Other 2) = 0.
Proof. split; reflexivity. Qed.

(** ** [Device::createShaderModule] *)

Lemma string_is_empty_false (s : string) : s <> "" -> string_is_empty s = false.
Proof. destruct s; [contradiction | reflexivity]. Qed.

(** The header of a stage: the version line, the extra extensions, and the
    block of the stage. *)
Lemma shader_header_stage (ext : string) (stage : ShaderStage) :
  shader_header ext (shaderStageToVkShaderStage stage)
  = (header_version ++ ext ++ stage_header stage)%string.
Proof.
  unfold shader_header, stage_header.
  destruct stage; cbn [shaderStageToVkShaderStage VkShaderStageFlagBits_eqb orb].
  - generalize (header_version ++ ext ++ header_vertex_compute)%string.
    intros s. induction s as [| c s IH]; [reflexivity |].
    cbn [String.append]. f_equal. exact IH.
  - reflexivity.
  - generalize (header_version ++ ext ++ header_vertex_compute)%string.
    intros s. induction s as [| c s IH]; [reflexivity |].
    cbn [String.append]. f_equal. exact IH.
Qed.

(** What the headers declare. *)
Lemma header_declarations :
  declares_all header_vertex_compute bindings_declarations = true
  /\ declares_all header_fragment
       (bindings_declarations ++ texture_declarations ++ texture_helpers) = true
  /\ existsb (declares header_vertex_compute)
       (texture_declarations ++ texture_helpers) = false.
Proof. repeat split; vm_compute; reflexivity. Qed.

(** The debug-print directive is in the header exactly when it was added as
    an extra extension. *)
Lemma header_debug_printf (stage : ShaderStage) (enabled : bool) :
  declares
    (shader_header (if enabled then debug_printf_extension else "")
       (shaderStageToVkShaderStage stage))
    "#extension GL_EXT_debug_printf : enable"
  = enabled.
Proof. destruct stage, enabled; vm_compute; reflexivity. Qed.

(** The text path on a non-empty source. *)
Lemma createShaderModule_text_events
    (ctx : VulkanContext) (stage : ShaderStage) (raw name : string)
    (out : option Result.t) :
  c_str raw <> "" ->
  let vkStage := shaderStageToVkShaderStage stage in
  snd (Device_createShaderModule ctx (ShaderModuleDesc.mk stage (Some raw) 0 name) out)
  = compile_events ctx vkStage (patched_source ctx vkStage (c_str raw)) name.
Proof.
  intros Hne. cbv zeta.
  unfold Device_createShaderModule, Device_createShaderModule_text, compile_events.
  cbn [ShaderModuleDesc.dataSize ShaderModuleDesc.data ShaderModuleDesc.stage
       ShaderModuleDesc.debugName Z.eqb negb is_some orb].
  rewrite (string_is_empty_false _ Hne).
  assert (Ha : forall what what',
             assert_events
               (negb (VkShaderStageFlagBits_eqb (shaderStageToVkShaderStage stage)
                        VK_SHADER_STAGE_FLAG_BITS_MAX_ENUM)) what
             ++ assert_events true what' = [])
    by (intros; destruct stage; reflexivity).
  destruct (Result.isOk (fst (compileShader ctx (shaderStageToVkShaderStage stage)
                                (patched_source ctx (shaderStageToVkShaderStage stage)
                                   (c_str raw))))) eqn:Hok;
    cbn [negb fst snd Result.setResult result_or_ok]; rewrite Hok;
    cbn [negb fst snd]; rewrite Ha; reflexivity.
Qed.

(** The binary path. *)
Lemma createShaderModule_binary_events
    (ctx : VulkanContext) (stage : ShaderStage) (data : option string) (size : Z)
    (name : string) (out : option Result.t) :
  size <> 0 ->
  exists t,
    snd (Device_createShaderModule ctx (ShaderModuleDesc.mk stage data size name) out)
    = CreateShaderModuleFromSPIRV data size :: t
    /\ existsb is_compilation t = false.
Proof.
  intros Hs. apply Z.eqb_neq in Hs.
  unfold Device_createShaderModule, Device_createShaderModule_binary.
  cbn [ShaderModuleDesc.dataSize ShaderModuleDesc.data ShaderModuleDesc.stage
       ShaderModuleDesc.debugName].
  rewrite Hs. cbn [negb].
  destruct (fst (ivkCreateShaderModuleFromSPIRV ctx data size) =? VK_SUCCESS);
    cbn [negb fst snd Result.setResult result_or_ok].
  - destruct (Result.isOk _); cbn [negb fst snd app];
      (eexists; split; [reflexivity |]);
      unfold debug_name_events; destruct (string_is_empty name); reflexivity.
  - destruct (Result.isOk _); cbn [negb fst snd app];
      (eexists; split; [reflexivity |]); reflexivity.
Qed.

(** C6. For every text-form shader descriptor (no binary data) whose source
    is non-empty and has no version marker, the compiler is invoked, once,
    on the synthesized header of the stage followed by the caller's source.
    The header is the version line, the extra extensions and the block of
    the stage: the vertex and compute block declares the fixed-size
    bindings block and the buffer-slot helper; the fragment block declares
    these and, additionally, the unbounded texture and sampler descriptor
    arrays and the helpers textureSize2D, textureSample2D,
    textureSample2DShadow, textureSample2DArray, textureSampleCube,
    textureSample3D and textureLod2D, none of which the vertex and compute
    block has. The debug-print extension directive is in the header exactly
    when the backend has the capability enabled. A non-empty source that
    has a version marker is compiled unmodified, and a binary-form module
    is handed to the backend unmodified, without compilation. *)
Theorem shader_source_augmentation
    (ctx : VulkanContext) (stage : ShaderStage) (raw name : string)
    (out : option Result.t) :
  c_str raw <> "" ->
  strstr (c_str raw) "#version " = None ->
  let vkStage := shaderStageToVkShaderStage stage in
  let enabled := extensions_enabled ctx VK_KHR_SHADER_NON_SEMANTIC_INFO_EXTENSION_NAME in
  let header :=
    shader_header (if enabled then debug_printf_extension else "") vkStage in
  snd (Device_createShaderModule ctx (ShaderModuleDesc.mk stage (Some raw) 0 name) out)
  = compile_events ctx vkStage (header ++ c_str raw)%string name
  /\ header
     = (header_version ++ (if enabled then debug_printf_extension else "")
        ++ stage_header stage)%string
  /\ declares_all header_vertex_compute bindings_declarations = true
  /\ declares_all header_fragment
       (bindings_declarations ++ texture_declarations ++ texture_helpers) = true
  /\ existsb (declares header_vertex_compute)
       (texture_declarations ++ texture_helpers) = false
  /\ declares header "#extension GL_EXT_debug_printf : enable" = enabled
  /\ (forall marked : string,
        c_str marked <> "" ->
        strstr (c_str marked) "#version " <> None ->
        snd (Device_createShaderModule ctx
               (ShaderModuleDesc.mk stage (Some marked) 0 name) out)
        = compile_events ctx vkStage (c_str marked) name)
  /\ (forall (data : option string) (size : Z),
        size <> 0 ->
        exists t,
          snd (Device_createShaderModule ctx
                 (ShaderModuleDesc.mk stage data size name) out)
          = CreateShaderModuleFromSPIRV data size :: t
          /\ existsb is_compilation t = false).
Proof.
  intros Hne Hnone. cbv zeta.
  split.
  { rewrite (createShaderModule_text_events ctx stage raw name out Hne).
    unfold patched_source. rewrite Hnone. reflexivity. }
  split; [apply shader_header_stage |].
  destruct header_declarations as (Hvc & Hf & Honly).
  split; [exact Hvc |]. split; [exact Hf |]. split; [exact Honly |].
  split; [apply header_debug_printf |].
  split.
  { intros marked Hm Hsome.
    rewrite (createShaderModule_text_events ctx stage marked name out Hm).
    unfold patched_source.
    destruct (strstr (c_str marked) "#version "); [reflexivity | contradiction]. }
  intros data size Hs. apply createShaderModule_binary_events. exact Hs.
Qed.

Lemma shader_source_augmentation_witness :
  let vkStage := shaderStageToVkShaderStage Stage_Fragment in
  let enabled := extensions_enabled (ctx_example true true) VK_KHR_SHADER_NON_SEMANTIC_INFO_EXTENSION_NAME in
  let header :=
    shader_header (if enabled then debug_printf_extension else "") vkStage in
  snd (Device_createShaderModule (ctx_example true true) (ShaderModuleDesc.mk Stage_Fragment (Some shader_example) 0 "fs") None)
  = compile_events (ctx_example true true) vkStage (header ++ c_str shader_example)%string "fs"
  /\ header
     = (header_version ++ (if enabled then debug_printf_extension else "")
        ++ stage_header Stage_Fragment)%string
  /\ declares_all header_vertex_compute bindings_declarations = true
  /\ declares_all header_fragment
       (bindings_declarations ++ texture_declarations ++ texture_helpers) = true
  /\ existsb (declares header_vertex_compute)
       (texture_declarations ++ texture_helpers) = false
  /\ declares header "#extension GL_EXT_debug_printf : enable" = enabled
  /\ (forall marked : string,
        c_str marked <> "" ->
        strstr (c_str marked) "#version " <> None ->
        snd (Device_createShaderModule (ctx_example true true)
               (ShaderModuleDesc.mk Stage_Fragment (Some marked) 0 "fs") None)
        = compile_events (ctx_example true true) vkStage (c_str marked) "fs")
  /\ (forall (data : option string) (size : Z),
        size <> 0 ->
        exists t,
          snd (Device_createShaderModule (ctx_example true true)
                 (ShaderModuleDesc.mk Stage_Fragment data size "fs") None)
          = CreateShaderModuleFromSPIRV data size :: t
          /\ existsb is_compilation t = false).
Proof.
  apply (shader_source_augmentation (ctx_example true true) Stage_Fragment
           shader_example "fs" None).
  - vm_compute. discriminate.
  - vm_compute. reflexivity.
Defined.

(** The fragment example, evaluated: the header, then the source. *)
Example shader_augmented_example :
  snd (Device_createShaderModule (ctx_example true true)
         (ShaderModuleDesc.mk Stage_Fragment (Some shader_example) 0 "fs") None)
  = [CompileShader VK_SHADER_STAGE_FRAGMENT_BIT
       (header_version ++ debug_printf_extension ++ header_fragment
        ++ shader_example)%string;
     SetDebugObjectName "fs"].
Proof. vm_compute. reflexivity. Qed.

(** A source with a version marker, and a binary module, evaluated. *)
Example shader_unmodified_examples :
  snd (Device_createShaderModule (ctx_example true true)
         (ShaderModuleDesc.mk Stage_Vertex (Some "#version 450
void main() { }") 0 "") None)
  = [CompileShader VK_SHADER_STAGE_VERTEX_BIT "#version 450
void main() { }"]
  /\ snd (Device_createShaderModule (ctx_example true true)
            (ShaderModuleDesc.mk Stage_Vertex (Some "abcd") 4 "") None)
     = [CreateShaderModuleFromSPIRV (Some "abcd") 4].
Proof. split; vm_compute; reflexivity. Qed.

(** * Further properties of the code *)

(** ** The length of a buffer and the bounds of a mapping *)

Lemma wf_length_fixed (b : Buffer) :
  wf b -> zlen (device_contents b) = Buffer_getSizeInBytes b.
Proof.
  intros [vb Hw]. rewrite (wf_with_device_contents vb b Hw).
  destruct Hw. assumption.
Qed.

Lemma mapped_desc (range : BufferRange.t) (b : Buffer) :
  desc_ (mapped range b) = desc_ b.
Proof.
  unfold mapped. destruct (other_mapping_active b range);
    destruct (established_fields range (unmapped b)) as (_ & _ & H1);
    destruct (established_fields range b) as (_ & _ & H2);
    [rewrite H1 | rewrite H2]; reflexivity.
Qed.

Lemma range_outside_or_inside (b : Buffer) (range : BufferRange.t) :
  wf b -> is_range range ->
  (exceeds_buffer b range = true
   /\ BufferRange.offset range + BufferRange.size range > BufferDesc.length (desc_ b))
  \/ (exceeds_buffer b range = false /\ range_in_bounds range b).
Proof.
  intros Hwf Hr.
  assert (HL : is_size_t (BufferDesc.length (desc_ b)))
    by (destruct Hwf as [vb []]; assumption).
  destruct (exceeds_buffer b range) eqn:E.
  - left. split; [reflexivity |]. apply exceeds_buffer_spec; assumption.
  - right. split; [reflexivity |]. split; [exact Hr |].
    destruct (Z.leb_spec (BufferRange.offset range + BufferRange.size range)
                (BufferDesc.length (desc_ b))) as [Hle | Hgt]; [exact Hle |].
    assert (Ht : exceeds_buffer b range = true)
      by (apply exceeds_buffer_spec; [assumption | assumption | lia]).
    congruence.
Qed.

(** X1. The byte length of a created buffer is fixed: [upload], [map] and
    [unmap] leave [getSizeInBytes] as it is, and the backend allocation
    keeps exactly that many bytes. *)
Theorem buffer_length_is_fixed (b : Buffer) :
  wf b ->
  zlen (device_contents b) = Buffer_getSizeInBytes b
  /\ (forall data range r b' t,
        Buffer_upload data range b = Some (r, b', t) ->
        Buffer_getSizeInBytes b' = Buffer_getSizeInBytes b
        /\ zlen (device_contents b') = Buffer_getSizeInBytes b)
  /\ (forall range out p out' b' t,
        is_range range ->
        Buffer_map range out b = Some (p, out', b', t) ->
        Buffer_getSizeInBytes b' = Buffer_getSizeInBytes b
        /\ zlen (device_contents b') = Buffer_getSizeInBytes b)
  /\ (forall b' t,
        Buffer_unmap b = Some (tt, b', t) ->
        Buffer_getSizeInBytes b' = Buffer_getSizeInBytes b
        /\ zlen (device_contents b') = Buffer_getSizeInBytes b).
Proof.
  intros Hwf. split; [apply wf_length_fixed; exact Hwf |].
  unfold Buffer_getSizeInBytes.
  split; [| split].
  - intros data range r b' t H.
    pose proof (upload_desc _ _ _ _ _ _ H) as Hd.
    pose proof (wf_length_fixed b' (upload_preserves_wf _ _ _ _ _ _ Hwf H)) as Hl.
    unfold Buffer_getSizeInBytes in Hl. rewrite Hl, Hd. split; reflexivity.
  - intros range out p out' b' t Hr H.
    pose proof (wf_length_fixed b' (map_preserves_wf _ _ _ _ _ _ _ Hwf Hr H)) as Hl.
    unfold Buffer_getSizeInBytes in Hl. rewrite Hl.
    assert (Hd : desc_ b' = desc_ b).
    { destruct (range_outside_or_inside b range Hwf Hr) as [(E & _) | (E & Hin)].
      - rewrite Buffer_map_unfold, E in H. injection H as _ _ <- _. reflexivity.
      - rewrite (map_wf range out b Hwf Hin) in H. injection H as _ _ <- _.
        apply mapped_desc. }
    rewrite Hd. split; reflexivity.
  - intros b' t H.
    pose proof (wf_length_fixed b' (unmap_preserves_wf _ _ _ Hwf H)) as Hl.
    unfold Buffer_getSizeInBytes in Hl. rewrite Hl.
    rewrite (unmap_wf b Hwf) in H. injection H as <- _. split; reflexivity.
Qed.

Lemma buffer_length_is_fixed_witness :
  zlen (device_contents buffer_pending) = Buffer_getSizeInBytes buffer_pending
  /\ (forall data range r b' t,
        Buffer_upload data range buffer_pending = Some (r, b', t) ->
        Buffer_getSizeInBytes b' = Buffer_getSizeInBytes buffer_pending
        /\ zlen (device_contents b') = Buffer_getSizeInBytes buffer_pending)
  /\ (forall range out p out' b' t,
        is_range range ->
        Buffer_map range out buffer_pending = Some (p, out', b', t) ->
        Buffer_getSizeInBytes b' = Buffer_getSizeInBytes buffer_pending
        /\ zlen (device_contents b') = Buffer_getSizeInBytes buffer_pending)
  /\ (forall b' t,
        Buffer_unmap buffer_pending = Some (tt, b', t) ->
        Buffer_getSizeInBytes b' = Buffer_getSizeInBytes buffer_pending
        /\ zlen (device_contents b') = Buffer_getSizeInBytes buffer_pending).
Proof.
  apply (buffer_length_is_fixed buffer_pending).
  eexists. constructor; simpl; wf_concrete.
Defined.

(** X2. The bounds check of [map] is exact for all [size_t] offsets and
    sizes, without wrap-around: on a created buffer [map] fails if and only
    if [offset + size] exceeds the length. It then returns the null
    pointer, stores ArgumentOutOfRange, raises no event and leaves the
    buffer, with any active mapping, as it is. Otherwise it stores Ok and
    the range becomes the mapped range; the pointer of a range that is not
    empty is then not null. For an empty range within the buffer nothing
    is said of the pointer: on the device-local path it is the [data()] of
    an empty vector, which may be null, so a null pointer alone does not
    tell a failure, the stored result does. *)
Theorem map_bounds_check_is_exact
    (b : Buffer) (range : BufferRange.t) (out : option Result.t) :
  wf b -> is_range range ->
  exists p out' b' t,
    Buffer_map range out b = Some (p, out', b', t)
    /\ (BufferRange.offset range + BufferRange.size range
        > BufferDesc.length (desc_ b) ->
        p = NullPtr
        /\ out' = Result.setResult out
                    (Result.mk Result.ArgumentOutOfRange "Range exceeds buffer length")
        /\ b' = b /\ t = [])
    /\ (BufferRange.offset range + BufferRange.size range
        <= BufferDesc.length (desc_ b) ->
        out' = Result.setOk out
        /\ mappedRange_ b' = range
        /\ (0 < BufferRange.size range -> p <> NullPtr))
    /\ (forall r0, out = Some r0 ->
        exists r,
          out' = Some r
          /\ (Result.isOk r = false
              <-> BufferRange.offset range + BufferRange.size range
                  > BufferDesc.length (desc_ b))).
Proof.
  intros Hwf Hr.
  destruct (range_outside_or_inside b range Hwf Hr) as [(E & Hgt) | (E & Hin)].
  - rewrite Buffer_map_unfold, E.
    eexists. eexists. eexists. eexists. split; [reflexivity |].
    split; [intros _; auto |].
    split; [intros Hle; exfalso; lia |].
    intros r0 ->. eexists. split; [reflexivity |].
    split; [intros _; exact Hgt | intros _; reflexivity].
  - rewrite (map_wf range out b Hwf Hin).
    eexists. eexists. eexists. eexists. split; [reflexivity |].
    destruct Hin as (_ & Hle).
    split; [intros Hgt; exfalso; lia |].
    split.
    + intros _. split; [reflexivity |].
      split.
      * unfold mapped. destruct (other_mapping_active b range);
          match goal with
          | |- mappedRange_ (established range ?x) = _ =>
              destruct (established_fields range x) as (_ & H & _); exact H
          end.
      * intros _. unfold map_pointer. destruct (host_visible b); discriminate.
    + intros r0 ->. eexists. split; [reflexivity |].
      split; [intros H; discriminate | intros Hgt; exfalso; lia].
Qed.

Lemma map_bounds_check_is_exact_witness :
  exists p out' b' t,
    Buffer_map (BufferRange.mk 3 (size_t_modulus - 2)) (Some Result.ok) buffer_pending
    = Some (p, out', b', t)
    /\ (BufferRange.offset (BufferRange.mk 3 (size_t_modulus - 2))
        + BufferRange.size (BufferRange.mk 3 (size_t_modulus - 2))
        > BufferDesc.length (desc_ buffer_pending) ->
        p = NullPtr
        /\ out' = Result.setResult (Some Result.ok)
                    (Result.mk Result.ArgumentOutOfRange "Range exceeds buffer length")
        /\ b' = buffer_pending /\ t = [])
    /\ (BufferRange.offset (BufferRange.mk 3 (size_t_modulus - 2))
        + BufferRange.size (BufferRange.mk 3 (size_t_modulus - 2))
        <= BufferDesc.length (desc_ buffer_pending) ->
        out' = Result.setOk (Some Result.ok)
        /\ mappedRange_ b' = BufferRange.mk 3 (size_t_modulus - 2)
        /\ (0 < BufferRange.size (BufferRange.mk 3 (size_t_modulus - 2))
            -> p <> NullPtr))
    /\ (forall r0, Some Result.ok = Some r0 ->
        exists r,
          out' = Some r
          /\ (Result.isOk r = false
              <-> BufferRange.offset (BufferRange.mk 3 (size_t_modulus - 2))
                  + BufferRange.size (BufferRange.mk 3 (size_t_modulus - 2))
                  > BufferDesc.length (desc_ buffer_pending))).
Proof.
  apply (map_bounds_check_is_exact buffer_pending
           (BufferRange.mk 3 (size_t_modulus - 2)) (Some Result.ok)).
  - eexists. constructor; simpl; wf_concrete.
  - unfold is_range, is_size_t, size_t_modulus. simpl. lia.
Defined.

(** The range of the witness, evaluated: its sum wraps around to 1 in
    [size_t], and [map] still rejects it; a range of three bytes at
    offset 1 is mapped. *)
Example map_bounds_check_examples :
  Buffer_map (BufferRange.mk 3 (size_t_modulus - 2)) (Some Result.ok) buffer_example
  = Some (NullPtr,
          Some (Result.mk Result.ArgumentOutOfRange "Range exceeds buffer length"),
          buffer_example, [])
  /\ (exists b' t,
        Buffer_map (BufferRange.mk 3 1) (Some Result.ok) buffer_example
        = Some (TmpBufferData, Some Result.ok, b', t)
        /\ mappedRange_ b' = BufferRange.mk 3 1
        /\ tmpBuffer_ b' = [x02; x03; x04]).
Proof.
  split; [vm_compute; reflexivity |].
  eexists. eexists. split; [vm_compute; reflexivity |].
  split; reflexivity.
Qed.

(** ** The mapped-range marker *)

Lemma unmap_events_inactive (b : Buffer) :
  BufferRange.size (mappedRange_ b) = 0 ->
  In (AssertionWarning unmap_message) (unmap_events b).
Proof.
  intros H. unfold unmap_events. rewrite H. simpl. left. reflexivity.
Qed.

Lemma unmap_events_active (b : Buffer) :
  BufferRange.size (mappedRange_ b) <> 0 ->
  ~ In (AssertionWarning unmap_message) (unmap_events b).
Proof.
  intros H. unfold unmap_events.
  replace (BufferRange.size (mappedRange_ b) =? 0) with false
    by (symmetry; apply Z.eqb_neq; exact H).
  simpl. destruct (host_visible b); [intros []|].
  destruct (tmpBuffer_ b); intros [E | []]; discriminate.
Qed.

Lemma written_back_twice (vb : VulkanBuffer) (offset : Z) (tmp : list byte) :
  0 <= offset -> offset + zlen tmp <= zlen (contents vb) ->
  written_back (written_back vb offset tmp) offset tmp = written_back vb offset tmp.
Proof.
  intros Ho Hb. pose proof (zlen_nonneg tmp) as Hnn.
  assert (Hlen : zlen (contents (written_back vb offset tmp)) = zlen (contents vb)).
  { pose proof (bufferSubData_length vb offset (zlen tmp) tmp _
                  (bufferSubData_written_back vb offset tmp Ho Hb)) as (H & _).
    exact H. }
  rewrite <- (slice_written_back vb offset tmp Ho Hb) at 2.
  apply written_back_slice. unfold in_allocation. lia.
Qed.

(** X3. A [map] of an in-bounds range of size 0 succeeds, but leaves no
    mapping active, since [mappedRange_.size] is the marker: the [unmap]
    that follows raises the warning of an unmap without map, and the
    contents of the buffer stay as they were after [map]. *)
Theorem map_empty_range_is_not_a_mapping
    (b : Buffer) (offset : Z) (out : option Result.t) :
  wf b -> 0 <= offset <= BufferDesc.length (desc_ b) ->
  exists p b1 t1 b2 t2,
    Buffer_map (BufferRange.mk 0 offset) out b = Some (p, Result.setOk out, b1, t1)
    /\ BufferRange.size (mappedRange_ b1) = 0
    /\ Buffer_unmap b1 = Some (tt, b2, t2)
    /\ In (AssertionWarning unmap_message) t2
    /\ device_contents b2 = device_contents b1.
Proof.
  intros Hwf Ho.
  assert (HL : is_size_t (BufferDesc.length (desc_ b)))
    by (destruct Hwf as [vb []]; assumption).
  assert (Hin : range_in_bounds (BufferRange.mk 0 offset) b)
    by (unfold range_in_bounds, is_range, is_size_t in *; simpl; lia).
  pose proof (wf_mapped _ b Hwf Hin) as Hwf1.
  assert (Hmr : mappedRange_ (mapped (BufferRange.mk 0 offset) b)
                = BufferRange.mk 0 offset).
  { unfold mapped. destruct (other_mapping_active b (BufferRange.mk 0 offset));
      match goal with
      | |- mappedRange_ (established ?r ?x) = _ =>
          destruct (established_fields r x) as (_ & H & _); exact H
      end. }
  exists (map_pointer (BufferRange.mk 0 offset) b),
    (mapped (BufferRange.mk 0 offset) b), (map_events (BufferRange.mk 0 offset) b),
    (unmapped (mapped (BufferRange.mk 0 offset) b)),
    (unmap_events (mapped (BufferRange.mk 0 offset) b)).
  split; [apply map_wf; assumption |].
  split; [rewrite Hmr; reflexivity |].
  split; [apply unmap_wf; exact Hwf1 |].
  split; [apply unmap_events_inactive; rewrite Hmr; reflexivity |].
  apply device_contents_eq.
  set (b0 := if other_mapping_active b (BufferRange.mk 0 offset)
             then unmapped b else b).
  change (mapped (BufferRange.mk 0 offset) b)
    with (established (BufferRange.mk 0 offset) b0).
  assert (Hwf0 : wf b0)
    by (unfold b0; destruct (other_mapping_active b _);
        [apply wf_unmapped |]; exact Hwf).
  assert (Hin0 : range_in_bounds (BufferRange.mk 0 offset) b0)
    by (unfold b0; destruct (other_mapping_active b _); exact Hin).
  rewrite (unmapped_established _ b0 Hwf0 Hin0).
  destruct (established_fields (BufferRange.mk 0 offset) b0) as (H & _).
  symmetry. exact H.
Qed.

Lemma map_empty_range_is_not_a_mapping_witness :
  exists p b1 t1 b2 t2,
    Buffer_map (BufferRange.mk 0 4) None buffer_example = Some (p, None, b1, t1)
    /\ BufferRange.size (mappedRange_ b1) = 0
    /\ Buffer_unmap b1 = Some (tt, b2, t2)
    /\ In (AssertionWarning unmap_message) t2
    /\ device_contents b2 = device_contents b1.
Proof.
  apply (map_empty_range_is_not_a_mapping buffer_example 4 None).
  - eexists. constructor; simpl; wf_concrete.
  - simpl. lia.
Defined.

(** X4. [unmap] always clears the marker. After it, a second [unmap]
    raises the warning of an unmap without map and leaves the contents as
    the first left them, and a [map] of any in-bounds range raises no
    double-map warning and uploads nothing. The first [unmap] raises that
    warning exactly when no mapping was active. *)
Theorem unmap_clears_the_mapping (b : Buffer) :
  wf b ->
  exists b1 t1 b2 t2,
    Buffer_unmap b = Some (tt, b1, t1)
    /\ BufferRange.size (mappedRange_ b1) = 0
    /\ (In (AssertionWarning unmap_message) t1
        <-> BufferRange.size (mappedRange_ b) = 0)
    /\ Buffer_unmap b1 = Some (tt, b2, t2)
    /\ In (AssertionWarning unmap_message) t2
    /\ device_contents b2 = device_contents b1
    /\ (forall range out,
          range_in_bounds range b ->
          exists p b3 t3,
            Buffer_map range out b1 = Some (p, Result.setOk out, b3, t3)
            /\ ~ In (AssertionWarning map_message) t3
            /\ existsb is_staging_upload t3 = false
            /\ device_contents b3 = device_contents b1).
Proof.
  intros Hwf.
  pose proof (wf_unmapped b Hwf) as Hwf1.
  exists (unmapped b), (unmap_events b), (unmapped (unmapped b)),
    (unmap_events (unmapped b)).
  split; [apply unmap_wf; exact Hwf |].
  split; [reflexivity |].
  split.
  { split.
    - intros H.
      destruct (Z.eq_dec (BufferRange.size (mappedRange_ b)) 0) as [E | E];
        [exact E |].
      exfalso. exact (unmap_events_active b E H).
    - apply unmap_events_inactive. }
  split; [apply unmap_wf; exact Hwf1 |].
  split; [apply unmap_events_inactive; reflexivity |].
  split.
  { destruct Hwf as [vb [Hb HL Hc Ho Hs Hin Htmp Hsz Hns Hco]].
    unfold device_contents, unmapped. simpl. rewrite Hb.
    destruct (isMapped vb) eqn:Hm; simpl; rewrite ?Hm; [reflexivity |].
    rewrite written_back_twice; [reflexivity | lia | lia]. }
  intros range out Hin.
  assert (Hin1 : range_in_bounds range (unmapped b)) by exact Hin.
  rewrite (map_wf range out (unmapped b) Hwf1 Hin1).
  eexists. eexists. eexists. split; [reflexivity |].
  unfold map_events, mapped.
  assert (Hoa : other_mapping_active (unmapped b) range = false) by reflexivity.
  rewrite Hoa.
  split; [| split].
  - unfold establish_events.
    destruct (buffer_ (unmapped b)) as [vb1 |]; [| intros []].
    destruct (isMapped vb1); [| intros [E | []]; discriminate].
    unfold assert_events. destruct (has_bit _ _); [intros [] |].
    intros [E | []]. discriminate.
  - unfold establish_events.
    destruct (buffer_ (unmapped b)) as [vb1 |]; [| reflexivity].
    destruct (isMapped vb1); [| reflexivity].
    unfold assert_events. destruct (has_bit _ _); reflexivity.
  - apply device_contents_eq.
    destruct (established_fields range (unmapped b)) as (H & _). exact H.
Qed.

Lemma unmap_clears_the_mapping_witness :
  exists b1 t1 b2 t2,
    Buffer_unmap buffer_pending = Some (tt, b1, t1)
    /\ BufferRange.size (mappedRange_ b1) = 0
    /\ (In (AssertionWarning unmap_message) t1
        <-> BufferRange.size (mappedRange_ buffer_pending) = 0)
    /\ Buffer_unmap b1 = Some (tt, b2, t2)
    /\ In (AssertionWarning unmap_message) t2
    /\ device_contents b2 = device_contents b1
    /\ (forall range out,
          range_in_bounds range buffer_pending ->
          exists p b3 t3,
            Buffer_map range out b1 = Some (p, Result.setOk out, b3, t3)
            /\ ~ In (AssertionWarning map_message) t3
            /\ existsb is_staging_upload t3 = false
            /\ device_contents b3 = device_contents b1).
Proof.
  apply (unmap_clears_the_mapping buffer_pending).
  eexists. constructor; simpl; wf_concrete.
Defined.

(** ** Writing through a mapping *)

Lemma written_back_contents (vb : VulkanBuffer) (offset : Z) (tmp : list byte) :
  contents (written_back vb offset tmp) = replaced (contents vb) offset tmp.
Proof. reflexivity. Qed.




(** The same on the device-local example: the write is held back in the
    scratch vector until [unmap]. *)
Example map_write_unmap_device_local :
  exists b1 t1 bw b2 t2,
    Buffer_map (BufferRange.mk 2 1) None buffer_example
    = Some (TmpBufferData, None, b1, t1)
    /\ writePtr b1 TmpBufferData [x07; x08] = Some bw
    /\ device_contents bw = [x01; x02; x03; x04]
    /\ Buffer_unmap bw = Some (tt, b2, t2)
    /\ device_contents b2 = [x01; x07; x08; x04].
Proof. do 5 eexists. repeat split; reflexivity. Qed.





(** ** Creation *)

Lemma createBuffer_not_created (ctx : VulkanContext) (desc : BufferDesc.t)
    (out : option Result.t) :
  BufferDesc.type desc = 0 \/ Result.isOk (allocation_result ctx desc) = false ->
  exists t, Device_createBuffer ctx desc out = Some (None, out, t).
Proof.
  intros [Hz | Hf].
  - unfold Device_createBuffer.
    rewrite (create_zero_type ctx desc Buffer_new Hz). simpl. eauto.
  - destruct (Z.eq_dec (BufferDesc.type desc) 0) as [Hz | Hnz].
    + unfold Device_createBuffer.
      rewrite (create_zero_type ctx desc Buffer_new Hz). simpl. eauto.
    + unfold Device_createBuffer.
      rewrite (create_typed ctx desc Buffer_new Hnz). cbv zeta.
      unfold allocation_result in Hf. rewrite Hf. simpl. eauto.
Qed.

Lemma createBuffer_created (ctx : VulkanContext) (desc : BufferDesc.t)
    (out : option Result.t) :
  backend_allocates ctx -> is_size_t (BufferDesc.length desc) ->
  (forall d, BufferDesc.data desc = Some d -> BufferDesc.length desc <= zlen d) ->
  BufferDesc.type desc <> 0 -> Result.isOk (allocation_result ctx desc) = true ->
  exists vb b t,
    Device_createBuffer ctx desc out
    = Some (Some b,
            match BufferDesc.data desc with
            | Some _ => Result.setResult out Result.ok
            | None => out
            end, t)
    /\ b = mkBuffer (BufferDesc.with_storage desc (effective_storage ctx desc))
             (Some vb) (BufferRange.mk 0 0) []
    /\ zlen (contents vb) = BufferDesc.length desc
    /\ (forall d, BufferDesc.data desc = Some d ->
        contents vb = firstn (Z.to_nat (BufferDesc.length desc)) d)
    /\ existsb is_staging_upload t = is_some (BufferDesc.data desc)
    /\ List.length (filter is_backend_allocation t) = 1%nat.
Proof.
  intros Hback HL Hdata Hnz Hok. unfold is_size_t in HL.
  unfold Device_createBuffer.
  rewrite (create_typed ctx desc Buffer_new Hnz). cbv zeta.
  unfold allocation_result in Hok.
  set (d' := BufferDesc.with_storage desc (effective_storage ctx desc)) in *.
  specialize (Hback (BufferDesc.length desc) (usage_flags d')
                (resourceStorageToVkMemoryPropertyFlags ctx (BufferDesc.storage d'))
                (BufferDesc.debugName desc) (proj1 HL)).
  destruct (createBuffer ctx (BufferDesc.length desc) (usage_flags d')
              (resourceStorageToVkMemoryPropertyFlags ctx (BufferDesc.storage d'))
              (BufferDesc.debugName desc)) as [[vb |] r] eqn:Em;
    simpl in Hok; [| rewrite Hback in Hok; discriminate].
  destruct (Hback Hok) as (Hlen & _).
  simpl. rewrite Hok. simpl.
  destruct (BufferDesc.data desc) as [d |] eqn:Ed.
  - specialize (Hdata d eq_refl).
    assert (Hal : in_allocation vb 0 (BufferDesc.length desc))
      by (unfold in_allocation; lia).
    pose proof (bufferSubData_defined vb 0 _ d Hal Hdata) as Hsub.
    set (vb' := with_contents vb _) in Hsub.
    rewrite (upload_in_range (mkBuffer d' (Some vb) (BufferRange.mk 0 0) []) d
               (BufferRange.mk (BufferDesc.length desc) 0) vb vb' eq_refl);
      [| simpl; apply Z.leb_le; unfold add_sz; rewrite wrap_small;
         [unfold d'; simpl; lia | unfold is_size_t; simpl; lia]
       | exact Hsub].
    exists vb'. eexists. eexists. split; [reflexivity |].
    split; [reflexivity |].
    assert (Hc' : contents vb' = firstn (Z.to_nat (BufferDesc.length desc)) d).
    { unfold vb'. simpl. rewrite skipn_all2 by (unfold zlen in Hlen; lia).
      apply app_nil_r. }
    split; [rewrite Hc'; apply zlen_firstn; lia |].
    split; [intros d0 E; injection E as <-; exact Hc' |].
    split; reflexivity.
  - exists vb. eexists. eexists. split; [reflexivity |].
    split; [reflexivity |]. split; [exact Hlen |].
    split; [intros d0 E; discriminate |].
    split; reflexivity.
Qed.

(** X7. Given an allocator that behaves, [createBuffer] returns a handle
    if and only if the descriptor has a usage type and the backend
    allocation succeeds. The buffer behind the handle has the requested
    length, an allocation of that many bytes, the storage tier [create]
    settled on, no active mapping and an empty scratch vector, and exactly
    one backend allocation was requested for it. *)
Theorem createBuffer_handle_iff
    (ctx : VulkanContext) (desc : BufferDesc.t) (out : option Result.t) :
  backend_allocates ctx -> is_size_t (BufferDesc.length desc) ->
  (forall d, BufferDesc.data desc = Some d -> BufferDesc.length desc <= zlen d) ->
  exists h out' t,
    Device_createBuffer ctx desc out = Some (h, out', t)
    /\ (h <> None
        <-> BufferDesc.type desc <> 0
            /\ Result.isOk (allocation_result ctx desc) = true)
    /\ (forall b, h = Some b ->
        wf b
        /\ Buffer_getSizeInBytes b = BufferDesc.length desc
        /\ zlen (device_contents b) = BufferDesc.length desc
        /\ BufferDesc.storage (desc_ b) = effective_storage ctx desc
        /\ mappedRange_ b = BufferRange.mk 0 0
        /\ tmpBuffer_ b = []
        /\ List.length (filter is_backend_allocation t) = 1%nat).
Proof.
  intros Hback HL Hdata.
  destruct (Z.eq_dec (BufferDesc.type desc) 0) as [Hz | Hnz];
    [| destruct (Result.isOk (allocation_result ctx desc)) eqn:Hok].
  - destruct (createBuffer_not_created ctx desc out (or_introl Hz)) as (t & Ht).
    exists None, out, t. split; [exact Ht |].
    split; [split; [intros H; contradiction | intros (H & _); contradiction] |].
    intros b H. discriminate.
  - destruct (createBuffer_created ctx desc out Hback HL Hdata Hnz Hok)
      as (vb & b & t & Hc & Hb & Hlen & _ & _ & Hone).
    eexists. eexists. eexists. split; [exact Hc |].
    split; [split; [auto | discriminate] |].
    intros b' E. injection E as <-.
    pose proof (createBuffer_wf ctx desc out _ b t Hback HL Hc) as Hwf.
    subst b. unfold Buffer_getSizeInBytes, device_contents. simpl.
    repeat split; try assumption; reflexivity.
  - destruct (createBuffer_not_created ctx desc out (or_intror Hok)) as (t & Ht).
    exists None, out, t. split; [exact Ht |].
    split; [split; [intros H; contradiction | intros (_ & H); discriminate] |].
    intros b H. discriminate.
Qed.

Lemma createBuffer_handle_iff_witness :
  exists h out' t,
    Device_createBuffer (ctx_example true false) desc_example None = Some (h, out', t)
    /\ (h <> None
        <-> BufferDesc.type desc_example <> 0
            /\ Result.isOk (allocation_result (ctx_example true false) desc_example)
               = true)
    /\ (forall b, h = Some b ->
        wf b
        /\ Buffer_getSizeInBytes b = BufferDesc.length desc_example
        /\ zlen (device_contents b) = BufferDesc.length desc_example
        /\ BufferDesc.storage (desc_ b)
           = effective_storage (ctx_example true false) desc_example
        /\ mappedRange_ b = BufferRange.mk 0 0
        /\ tmpBuffer_ b = []
        /\ List.length (filter is_backend_allocation t) = 1%nat).
Proof.
  apply (createBuffer_handle_iff (ctx_example true false) desc_example None).
  - apply ctx_example_allocates.
  - unfold is_size_t, size_t_modulus. simpl. lia.
  - intros d E. injection E as <-. unfold zlen. simpl. lia.
Defined.

(** X8. Initial data: when the descriptor supplies data that covers the
    buffer and the creation succeeds, the created buffer holds the first
    [length] bytes of the data, the upload is the one staging transfer of
    the call, and the result object receives Ok. Without data nothing is
    uploaded and the result object is not written. *)
Theorem createBuffer_initial_data
    (ctx : VulkanContext) (desc : BufferDesc.t) (out : option Result.t) :
  backend_allocates ctx -> is_size_t (BufferDesc.length desc) ->
  (forall d, BufferDesc.data desc = Some d -> BufferDesc.length desc <= zlen d) ->
  BufferDesc.type desc <> 0 -> Result.isOk (allocation_result ctx desc) = true ->
  exists b out' t,
    Device_createBuffer ctx desc out = Some (Some b, out', t)
    /\ (forall d, BufferDesc.data desc = Some d ->
        device_contents b = firstn (Z.to_nat (BufferDesc.length desc)) d
        /\ out' = Result.setResult out Result.ok
        /\ existsb is_staging_upload t = true)
    /\ (BufferDesc.data desc = None ->
        out' = out /\ existsb is_staging_upload t = false).
Proof.
  intros Hback HL Hdata Hnz Hok.
  destruct (createBuffer_created ctx desc out Hback HL Hdata Hnz Hok)
    as (vb & b & t & Hc & Hb & Hlen & Hcont & Hup & _).
  eexists. eexists. eexists. split; [exact Hc |].
  split.
  - intros d E. rewrite E in *. subst b. unfold device_contents. simpl.
    split; [apply Hcont; reflexivity |]. split; [reflexivity | exact Hup].
  - intros E. rewrite E in *. split; [reflexivity | exact Hup].
Qed.

Lemma createBuffer_initial_data_witness :
  exists b out' t,
    Device_createBuffer (ctx_example true false) desc_example (Some Result.ok)
    = Some (Some b, out', t)
    /\ (forall d, BufferDesc.data desc_example = Some d ->
        device_contents b = firstn (Z.to_nat (BufferDesc.length desc_example)) d
        /\ out' = Result.setResult (Some Result.ok) Result.ok
        /\ existsb is_staging_upload t = true)
    /\ (BufferDesc.data desc_example = None ->
        out' = Some Result.ok /\ existsb is_staging_upload t = false).
Proof.
  apply (createBuffer_initial_data (ctx_example true false) desc_example
           (Some Result.ok)).
  - apply ctx_example_allocates.
  - unfold is_size_t, size_t_modulus. simpl. lia.
  - intros d E. injection E as <-. unfold zlen. simpl. lia.
  - simpl. discriminate.
  - reflexivity.
Defined.

Lemma usage_flags_bits (d : BufferDesc.t) :
  let u := usage_flags d in
  let t := BufferDesc.type d in
  has_bit u VK_BUFFER_USAGE_INDEX_BUFFER_BIT = has_bit t BufferDesc.Index
  /\ has_bit u VK_BUFFER_USAGE_VERTEX_BUFFER_BIT = has_bit t BufferDesc.Vertex
  /\ has_bit u VK_BUFFER_USAGE_UNIFORM_BUFFER_BIT = has_bit t BufferDesc.Uniform
  /\ has_bit u VK_BUFFER_USAGE_STORAGE_BUFFER_BIT = has_bit t BufferDesc.Storage
  /\ has_bit u VK_BUFFER_USAGE_INDIRECT_BUFFER_BIT = has_bit t BufferDesc.Indirect
  /\ has_bit u VK_BUFFER_USAGE_SHADER_DEVICE_ADDRESS_BIT_KHR
     = (has_bit t BufferDesc.Uniform || has_bit t BufferDesc.Storage
        || has_bit t BufferDesc.Indirect)
  /\ has_bit u VK_BUFFER_USAGE_TRANSFER_SRC_BIT
     = ResourceStorage_eqb (BufferDesc.storage d) Private
  /\ has_bit u VK_BUFFER_USAGE_TRANSFER_DST_BIT
     = (ResourceStorage_eqb (BufferDesc.storage d) Private
        || has_bit t BufferDesc.Storage).
Proof.
  cbv zeta. unfold usage_flags.
  destruct (has_bit (BufferDesc.type d) BufferDesc.Index),
    (has_bit (BufferDesc.type d) BufferDesc.Vertex),
    (has_bit (BufferDesc.type d) BufferDesc.Uniform),
    (has_bit (BufferDesc.type d) BufferDesc.Storage),
    (has_bit (BufferDesc.type d) BufferDesc.Indirect),
    (ResourceStorage_eqb (BufferDesc.storage d) Private);
    repeat split; vm_compute; reflexivity.
Qed.

(** X9. The allocation [Buffer::create] requests for a descriptor with a
    usage type carries usage flags derived bit by bit: the index, vertex,
    uniform, storage and indirect usage bits are those of the usage type;
    the device-address bit is set exactly for uniform, storage or indirect
    buffers; the transfer-source bit exactly for Private storage, and the
    transfer-destination bit exactly for Private storage or storage
    buffers. The memory flags and the storage tier are those of the tier
    [create] settled on. *)
Theorem create_usage_flags
    (ctx : VulkanContext) (desc : BufferDesc.t) (b0 : Buffer) :
  BufferDesc.type desc <> 0 ->
  exists usage r b t,
    Buffer_create ctx desc b0
    = Some (r, b,
            CtxCreateBuffer (BufferDesc.length desc) usage
              (resourceStorageToVkMemoryPropertyFlags ctx (effective_storage ctx desc))
              (BufferDesc.debugName desc) :: t)
    /\ existsb is_backend_allocation t = false
    /\ has_bit usage VK_BUFFER_USAGE_INDEX_BUFFER_BIT
       = has_bit (BufferDesc.type desc) BufferDesc.Index
    /\ has_bit usage VK_BUFFER_USAGE_VERTEX_BUFFER_BIT
       = has_bit (BufferDesc.type desc) BufferDesc.Vertex
    /\ has_bit usage VK_BUFFER_USAGE_UNIFORM_BUFFER_BIT
       = has_bit (BufferDesc.type desc) BufferDesc.Uniform
    /\ has_bit usage VK_BUFFER_USAGE_STORAGE_BUFFER_BIT
       = has_bit (BufferDesc.type desc) BufferDesc.Storage
    /\ has_bit usage VK_BUFFER_USAGE_INDIRECT_BUFFER_BIT
       = has_bit (BufferDesc.type desc) BufferDesc.Indirect
    /\ has_bit usage VK_BUFFER_USAGE_SHADER_DEVICE_ADDRESS_BIT_KHR
       = (has_bit (BufferDesc.type desc) BufferDesc.Uniform
          || has_bit (BufferDesc.type desc) BufferDesc.Storage
          || has_bit (BufferDesc.type desc) BufferDesc.Indirect)
    /\ has_bit usage VK_BUFFER_USAGE_TRANSFER_SRC_BIT
       = ResourceStorage_eqb (effective_storage ctx desc) Private
    /\ has_bit usage VK_BUFFER_USAGE_TRANSFER_DST_BIT
       = (ResourceStorage_eqb (effective_storage ctx desc) Private
          || has_bit (BufferDesc.type desc) BufferDesc.Storage).
Proof.
  intros Hnz.
  pose proof (create_typed ctx desc b0 Hnz) as Hc. cbv zeta in Hc.
  pose proof (usage_flags_bits
                (BufferDesc.with_storage desc (effective_storage ctx desc))) as Hu.
  cbv zeta in Hu.
  eexists. eexists. eexists. eexists.
  split; [exact Hc |].
  split; [unfold assert_events; destruct (Result.isOk _); reflexivity |].
  exact Hu.
Qed.

Lemma create_usage_flags_witness :
  exists usage r b t,
    Buffer_create (ctx_example false false) desc_example Buffer_new
    = Some (r, b,
            CtxCreateBuffer (BufferDesc.length desc_example) usage
              (resourceStorageToVkMemoryPropertyFlags (ctx_example false false)
                 (effective_storage (ctx_example false false) desc_example))
              (BufferDesc.debugName desc_example) :: t)
    /\ existsb is_backend_allocation t = false
    /\ has_bit usage VK_BUFFER_USAGE_INDEX_BUFFER_BIT
       = has_bit (BufferDesc.type desc_example) BufferDesc.Index
    /\ has_bit usage VK_BUFFER_USAGE_VERTEX_BUFFER_BIT
       = has_bit (BufferDesc.type desc_example) BufferDesc.Vertex
    /\ has_bit usage VK_BUFFER_USAGE_UNIFORM_BUFFER_BIT
       = has_bit (BufferDesc.type desc_example) BufferDesc.Uniform
    /\ has_bit usage VK_BUFFER_USAGE_STORAGE_BUFFER_BIT
       = has_bit (BufferDesc.type desc_example) BufferDesc.Storage
    /\ has_bit usage VK_BUFFER_USAGE_INDIRECT_BUFFER_BIT
       = has_bit (BufferDesc.type desc_example) BufferDesc.Indirect
    /\ has_bit usage VK_BUFFER_USAGE_SHADER_DEVICE_ADDRESS_BIT_KHR
       = (has_bit (BufferDesc.type desc_example) BufferDesc.Uniform
          || has_bit (BufferDesc.type desc_example) BufferDesc.Storage
          || has_bit (BufferDesc.type desc_example) BufferDesc.Indirect)
    /\ has_bit usage VK_BUFFER_USAGE_TRANSFER_SRC_BIT
       = ResourceStorage_eqb (effective_storage (ctx_example false false) desc_example)
           Private
    /\ has_bit usage VK_BUFFER_USAGE_TRANSFER_DST_BIT
       = (ResourceStorage_eqb (effective_storage (ctx_example false false) desc_example)
            Private
          || has_bit (BufferDesc.type desc_example) BufferDesc.Storage).
Proof.
  apply (create_usage_flags (ctx_example false false) desc_example Buffer_new).
  simpl. discriminate.
Defined.

(** ** [Buffer::gpuAddress] *)

Lemma land_7_mod_8 (z : Z) : 0 <= z -> Z.land z 7 = z mod 8.
Proof. intros H. change 7 with (Z.ones 3). apply Z.land_ones. lia. Qed.

(** X10. [gpuAddress(offset)] is the device address plus the offset in
    [uint64_t], and leaves the buffer as it is. It raises its alignment
    warning exactly when the offset is not a multiple of 8, and still
    returns the sum. When the device address and the offset are multiples
    of 8, so is the returned address, also when the sum wraps around. *)
Theorem gpuAddress_alignment
    (getVkDeviceAddress : VulkanBuffer -> Z) (offset : Z) (b : Buffer)
    (vb : VulkanBuffer) :
  buffer_ b = Some vb -> is_size_t offset -> is_size_t (getVkDeviceAddress vb) ->
  exists address t,
    Buffer_gpuAddress getVkDeviceAddress offset b = Some (address, b, t)
    /\ address = (getVkDeviceAddress vb + offset) mod 2 ^ 64
    /\ (t = [] <-> offset mod 8 = 0)
    /\ (offset mod 8 <> 0 -> t = [AssertionWarning gpuAddress_message])
    /\ (offset mod 8 = 0 -> getVkDeviceAddress vb mod 8 = 0 -> address mod 8 = 0).
Proof.
  intros Hb Ho Ha. unfold is_size_t in *.
  unfold Buffer_gpuAddress, bind, IGL_VERIFY, deref_buffer, ret, emit.
  rewrite (land_7_mod_8 offset (proj1 Ho)).
  assert (Hmod : ((getVkDeviceAddress vb + offset) mod 2 ^ 64) mod 8
                 = (getVkDeviceAddress vb + offset) mod 8).
  { apply Z.mod_mod_divide. exists (2 ^ 61). reflexivity. }
  destruct (Z.eqb_spec (offset mod 8) 0) as [E | E]; simpl; rewrite Hb; simpl.
  - eexists. eexists. split; [reflexivity |].
    split; [reflexivity |]. split; [tauto |]. split; [intros H; contradiction |].
    intros _ Hbase. unfold add_sz, wrap, size_t_modulus, size_t_width.
    rewrite Hmod, Z.add_mod, Hbase, E by lia. reflexivity.
  - eexists. eexists. split; [reflexivity |].
    split; [reflexivity |].
    split; [split; [discriminate | intros H; contradiction] |].
    split; [reflexivity |]. intros H. contradiction.
Qed.

Lemma gpuAddress_alignment_witness :
  exists address t,
    Buffer_gpuAddress address_example 16 buffer_example_shared
    = Some (address, buffer_example_shared, t)
    /\ address
       = (address_example
            (mkVulkanBuffer true
               (Z.lor VK_MEMORY_PROPERTY_HOST_VISIBLE_BIT
                  VK_MEMORY_PROPERTY_HOST_COHERENT_BIT)
               [x01; x02; x03; x04]) + 16) mod 2 ^ 64
    /\ (t = [] <-> 16 mod 8 = 0)
    /\ (16 mod 8 <> 0 -> t = [AssertionWarning gpuAddress_message])
    /\ (16 mod 8 = 0 ->
        address_example
          (mkVulkanBuffer true
             (Z.lor VK_MEMORY_PROPERTY_HOST_VISIBLE_BIT
                VK_MEMORY_PROPERTY_HOST_COHERENT_BIT)
             [x01; x02; x03; x04]) mod 8 = 0 ->
        address mod 8 = 0).
Proof.
  apply (gpuAddress_alignment address_example 16 buffer_example_shared).
  - reflexivity.
  - unfold is_size_t, size_t_modulus. simpl. lia.
  - unfold is_size_t, size_t_modulus, address_example. simpl. lia.
Defined.

(** An offset that is not aligned: the warning, and the sum all the same. *)
Example gpuAddress_unaligned :
  Buffer_gpuAddress address_example 3 buffer_example_shared
  = Some (4099, buffer_example_shared, [AssertionWarning gpuAddress_message]).
Proof. reflexivity. Qed.

(** ** Device limits *)

Lemma has_bit_single_le (counts n : Z) :
  0 <= counts -> 0 < n -> has_bit counts n = true -> 1 <= counts.
Proof.
  intros Hc Hn H. unfold has_bit in H.
  apply negb_true_iff, Z.eqb_neq in H.
  destruct (Z.eq_dec counts 0) as [-> | Hz]; [| lia].
  rewrite Z.land_0_l in H. contradiction.
Qed.

(** X11. [getFeatureLimits(MaxSamples)] succeeds with one of the counts 1,
    2, 4, 8, 16, 32, 64: the largest of the counts 2 to 64 whose bit is set
    in the color sample counts of the device, and 1 when none of them is
    set. *)
Theorem max_samples_is_largest_supported (limits : VkPhysicalDeviceLimits) :
  let r := Device_getFeatureLimits limits MaxSamples in
  fst r = true
  /\ In (snd r) (1 :: tested_sample_counts)
  /\ (snd r <> 1 -> has_bit (framebufferColorSampleCounts limits) (snd r) = true)
  /\ (forall n, In n tested_sample_counts ->
        has_bit (framebufferColorSampleCounts limits) n = true -> n <= snd r)
  /\ (snd r = 1 <->
      forall n, In n tested_sample_counts ->
        has_bit (framebufferColorSampleCounts limits) n = false).
Proof.
  cbv zeta. unfold Device_getFeatureLimits, tested_sample_counts.
  unfold VK_SAMPLE_COUNT_64_BIT, VK_SAMPLE_COUNT_32_BIT, VK_SAMPLE_COUNT_16_BIT,
    VK_SAMPLE_COUNT_8_BIT, VK_SAMPLE_COUNT_4_BIT, VK_SAMPLE_COUNT_2_BIT.
  cbn [fst snd].
  destruct (has_bit (framebufferColorSampleCounts limits) 64) eqn:H64;
    [| destruct (has_bit (framebufferColorSampleCounts limits) 32) eqn:H32;
       [| destruct (has_bit (framebufferColorSampleCounts limits) 16) eqn:H16;
          [| destruct (has_bit (framebufferColorSampleCounts limits) 8) eqn:H8;
             [| destruct (has_bit (framebufferColorSampleCounts limits) 4) eqn:H4;
                [| destruct (has_bit (framebufferColorSampleCounts limits) 2)
                     eqn:H2]]]]];
    (split; [reflexivity |]);
    (split; [simpl; tauto |]);
    (split; [intros Hne; first [assumption | exfalso; apply Hne; reflexivity] |]);
    (split;
     [intros n Hn Hb;
      destruct Hn as [<- | [<- | [<- | [<- | [<- | [<- | []]]]]]];
      first [lia | congruence] |]);
    (split;
     [intros E;
      first [discriminate E
            | intros n Hn;
              destruct Hn as [<- | [<- | [<- | [<- | [<- | [<- | []]]]]]];
              assumption]
     | intros Hall;
       first [reflexivity
             | exfalso;
               pose proof (Hall 64 ltac:(simpl; tauto));
               pose proof (Hall 32 ltac:(simpl; tauto));
               pose proof (Hall 16 ltac:(simpl; tauto));
               pose proof (Hall 8 ltac:(simpl; tauto));
               pose proof (Hall 4 ltac:(simpl; tauto));
               pose proof (Hall 2 ltac:(simpl; tauto));
               congruence]]).
Qed.

Lemma max_samples_bits (limits : VkPhysicalDeviceLimits) :
  snd (Device_getFeatureLimits limits MaxSamples) > 1 ->
  exists n, In n tested_sample_counts
            /\ has_bit (framebufferColorSampleCounts limits) n = true.
Proof.
  unfold Device_getFeatureLimits, tested_sample_counts.
  unfold VK_SAMPLE_COUNT_64_BIT, VK_SAMPLE_COUNT_32_BIT, VK_SAMPLE_COUNT_16_BIT,
    VK_SAMPLE_COUNT_8_BIT, VK_SAMPLE_COUNT_4_BIT, VK_SAMPLE_COUNT_2_BIT.
  cbn [snd].
  destruct (has_bit (framebufferColorSampleCounts limits) 64) eqn:H64;
    [exists 64; simpl; tauto |].
  destruct (has_bit (framebufferColorSampleCounts limits) 32) eqn:H32;
    [exists 32; simpl; tauto |].
  destruct (has_bit (framebufferColorSampleCounts limits) 16) eqn:H16;
    [exists 16; simpl; tauto |].
  destruct (has_bit (framebufferColorSampleCounts limits) 8) eqn:H8;
    [exists 8; simpl; tauto |].
  destruct (has_bit (framebufferColorSampleCounts limits) 4) eqn:H4;
    [exists 4; simpl; tauto |].
  destruct (has_bit (framebufferColorSampleCounts limits) 2) eqn:H2;
    [exists 2; simpl; tauto |].
  intros H. lia.
Qed.

(** X12. The two queries agree in one direction: when
    [getFeatureLimits(MaxSamples)] reports more than one sample,
    [hasFeature] reports multi-sampling, and the same for
    multi-sample resolve, which is decided by the same test. *)
Theorem max_samples_implies_multisample (limits : VkPhysicalDeviceLimits) :
  0 <= framebufferColorSampleCounts limits ->
  snd (Device_getFeatureLimits limits MaxSamples) > 1 ->
  Device_hasFeature limits MultiSample = true
  /\ Device_hasFeature limits MultiSampleResolve = true.
Proof.
  intros Hc Hgt.
  destruct (max_samples_bits limits Hgt) as (n & Hn & Hb).
  assert (H1 : 1 <= framebufferColorSampleCounts limits)
    by (apply (has_bit_single_le _ n); [exact Hc | | exact Hb];
        simpl in Hn; repeat (destruct Hn as [<- | Hn]; [lia |]); contradiction).
  assert (Hne : framebufferColorSampleCounts limits <> 1).
  { intros E. rewrite E in Hb. simpl in Hn.
    repeat (destruct Hn as [<- | Hn]; [discriminate |]). contradiction. }
  unfold Device_hasFeature, VK_SAMPLE_COUNT_1_BIT.
  split; apply Z.gtb_gt; lia.
Qed.

Lemma max_samples_implies_multisample_witness :
  Device_hasFeature limits_example MultiSample = true
  /\ Device_hasFeature limits_example MultiSampleResolve = true.
Proof.
  apply (max_samples_implies_multisample limits_example).
  - simpl. lia.
  - simpl. lia.
Defined.

(** The converse does not hold: a device whose only sample-count bit is
    one the limit query does not test has the feature and the limit 1. *)
Example multisample_without_max_samples :
  let limits := mkVkPhysicalDeviceLimits 1 1 1 1 1 128 false in
  Device_hasFeature limits MultiSample = true
  /\ Device_getFeatureLimits limits MaxSamples = (true, 1).
Proof. split; reflexivity. Qed.

(** ** Formats without features *)

Lemma has_bit_zero (bit : Z) : has_bit 0 bit = false.
Proof. unfold has_bit. rewrite Z.land_0_l. reflexivity. Qed.

(** X13. A format that has a native equivalent but for which
    [supportsFormat] is false (none of the three feature-flag sources has
    any bit) gets the Unsupported mask from
    [getTextureFormatCapabilities], like a format without native
    equivalent; so a format reported with any capability flag is one
    [supportsFormat] accepts. *)
Theorem capabilities_need_a_supported_format
    (ctx : VulkanContext) (toVk : TextureFormat -> Z)
    (bits : TextureFormatCapabilityBits) (format : TextureFormat) :
  capability_bits_independent bits ->
  toVk format <> VK_FORMAT_UNDEFINED ->
  (supportsFormat ctx (toVk format) = false ->
   Device_getTextureFormatCapabilities ctx toVk bits format = Unsupported bits)
  /\ (Device_getTextureFormatCapabilities ctx toVk bits format <> Unsupported bits ->
      supportsFormat ctx (toVk format) = true).
Proof.
  intros Hind Hf.
  assert (H1 : supportsFormat ctx (toVk format) = false ->
               Device_getTextureFormatCapabilities ctx toVk bits format
               = Unsupported bits).
  { rewrite (capabilities_chosen bits Hind ctx toVk format Hf).
    unfold supportsFormat, format_feature. cbv zeta.
    intros H.
    apply orb_false_iff in H. destruct H as (H & H3).
    apply orb_false_iff in H. destruct H as (H1 & H2).
    apply negb_false_iff, Z.eqb_eq in H1, H2, H3.
    rewrite H1, H2, H3, !has_bit_zero.
    rewrite (unsupported_empty bits Hind). reflexivity. }
  split; [exact H1 |].
  intros Hne. destruct (supportsFormat ctx (toVk format)) eqn:E; [reflexivity |].
  exfalso. apply Hne. apply H1. reflexivity.
Qed.

Lemma capabilities_need_a_supported_format_witness :
  (supportsFormat (ctx_example true false) (toVk_example (TextureFormat_Other 1))
   = false ->
   Device_getTextureFormatCapabilities (ctx_example true false) toVk_example
     bits_example (TextureFormat_Other 1) = Unsupported bits_example)
  /\ (Device_getTextureFormatCapabilities (ctx_example true false) toVk_example
        bits_example (TextureFormat_Other 1) <> Unsupported bits_example ->
      supportsFormat (ctx_example true false) (toVk_example (TextureFormat_Other 1))
      = true).
Proof.
  apply (capabilities_need_a_supported_format (ctx_example true false) toVk_example
           bits_example (TextureFormat_Other 1)).
  - constructor; simpl; first [reflexivity | discriminate].
  - simpl. discriminate.
Defined.


(** ** Pipelines *)

(** X14. [createComputePipeline] returns a pipeline exactly when the
    descriptor has a module for the compute stage. The pipeline is then
    made from the descriptor, the result object is set to Ok and nothing
    is reported; otherwise the handle is null, the result object gets
    ArgumentInvalid with one of the two messages, and one assertion is
    reported. *)
Theorem compute_pipeline_validation
    (desc : ComputePipelineDesc) (out : option Result.t) :
  let r := Device_createComputePipeline desc out in
  is_some (fst (fst r)) = is_some (compute_module desc)
  /\ (r = (Some desc, Result.setOk out, [])
      \/ exists msg what,
           r = (None,
                Result.setResult out (Result.mk Result.ArgumentInvalid msg),
                [AssertionWarning what])
           /\ In msg ["Missing shader stages"; "Missing compute shader"]).
Proof.
  cbv zeta. unfold Device_createComputePipeline, compute_module.
  destruct (computeShaderStages desc) as [stages |].
  - destruct (getModule stages Stage_Compute) as [m |]; cbn [is_some negb fst].
    + split; [reflexivity | left; reflexivity].
    + split; [reflexivity |]. right. eexists. eexists.
      split; [reflexivity | simpl; auto].
  - cbn [is_some fst]. split; [reflexivity |]. right. eexists. eexists.
    split; [reflexivity | simpl; auto].
Qed.

(** X15. A render-pipeline descriptor that passes the four checks (an
    attachment, a vertex module, a fragment module, hence a shader-stage
    set) gives a pipeline made from the descriptor, without any report;
    the result object is then left as it was: unlike
    [createComputePipeline], the function does not set it to Ok, so a
    result stored by an earlier call stays in it. *)
Theorem render_pipeline_success_keeps_result
    (desc : RenderPipelineDesc) (out : option Result.t) :
  ~ no_attachments desc ->
  module_of desc Stage_Vertex <> None ->
  module_of desc Stage_Fragment <> None ->
  Device_createRenderPipeline desc out = (Some desc, out, []).
Proof.
  unfold no_attachments, module_of, Device_createRenderPipeline.
  intros Ha Hv Hf.
  destruct (shaderStages desc) as [stages |]; [| contradiction].
  destruct (getModule stages Stage_Vertex); [| contradiction].
  destruct (getModule stages Stage_Fragment); [| contradiction].
  destruct (colorAttachments desc) as [| c cs];
    destruct (depthAttachmentFormat desc) as [| id]; try reflexivity.
  exfalso. apply Ha. split; reflexivity.
Qed.

Lemma render_pipeline_success_keeps_result_witness :
  Device_createRenderPipeline pipeline_example (Some stale_result)
  = (Some pipeline_example, Some stale_result, []).
Proof.
  apply (render_pipeline_success_keeps_result pipeline_example (Some stale_result)).
  - intros (H & _). discriminate.
  - simpl. discriminate.
  - simpl. discriminate.
Defined.

(** The two pipeline factories on a stale result object. *)
Example pipelines_on_stale_result :
  snd (fst (Device_createRenderPipeline pipeline_example (Some stale_result)))
  = Some stale_result
  /\ snd (fst (Device_createComputePipeline compute_example (Some stale_result)))
     = Some Result.ok.
Proof. split; reflexivity. Qed.

(** ** Shader modules: results and handles *)

Lemma assert_events_no_compilation (c : bool) (what : string) :
  existsb is_compilation (assert_events c what) = false.
Proof. destruct c; reflexivity. Qed.

Lemma stage_assert_passes (stage : ShaderStage) (what : string) :
  assert_events
    (negb (VkShaderStageFlagBits_eqb (shaderStageToVkShaderStage stage)
             VK_SHADER_STAGE_FLAG_BITS_MAX_ENUM)) what = [].
Proof. destruct stage; reflexivity. Qed.

(** X16. A text-form descriptor (size 0) whose source is null or has no
    character before its first NUL is rejected: the module is null, the
    result object gets ArgumentNull with the message of the code, nothing
    is compiled and no backend module is made. The only report is the
    assertion on a null source. *)
Theorem empty_shader_source_is_rejected
    (ctx : VulkanContext) (stage : ShaderStage) (source : option string)
    (name : string) (out : option Result.t) :
  source_is_empty source = true ->
  Device_createShaderModule ctx (ShaderModuleDesc.mk stage source 0 name) out
  = (None,
     Result.setResult out (Result.mk Result.ArgumentNull "Shader source is empty"),
     assert_events (is_some source) "source").
Proof.
  intros He.
  unfold Device_createShaderModule, Device_createShaderModule_text.
  cbn [ShaderModuleDesc.dataSize ShaderModuleDesc.data ShaderModuleDesc.stage
       ShaderModuleDesc.debugName Z.eqb negb].
  rewrite stage_assert_passes.
  destruct source as [raw |]; cbn [source_is_empty is_some negb orb] in *.
  - rewrite He. reflexivity.
  - reflexivity.
Qed.

Lemma empty_shader_source_is_rejected_witness :
  Device_createShaderModule (ctx_example true true)
    (ShaderModuleDesc.mk Stage_Fragment (Some source_nul_first) 0 "fs")
    (Some Result.ok)
  = (None,
     Result.setResult (Some Result.ok)
       (Result.mk Result.ArgumentNull "Shader source is empty"),
     assert_events (is_some (Some source_nul_first)) "source").
Proof.
  apply (empty_shader_source_is_rejected (ctx_example true true) Stage_Fragment
           (Some source_nul_first) "fs" (Some Result.ok)).
  reflexivity.
Defined.

(** X17. With a conversion of backend codes that maps success, and nothing
    else, to Ok, [createShaderModule] stores a result on every path, binary
    or text, and returns a module exactly when the stored result is Ok;
    the module is made of the descriptor it was given. *)
Theorem shader_module_iff_result_ok
    (ctx : VulkanContext) (desc : ShaderModuleDesc.t) (r0 : Result.t) :
  converts_success_only ctx ->
  exists h r t,
    Device_createShaderModule ctx desc (Some r0) = (h, Some r, t)
    /\ is_some h = Result.isOk r
    /\ (forall m, h = Some m -> fst m = desc).
Proof.
  intros Hconv.
  unfold Device_createShaderModule.
  destruct (negb (ShaderModuleDesc.dataSize desc =? 0)).
  - unfold Device_createShaderModule_binary.
    pose proof (Hconv (fst (ivkCreateShaderModuleFromSPIRV ctx
                              (ShaderModuleDesc.data desc)
                              (ShaderModuleDesc.dataSize desc)))) as Hc.
    destruct (fst (ivkCreateShaderModuleFromSPIRV ctx (ShaderModuleDesc.data desc)
                     (ShaderModuleDesc.dataSize desc)) =? VK_SUCCESS);
      cbn [negb fst snd Result.setResult result_or_ok]; rewrite Hc;
      cbn [negb]; eexists; eexists; eexists;
      (split; [reflexivity |]); cbn [is_some];
      (split; [symmetry; exact Hc |]).
    + intros m Hm. injection Hm as <-. reflexivity.
    + intros m Hm. discriminate.
  - unfold Device_createShaderModule_text.
    destruct (negb (is_some (ShaderModuleDesc.data desc))
              || string_is_empty
                   match ShaderModuleDesc.data desc with
                   | Some raw => c_str raw
                   | None => ""
                   end).
    + cbn [negb fst snd Result.setResult result_or_ok Result.isOk Result.code].
      eexists. eexists. eexists. split; [reflexivity |].
      split; [reflexivity |]. intros m Hm. discriminate.
    + match goal with
      | |- context [compileShader ctx ?s ?src] =>
          destruct (Result.isOk (fst (compileShader ctx s src))) eqn:Hok
      end;
        cbn [negb fst snd Result.setResult result_or_ok]; rewrite Hok;
        cbn [negb]; eexists; eexists; eexists;
        (split; [reflexivity |]); cbn [is_some];
        (split; [symmetry; exact Hok |]).
      * intros m Hm. injection Hm as <-. reflexivity.
      * intros m Hm. discriminate.
Qed.

Lemma ctx_example_converts (staging debugPrintf : bool) :
  converts_success_only (ctx_example staging debugPrintf).
Proof.
  intros r. cbn [ctx_example getResultFromVkResult].
  destruct (r =? VK_SUCCESS); reflexivity.
Qed.

Lemma shader_module_iff_result_ok_witness :
  exists h r t,
    Device_createShaderModule (ctx_example true true)
      (ShaderModuleDesc.mk Stage_Fragment (Some shader_example) 0 "fs")
      (Some stale_result)
    = (h, Some r, t)
    /\ is_some h = Result.isOk r
    /\ (forall m, h = Some m
        -> fst m = ShaderModuleDesc.mk Stage_Fragment (Some shader_example) 0 "fs").
Proof.
  apply (shader_module_iff_result_ok (ctx_example true true)
           (ShaderModuleDesc.mk Stage_Fragment (Some shader_example) 0 "fs")
           stale_result).
  intros r. cbn [ctx_example getResultFromVkResult].
  destruct (r =? VK_SUCCESS); reflexivity.
Defined.

(** ** The search for the version marker *)

Lemma string_append_assoc (a b c : string) :
  ((a ++ b) ++ c = a ++ b ++ c)%string.
Proof. induction a as [| x a IH]; [reflexivity |]. simpl. f_equal. exact IH. Qed.

Lemma string_length_append (a b : string) :
  String.length (a ++ b) = (String.length a + String.length b)%nat.
Proof. induction a as [| x a IH]; [reflexivity |]. simpl. f_equal. exact IH. Qed.

Lemma prefix_append (n post : string) : String.prefix n (n ++ post) = true.
Proof.
  induction n as [| x n IH]; [destruct post; reflexivity |].
  simpl. destruct (ascii_dec x x) as [_ | Hne]; [exact IH | contradiction].
Qed.

Lemma prefix_inv (n s : string) :
  String.prefix n s = true -> exists post, s = (n ++ post)%string.
Proof.
  revert s. induction n as [| x n IH]; intros s H.
  - exists s. reflexivity.
  - destruct s as [| y s]; [discriminate |]. simpl in H.
    destruct (ascii_dec x y) as [<- | _]; [| discriminate].
    destruct (IH s H) as (post & ->). exists post. reflexivity.
Qed.

Lemma strstr_unfold (haystack needle : string) :
  strstr haystack needle
  = if String.prefix needle haystack then Some haystack
    else match haystack with
         | EmptyString => None
         | String _ rest => strstr rest needle
         end.
Proof. destruct haystack; reflexivity. Qed.

(** [strstr] finds a needle wherever it is, and only a needle that is
    there. *)
Lemma strstr_has_substring (s needle : string) :
  strstr s needle <> None <-> has_substring s needle.
Proof.
  unfold has_substring. split.
  - induction s as [| c s IH]; rewrite strstr_unfold.
    + destruct (String.prefix needle "") eqn:Hp; [| intros H; contradiction].
      intros _. destruct (prefix_inv _ _ Hp) as (post & ->).
      exists "", post. reflexivity.
    + destruct (String.prefix needle (String c s)) eqn:Hp.
      * intros _. destruct (prefix_inv _ _ Hp) as (post & ->).
        exists "", post. reflexivity.
      * intros H. destruct (IH H) as (pre & post & ->).
        exists (String c pre), post. reflexivity.
  - intros (pre & post & ->).
    induction pre as [| c pre IH]; rewrite strstr_unfold.
    + cbn [String.append]. rewrite prefix_append. discriminate.
    + destruct (String.prefix needle (String c pre ++ needle ++ post)); [discriminate |].
      cbn [String.append]. exact IH.
Qed.

Lemma shader_header_not_empty (ext : string) (stage : ShaderStage) :
  (0 < String.length (shader_header ext (shaderStageToVkShaderStage stage)))%nat.
Proof.
  rewrite shader_header_stage, string_length_append.
  assert (H : (0 < String.length header_version)%nat) by (vm_compute; lia).
  lia.
Qed.

Lemma header_version_has_marker : has_substring header_version version_marker.
Proof.
  exists "
      ". eexists. vm_compute. reflexivity.
Qed.

(** X18. The text path leaves a source as it is exactly when the version
    marker occurs somewhere in it, at the start of a line or not, in a
    comment or not; every other source gets the header of its stage in
    front. *)
Theorem header_added_iff_no_marker
    (ctx : VulkanContext) (stage : ShaderStage) (s : string) :
  let vkStage := shaderStageToVkShaderStage stage in
  (patched_source ctx vkStage s = s <-> has_substring s version_marker)
  /\ (patched_source ctx vkStage s <> s
      <-> patched_source ctx vkStage s
          = (shader_header
               (if extensions_enabled ctx VK_KHR_SHADER_NON_SEMANTIC_INFO_EXTENSION_NAME
                then debug_printf_extension else "") vkStage ++ s)%string
          /\ ~ has_substring s version_marker).
Proof.
  cbv zeta.
  set (ext := if extensions_enabled ctx VK_KHR_SHADER_NON_SEMANTIC_INFO_EXTENSION_NAME
              then debug_printf_extension else "").
  assert (Hlen : forall h : string, (0 < String.length h)%nat -> (h ++ s)%string <> s).
  { intros h Hh Heq. apply (f_equal String.length) in Heq.
    rewrite string_length_append in Heq. lia. }
  pose proof (shader_header_not_empty ext stage) as Hpos.
  pose proof (strstr_has_substring s version_marker) as Hs.
  unfold patched_source. fold ext. unfold version_marker in Hs.
  fold version_marker in Hs.
  change "#version " with version_marker.
  destruct (strstr s version_marker) as [r |].
  - assert (Hh : has_substring s version_marker) by (apply Hs; discriminate).
    split.
    + split; [intros _; exact Hh | reflexivity].
    + split; [intros H; contradiction |].
      intros (_ & Hn). contradiction.
  - assert (Hn : ~ has_substring s version_marker)
      by (intros Hh; apply Hs in Hh; contradiction).
    split.
    + split; [intros H; exfalso; exact (Hlen _ Hpos H) | intros Hh; contradiction].
    + split; [intros _; split; [reflexivity | exact Hn] |].
      intros _. exact (Hlen _ Hpos).
Qed.

(** The text path on a non-empty source: the result object and the events
    are those of the compilation of the patched source. *)
Lemma createShaderModule_text_result
    (ctx : VulkanContext) (stage : ShaderStage) (raw name : string)
    (out : option Result.t) :
  c_str raw <> "" ->
  let vkStage := shaderStageToVkShaderStage stage in
  let source := patched_source ctx vkStage (c_str raw) in
  snd (fst (Device_createShaderModule ctx
              (ShaderModuleDesc.mk stage (Some raw) 0 name) out))
  = Result.setResult out (fst (compileShader ctx vkStage source))
  /\ option_map snd
       (fst (fst (Device_createShaderModule ctx
                    (ShaderModuleDesc.mk stage (Some raw) 0 name) out)))
     = (if Result.isOk (fst (compileShader ctx vkStage source))
        then Some (snd (compileShader ctx vkStage source)) else None).
Proof.
  intros Hne. cbv zeta.
  unfold Device_createShaderModule, Device_createShaderModule_text.
  cbn [ShaderModuleDesc.dataSize ShaderModuleDesc.data ShaderModuleDesc.stage
       ShaderModuleDesc.debugName Z.eqb negb is_some orb].
  rewrite (string_is_empty_false _ Hne).
  destruct (Result.isOk (fst (compileShader ctx (shaderStageToVkShaderStage stage)
                                (patched_source ctx (shaderStageToVkShaderStage stage)
                                   (c_str raw))))) eqn:Hok;
    cbn [negb fst snd Result.setResult result_or_ok]; rewrite Hok;
    cbn [negb fst snd option_map]; split; reflexivity.
Qed.

Lemma c_str_append (a b : string) :
  c_str a = a -> c_str (a ++ b) = (a ++ c_str b)%string.
Proof.
  induction a as [| x a IH]; [reflexivity |].
  cbn [c_str String.append]. destruct (Ascii.eqb x zero); [discriminate |].
  intros H. injection H as H. rewrite (IH H). reflexivity.
Qed.

Lemma c_str_idempotent (s : string) : c_str (c_str s) = c_str s.
Proof.
  induction s as [| x s IH]; [reflexivity |].
  cbn [c_str]. destruct (Ascii.eqb x zero) eqn:E; [reflexivity |].
  cbn [c_str]. rewrite E, IH. reflexivity.
Qed.

(** The patched source has no NUL character of its own. *)
Lemma c_str_patched_source
    (ctx : VulkanContext) (stage : ShaderStage) (s : string) :
  c_str (patched_source ctx (shaderStageToVkShaderStage stage) (c_str s))
  = patched_source ctx (shaderStageToVkShaderStage stage) (c_str s).
Proof.
  unfold patched_source.
  destruct (strstr (c_str s) "#version "); [apply c_str_idempotent |].
  rewrite shader_header_stage, !string_append_assoc.
  rewrite c_str_append by (vm_compute; reflexivity).
  rewrite c_str_append
    by (destruct (extensions_enabled ctx VK_KHR_SHADER_NON_SEMANTIC_INFO_EXTENSION_NAME);
        vm_compute; reflexivity).
  rewrite c_str_append by (destruct stage; vm_compute; reflexivity).
  rewrite c_str_idempotent. reflexivity.
Qed.

Lemma patched_source_not_empty
    (ctx : VulkanContext) (stage : ShaderStage) (s : string) :
  s <> "" -> patched_source ctx (shaderStageToVkShaderStage stage) s <> "".
Proof.
  intros Hs. unfold patched_source.
  destruct (strstr s "#version "); [exact Hs |].
  intros H. apply (f_equal String.length) in H.
  rewrite string_length_append in H.
  pose proof (shader_header_not_empty
                (if extensions_enabled ctx VK_KHR_SHADER_NON_SEMANTIC_INFO_EXTENSION_NAME
                 then debug_printf_extension else "") stage) as Hpos.
  simpl in H. lia.
Qed.

Lemma patched_source_fixed
    (ctx : VulkanContext) (stage : ShaderStage) (s : string) :
  patched_source ctx (shaderStageToVkShaderStage stage)
    (patched_source ctx (shaderStageToVkShaderStage stage) s)
  = patched_source ctx (shaderStageToVkShaderStage stage) s.
Proof.
  assert (Hfix : forall t, has_substring t version_marker ->
                           patched_source ctx (shaderStageToVkShaderStage stage) t = t).
  { intros t Ht. apply strstr_has_substring in Ht.
    unfold patched_source. change "#version " with version_marker.
    destruct (strstr t version_marker); [reflexivity | contradiction]. }
  apply Hfix.
  unfold patched_source at 1. change "#version " with version_marker.
  destruct (strstr s version_marker) eqn:Hs.
  - apply strstr_has_substring. rewrite Hs. discriminate.
  - rewrite shader_header_stage.
    destruct header_version_has_marker as (pre & post & ->).
    set (ext := if extensions_enabled ctx VK_KHR_SHADER_NON_SEMANTIC_INFO_EXTENSION_NAME
                then debug_printf_extension else "").
    exists pre, (post ++ ext ++ stage_header stage ++ s)%string.
    rewrite !string_append_assoc. reflexivity.
Qed.

(** X19. Patching is idempotent: the header the text path adds has the
    version marker itself. So the source the compiler was given for a
    non-empty text, handed to [createShaderModule] as the text of a
    descriptor, is compiled as it is, without a second header: the same
    compilation, the same reports, the same result and the same backend
    module as for the original text. *)
Theorem patched_source_idempotent
    (ctx : VulkanContext) (stage : ShaderStage) (raw name : string)
    (out : option Result.t) :
  c_str raw <> "" ->
  let vkStage := shaderStageToVkShaderStage stage in
  let patched := patched_source ctx vkStage (c_str raw) in
  let again :=
    Device_createShaderModule ctx (ShaderModuleDesc.mk stage (Some patched) 0 name) out in
  let first :=
    Device_createShaderModule ctx (ShaderModuleDesc.mk stage (Some raw) 0 name) out in
  patched_source ctx vkStage patched = patched
  /\ snd again = snd first
  /\ snd (fst again) = snd (fst first)
  /\ option_map snd (fst (fst again)) = option_map snd (fst (fst first)).
Proof.
  intros Hne. cbv zeta.
  pose proof (patched_source_fixed ctx stage (c_str raw)) as Hfix.
  pose proof (c_str_patched_source ctx stage raw) as Hc.
  assert (Hne' : c_str (patched_source ctx (shaderStageToVkShaderStage stage) (c_str raw))
                 <> "")
    by (rewrite Hc; apply patched_source_not_empty; exact Hne).
  split; [exact Hfix |].
  split.
  { rewrite (createShaderModule_text_events ctx stage _ name out Hne').
    rewrite (createShaderModule_text_events ctx stage raw name out Hne).
    rewrite Hc, Hfix. reflexivity. }
  destruct (createShaderModule_text_result ctx stage _ name out Hne') as (Hr1 & Hh1).
  destruct (createShaderModule_text_result ctx stage raw name out Hne) as (Hr2 & Hh2).
  rewrite Hr1, Hr2, Hh1, Hh2, Hc, Hfix. split; reflexivity.
Qed.

Lemma patched_source_idempotent_witness :
  let vkStage := shaderStageToVkShaderStage Stage_Fragment in
  let patched := patched_source (ctx_example true true) vkStage (c_str shader_example) in
  let again :=
    Device_createShaderModule (ctx_example true true)
      (ShaderModuleDesc.mk Stage_Fragment (Some patched) 0 "fs") None in
  let first :=
    Device_createShaderModule (ctx_example true true)
      (ShaderModuleDesc.mk Stage_Fragment (Some shader_example) 0 "fs") None in
  patched_source (ctx_example true true) vkStage patched = patched
  /\ snd again = snd first
  /\ snd (fst again) = snd (fst first)
  /\ option_map snd (fst (fst again)) = option_map snd (fst (fst first)).
Proof.
  apply (patched_source_idempotent (ctx_example true true) Stage_Fragment
           shader_example "fs" None).
  vm_compute. discriminate.
Defined.
